(** * UMPD-Patcher: a shallow embedding of [upatcher.py]

    The script is sequential glue: it spawns external tools
    ([apt-get], [wget], [apktool], [java -jar uber-apk-signer.jar]) and
    performs a few filesystem operations ([os.rename], [os.makedirs],
    [os.path.exists], [os.walk], [zipfile.ZipFile]).

    The embedding is organised as follows.

    - [PyStr]: the string operations of the Python runtime that the script
      relies on ([str.split], [str.join], [os.path.join], [os.path.normpath]).
    - [Fs]: a POSIX filesystem without links, as a tree of directories whose
      entries are finite maps from names to nodes.
    - [Py]: a state-and-exception monad over a [world] (disk, working
      directory, console, and the history of spawned commands), and the
      library primitives [print], [subprocess_run], [os_path_exists],
      [os_rename], [os_makedirs], [os_walk], [os_path_relpath] and the
      [zipfile] writer.
    - [Upatcher]: the eight functions of [upatcher.py], line by line.
    - [Tools]: contracts of the external tools (what an exit code of zero
      means) and a concrete, executable instance of them.

    External processes are a parameter [spawn] of the whole development: the
    script learns about them only through [subprocess.run].

    Left out: links, permissions and devices on the disk; the [argparse]
    command line ([main] starts from the four parsed flags); the byte
    encoding of archives. *)

From Stdlib Require Import ZArith Ascii.
From stdpp Require Import gmap strings list fin_maps.

#[local] Set Warnings "-register-all".

(** ** Python strings *)

Module PyStr.

(** [s.startswith("/")] *)
Definition starts_with_slash (s : string) : bool :=
  match s with
  | String c _ => Ascii.eqb c "/"%char
  | EmptyString => false
  end.

(** [s.endswith("/")] *)
Fixpoint ends_with_slash (s : string) : bool :=
  match s with
  | EmptyString => false
  | String c EmptyString => Ascii.eqb c "/"%char
  | String _ s' => ends_with_slash s'
  end.

(** [s.split("/")]: never empty, [""] for the empty string. *)
Fixpoint split_slash (s : string) : list string :=
  match s with
  | EmptyString => [""]
  | String c s' =>
      if Ascii.eqb c "/"%char then "" :: split_slash s'
      else match split_slash s' with
           | h :: t => String c h :: t
           | [] => [String c ""]
           end
  end.

(** [sep.join(l)] *)
Fixpoint str_join (sep : string) (l : list string) : string :=
  match l with
  | [] => ""
  | [x] => x
  | x :: l' => x +:+ sep +:+ str_join sep l'
  end.

(** [sub in s] *)
Definition contains (sub s : string) : Prop :=
  ∃ pre post, s = pre +:+ sub +:+ post.

(** [posixpath.join(a, b)] for two arguments. *)
Definition os_path_join (a b : string) : string :=
  if starts_with_slash b then b
  else if bool_decide (a = "") || ends_with_slash a then a +:+ b
  else a +:+ "/" +:+ b.

(** A directory entry name: what [readdir] can return, apart from the
    two special entries. *)
Definition valid_name (c : string) : Prop :=
  c ≠ "" ∧ c ≠ "." ∧ c ≠ ".." ∧ split_slash c = [c].

(** One iteration of the loop of [posixpath.normpath] over the components
    of a path; [abs] says whether the path has initial slashes, and the
    list is the stack [new_comps]. *)
Definition norm_step (abs : bool) (st : list string) (c : string) : list string :=
  if bool_decide (c = "") || bool_decide (c = ".") then st
  else if negb (bool_decide (c = ".."))
          || (negb abs && bool_decide (st = []))
          || bool_decide (last st = Some "..")
       then st ++ [c]
       else removelast st.

Definition norm_comps (abs : bool) (st comps : list string) : list string :=
  fold_left (norm_step abs) comps st.

(** [posixpath.normpath] of a path without initial slashes. *)
Definition normpath_rel (p : string) : string :=
  if bool_decide (p = "") then "."
  else match norm_comps false [] (split_slash p) with
       | [] => "."
       | l => str_join "/" l
       end.

(** The components of [os.path.abspath(p)], given the components of the
    working directory. *)
Definition abspath_comps (cwd : list string) (p : string) : list string :=
  if starts_with_slash p then norm_comps true [] (split_slash p)
  else norm_comps true [] (cwd ++ split_slash p).

(** [os.path.commonprefix] of two lists of components. *)
Fixpoint common_prefix (a b : list string) : list string :=
  match a, b with
  | x :: a', y :: b' => if bool_decide (x = y) then x :: common_prefix a' b' else []
  | _, _ => []
  end.

(** [posixpath.relpath(path, start)] once both absolute paths are known;
    the empty [path] is rejected by the caller. *)
Definition relpath_comps (start_list path_list : list string) : string :=
  let i := length (common_prefix start_list path_list) in
  match (replicate (length start_list - i) ".." ++ drop i path_list)%list with
  | [] => "."
  | rel_list => str_join "/" rel_list
  end.

End PyStr.

Export PyStr.

(** ** The filesystem *)

Module Fs.

(** The bytes of a file. An archive written by [zipfile] is kept as the list
    of its members (name and bytes) rather than as its encoded bytes: the
    encoding and its inverse belong to the library. *)
Inductive content :=
  | Bytes (s : string)
  | Archive (members : list (string * content)).

(** A node is a regular file or a directory; there are no links. *)
Inductive node :=
  | File (c : content)
  | Dir (entries : gmap string node).

(** A location is the list of names from the root directory. *)
Abbreviation loc := (list string).

Fixpoint lookup_at (k : loc) (n : node) : option node :=
  match k with
  | [] => Some n
  | c :: k' =>
      match n with
      | Dir es => es !! c ≫= lookup_at k'
      | File _ => None
      end
  end.

Definition is_dir_at (root : node) (k : loc) : bool :=
  match lookup_at k root with
  | Some (Dir _) => true
  | _ => false
  end.

(** The parent of a location, when it has one, is a directory. *)
Definition parent_dir (n : node) (k : loc) : Prop :=
  ∀ p c, k = p ++ [c] → is_dir_at n p = true.

(** Put [v] at [k]; the parent of [k] has to be a directory, otherwise
    nothing changes. *)
Fixpoint write_at (k : loc) (v : node) (n : node) : node :=
  match k with
  | [] => v
  | c :: k' =>
      match n with
      | Dir es =>
          Dir (partial_alter
                 (λ o, match o with
                       | Some sub => Some (write_at k' v sub)
                       | None => match k' with [] => Some v | _ => None end
                       end) c es)
      | File _ => n
      end
  end.

(** Unlink the node at [k], with everything below it. *)
Fixpoint remove_at (k : loc) (n : node) : node :=
  match k with
  | [] => n
  | c :: k' =>
      match n with
      | Dir es =>
          match k' with
          | [] => Dir (delete c es)
          | _ => Dir (alter (remove_at k') c es)
          end
      | File _ => n
      end
  end.

(** Path resolution ([namei]) from the directory [cur]: every component is
    looked up in a directory, [""] and ["."] stay, [".."] goes to the
    parent. The last name itself need not exist. *)
Fixpoint namei (root : node) (cur : loc) (comps : list string) : option loc :=
  match comps with
  | [] => Some cur
  | c :: rest =>
      if is_dir_at root cur then
        if bool_decide (c = "") || bool_decide (c = ".") then namei root cur rest
        else if bool_decide (c = "..") then namei root (removelast cur) rest
        else namei root (cur ++ [c]) rest
      else None
  end.

Definition resolve (root : node) (cwd : loc) (p : string) : option loc :=
  if bool_decide (p = "") then None
  else namei root (if starts_with_slash p then [] else cwd) (split_slash p).

(** The regular files below a directory, top-down: the files of the
    directory itself in listing order, then those of each subdirectory. *)
Definition listing (es : gmap string node) : list (string * node) := map_to_list es.

Definition file_entries (l : list (string * node)) : list (string * content) :=
  omap (λ e, match e.2 with File c => Some (e.1, c) | Dir _ => None end) l.

Definition dir_names (l : list (string * node)) : list string :=
  omap (λ e, match e.2 with Dir _ => Some e.1 | File _ => None end) l.

Definition file_names (l : list (string * node)) : list string :=
  (file_entries l).*1.

Fixpoint tree_files (n : node) : list (loc * content) :=
  match n with
  | File _ => []
  | Dir es =>
      ((λ e, ([e.1], e.2)) <$> file_entries (listing es))
      ++ map_fold (λ name sub acc,
                     ((λ e, (name :: e.1, e.2)) <$> tree_files sub) ++ acc) [] es
  end.

Fixpoint count_files (n : node) : nat :=
  match n with
  | File _ => 1
  | Dir es => map_fold (λ _ sub acc, count_files sub + acc) 0 es
  end.

(** Every name in the tree is a proper directory entry name. *)
Definition wf_node (n : node) : Prop :=
  ∀ k sub, lookup_at k n = Some sub → Forall valid_name k.

Fixpoint height (n : node) : nat :=
  match n with
  | File _ => 0
  | Dir es => S (map_fold (λ _ sub acc, height sub `max` acc) 0 es)
  end.

End Fs.

Export Fs.

(** ** The Python runtime *)

Module Py.

(** The exceptions the script can meet; all of them are subclasses of
    [Exception]. [FileNotFoundError] and the three after it are what the
    operating system reports through [os]. *)
Inductive exn :=
  | RuntimeError (msg : string)
  | ValueError (msg : string)
  | FileNotFoundError (msg : string)
  | FileExistsError (msg : string)
  | NotADirectoryError (msg : string)
  | IsADirectoryError (msg : string)
  | OSError (msg : string).

(** [str(e)] *)
Definition str_exn (e : exn) : string :=
  match e with
  | RuntimeError m | ValueError m | FileNotFoundError m | FileExistsError m
  | NotADirectoryError m | IsADirectoryError m | OSError m => m
  end.

(** The exceptions [os] raises carry the error number of the failed call;
    a [FileNotFoundError] of that kind starts with the text of [ENOENT]. *)
Definition errno (e : exn) : Prop :=
  match e with
  | FileNotFoundError m => ∃ m', m = "[Errno 2] No such file or directory: " +:+ m'
  | RuntimeError _ | ValueError _ => False
  | _ => True
  end.

Inductive outcome (A : Type) :=
  | Returned (a : A)
  | Raised (e : exn).
Arguments Returned {A} a.
Arguments Raised {A} e.

(** What the interpreter can observe and change. [history] is the list of
    argument vectors handed to [subprocess.run] so far, oldest first. *)
Record world := World {
  fs : node;
  cwd : loc;
  console : list string;
  history : list (list string)
}.

(** [subprocess.CompletedProcess], together with the disk the child left. *)
Record completed := Completed {
  returncode : Z;
  stdout : string;
  stderr : string;
  disk : node
}.

(** A child either runs to completion or cannot be started at all
    ([subprocess.run] then raises, for instance when the executable is not
    on the search path). *)
Inductive launch :=
  | Exited (r : completed)
  | NotLaunched (e : exn).

(** The behaviour of every external program, as a function of its argument
    vector and of the world at the time it is started. *)
Definition process : Type := list string → world → launch.

Definition py (A : Type) : Type := world → outcome A * world.

#[global] Instance py_ret : MRet py := λ A a w, (Returned a, w).
#[global] Instance py_bind : MBind py := λ A B f m w,
  match m w with
  | (Returned a, w') => f a w'
  | (Raised e, w') => (Raised e, w')
  end.

Definition raise {A} (e : exn) : py A := λ w, (Raised e, w).

Definition set_fs (w : world) (d : node) : world :=
  World d (cwd w) (console w) (history w).
Definition say (s : string) (w : world) : world :=
  World (fs w) (cwd w) (console w ++ [s]) (history w).
Definition ran (command : list string) (w : world) : world :=
  World (fs w) (cwd w) (console w) (history w ++ [command]).

(** [print(s)] *)
Definition print (s : string) : py unit := λ w, (Returned tt, say s w).

(** [subprocess.run(command, capture_output=True, text=True)] *)
Definition subprocess_run (spawn : process) (command : list string) : py completed := λ w,
  match spawn command w with
  | Exited r => (Returned r, set_fs (ran command w) (disk r))
  | NotLaunched e => (Raised e, ran command w)
  end.

Definition enoent (p : string) : exn :=
  FileNotFoundError ("[Errno 2] No such file or directory: '" +:+ p +:+ "'").

(** What a path names in a world: anything at all, or a regular file. *)
Definition exists_at (w : world) (p : string) : bool :=
  match resolve (fs w) (cwd w) p with
  | Some k => bool_decide (is_Some (lookup_at k (fs w)))
  | None => false
  end.

Definition file_at (w : world) (p : string) : option content :=
  match resolve (fs w) (cwd w) p ≫= λ k, lookup_at k (fs w) with
  | Some (File c) => Some c
  | _ => None
  end.

Definition dir_at (w : world) (p : string) : option (gmap string node) :=
  match resolve (fs w) (cwd w) p ≫= λ k, lookup_at k (fs w) with
  | Some (Dir es) => Some es
  | _ => None
  end.

(** [os.path.exists(p)] *)
Definition os_path_exists (p : string) : py bool := λ w, (Returned (exists_at w p), w).

(** [os.rename(src, dst)] on a POSIX system. *)
Definition os_rename (src dst : string) : py unit := λ w,
  let err := "'" +:+ src +:+ "' -> '" +:+ dst +:+ "'" in
  match resolve (fs w) (cwd w) src with
  | None => (Raised (FileNotFoundError ("[Errno 2] No such file or directory: " +:+ err)), w)
  | Some ks =>
      match lookup_at ks (fs w), resolve (fs w) (cwd w) dst with
      | None, _ | _, None =>
          (Raised (FileNotFoundError ("[Errno 2] No such file or directory: " +:+ err)), w)
      | Some n, Some kd =>
          let moved := set_fs w (write_at kd n (remove_at ks (fs w))) in
          if bool_decide (ks = kd) then (Returned tt, w)
          else if bool_decide (ks = []) then
            (Raised (OSError ("[Errno 16] Device or resource busy: " +:+ err)), w)
          else if bool_decide (ks `prefix_of` kd) then
            (Raised (OSError ("[Errno 22] Invalid argument: " +:+ err)), w)
          else
            match n, lookup_at kd (fs w) with
            | File _, Some (Dir _) =>
                (Raised (IsADirectoryError ("[Errno 21] Is a directory: " +:+ err)), w)
            | Dir _, Some (File _) =>
                (Raised (NotADirectoryError ("[Errno 20] Not a directory: " +:+ err)), w)
            | Dir _, Some (Dir es) =>
                if bool_decide (es = ∅) then (Returned tt, moved)
                else (Raised (OSError ("[Errno 39] Directory not empty: " +:+ err)), w)
            | _, _ => (Returned tt, moved)
            end
      end
  end.

(** The loop behind [os.makedirs(p, exist_ok=True)]: walk the components,
    creating every directory that is missing. *)
Fixpoint makedirs_from (p : string) (root : node) (cur : loc) (comps : list string)
    : exn + node :=
  match comps with
  | [] => inr root
  | c :: rest =>
      if negb (is_dir_at root cur) then
        inl (NotADirectoryError ("[Errno 20] Not a directory: '" +:+ p +:+ "'"))
      else if bool_decide (c = "") || bool_decide (c = ".") then
        makedirs_from p root cur rest
      else if bool_decide (c = "..") then makedirs_from p root (removelast cur) rest
      else match lookup_at (cur ++ [c]) root with
           | Some (Dir _) => makedirs_from p root (cur ++ [c]) rest
           | Some (File _) =>
               inl (match rest with
                    | [] => FileExistsError ("[Errno 17] File exists: '" +:+ p +:+ "'")
                    | _ => NotADirectoryError ("[Errno 20] Not a directory: '" +:+ p +:+ "'")
                    end)
           | None => makedirs_from p (write_at (cur ++ [c]) (Dir ∅) root) (cur ++ [c]) rest
           end
  end.

Definition os_makedirs (p : string) : py unit := λ w,
  if bool_decide (p = "") then (Raised (enoent p), w)
  else match makedirs_from p (fs w) (if starts_with_slash p then [] else cwd w)
               (split_slash p) with
       | inl e => (Raised e, w)
       | inr d => (Returned tt, set_fs w d)
       end.

(** [os.walk(top)], top-down, as the list of the triples it yields. A
    directory that cannot be listed yields nothing. *)
Fixpoint walk_node (top : string) (n : node) : list (string * list string * list string) :=
  match n with
  | File _ => []
  | Dir es =>
      (top, dir_names (listing es), file_names (listing es))
      :: map_fold (λ name sub acc, walk_node (os_path_join top name) sub ++ acc) [] es
  end.

Definition os_walk (top : string) : py (list (string * list string * list string)) := λ w,
  (Returned match resolve (fs w) (cwd w) top ≫= λ k, lookup_at k (fs w) with
            | Some n => walk_node top n
            | None => []
            end, w).

(** [os.path.relpath(path, start)] *)
Definition os_path_relpath (path start : string) : py string := λ w,
  if bool_decide (path = "") then (Raised (ValueError "no path specified"), w)
  else (Returned (relpath_comps (abspath_comps (cwd w) start) (abspath_comps (cwd w) path)), w).

(** [zipfile.ZipFile(p, 'w', ZIP_DEFLATED)]: the file is created, or
    truncated, when the object is built. The handle is the location of the
    file; the members written so far are what the file holds. *)
Definition zip_open (p : string) : py loc := λ w,
  match resolve (fs w) (cwd w) p with
  | None => (Raised (enoent p), w)
  | Some k =>
      match lookup_at k (fs w) with
      | Some (Dir _) => (Raised (IsADirectoryError ("[Errno 21] Is a directory: '" +:+ p +:+ "'")), w)
      | _ => (Returned k, set_fs w (write_at k (File (Archive [])) (fs w)))
      end
  end.

(** The member name [ZipInfo.from_file] derives from [arcname]. *)
Definition zip_member_name (arcname : string) : string := normpath_rel arcname.

(** [xapk.write(file_path, arcname)] *)
Definition zip_write (xapk : loc) (file_path arcname : string) : py unit := λ w,
  match resolve (fs w) (cwd w) file_path ≫= λ k, lookup_at k (fs w) with
  | None => (Raised (enoent file_path), w)
  | Some n =>
      let member :=
        match n with
        | File c => (zip_member_name arcname, c)
        | Dir _ => (zip_member_name arcname +:+ "/", Bytes "")
        end in
      match lookup_at xapk (fs w) with
      | Some (File (Archive ms)) =>
          (Returned tt, set_fs w (write_at xapk (File (Archive (ms ++ [member]))) (fs w)))
      | _ => (Raised (ValueError "Attempt to write to ZIP archive that was already closed"), w)
      end
  end.

(** The argument vectors a computation hands to [subprocess.run] when it
    is started in [w], in order. *)
Definition spawned {A} (m : py A) (w : world) : list (list string) :=
  drop (length (history w)) (history (m w).2).

(** [m] hands the commands of [cmds] to [subprocess.run], in this order and
    stopping where it raises: a run that raises has started an initial part
    of them, a run that returns has started them all and returns a value
    that satisfies [post]. *)
Definition emits {A} (m : py A) (cmds : list (list string)) (post : A → Prop) : Prop :=
  ∀ w, history (m w).2 = history w ++ spawned m w
       ∧ spawned m w `prefix_of` cmds
       ∧ ∀ a, (m w).1 = Returned a → spawned m w = cmds ∧ post a.

(** [for x in l: body(x)] *)
Fixpoint for_each {A} (l : list A) (body : A → py unit) : py unit :=
  match l with
  | [] => mret tt
  | x :: l' => body x;; for_each l' body
  end.

End Py.

Export Py.

(** ** The script *)

Module Upatcher.

Section Script.

Variable spawn : process.

Definition rule : string := "------------------------------".

(** [run_command(command, error_message)], lines 8-18. *)
Definition run_command (command : list string) (error_message : string) : py unit :=
  print ("Executing: " +:+ str_join " " command);;
  result ← subprocess_run spawn command;
  if negb (returncode result =? 0)%Z then
    print ("Command failed! Stderr: " +:+ stderr result);;
    raise (RuntimeError (error_message +:+ ": " +:+ stderr result))
  else
    print (stdout result);;
    print "Command successful.".

(** The worlds [run_command] goes through: after line 12, and after the
    child has exited, on either branch of line 14. *)
Definition announced (command : list string) (w : world) : world :=
  say ("Executing: " +:+ str_join " " command) w.
Definition exited (command : list string) (r : completed) (w : world) : world :=
  set_fs (ran command (announced command w)) (disk r).
Definition after_success (command : list string) (r : completed) (w : world) : world :=
  say "Command successful." (say (stdout r) (exited command r w)).
Definition after_failure (command : list string) (r : completed) (w : world) : world :=
  say ("Command failed! Stderr: " +:+ stderr r) (exited command r w).

(** [setup_environment(keystore_url)], lines 20-42. *)
Definition setup_environment (keystore_url : string) : py string :=
  print "Setting up the environment...";;
  run_command ["sudo"; "apt-get"; "update"] "Failed to update apt";;
  run_command ["sudo"; "apt-get"; "install"; "openjdk-8-jre-headless"; "-y"]
    "Failed to install OpenJDK 8";;
  let apktool_url :=
    "https://raw.githubusercontent.com/iBotPeaches/Apktool/master/scripts/linux/apktool" in
  let apktool_jar_url :=
    "https://bitbucket.org/iBotPeaches/apktool/downloads/apktool_2.9.3.jar" in
  run_command ["wget"; "-q"; apktool_url; "-O"; "apktool"]
    "Failed to download apktool script";;
  run_command ["wget"; "-q"; apktool_jar_url; "-O"; "apktool.jar"]
    "Failed to download apktool JAR";;
  os_makedirs "/usr/local/bin";;
  os_rename "apktool" "/usr/local/bin/apktool";;
  os_rename "apktool.jar" "/usr/local/bin/apktool.jar";;
  run_command ["sudo"; "chmod"; "+x"; "/usr/local/bin/apktool"]
    "Failed to set execute permissions on apktool script";;
  let uber_signer_url :=
    "https://github.com/patrickfav/uber-apk-signer/releases/download/v1.3.0/uber-apk-signer-1.3.0.jar" in
  run_command ["wget"; "-q"; uber_signer_url; "-O"; "uber-apk-signer.jar"]
    "Failed to download uber-apk-signer";;
  let keystore_filename := "debug.keystore" in
  run_command ["wget"; "-q"; keystore_url; "-O"; keystore_filename]
    "Failed to download debug.keystore";;
  print "Environment setup complete!";;
  print rule;;
  mret keystore_filename.

(** [download_and_decompile(base_apk_dlink, split_apk_dlink)], lines 44-67. *)
Definition download_and_decompile (base_apk_dlink split_apk_dlink : string)
    : py (string * string) :=
  print "Downloading and decompiling APKs...";;
  run_command ["wget"; "-q"; base_apk_dlink; "-O"; "base.apk"] "Failed to download base APK";;
  run_command ["wget"; "-q"; split_apk_dlink; "-O"; "split.apk"] "Failed to download split APK";;
  run_command ["apktool"; "d"; "base.apk"] "Failed to decompile base APK";;
  run_command ["apktool"; "d"; "split.apk"] "Failed to decompile split APK";;
  let base_decompile_folder := "base" in
  let split_decompile_folder := "split" in
  print ("Decompiled base to: " +:+ base_decompile_folder);;
  print ("Decompiled split to: " +:+ split_decompile_folder);;
  print "Decompilation complete!";;
  print rule;;
  mret (base_decompile_folder, split_decompile_folder).

(** The four paths computed at lines 75-78. *)
Definition mod_dir (split_decompile_folder : string) : string :=
  os_path_join split_decompile_folder "lib/arm64-v8a".
Definition orig_file (split_decompile_folder : string) : string :=
  os_path_join (mod_dir split_decompile_folder) "libmain.so".
Definition new_orig_file (split_decompile_folder : string) : string :=
  os_path_join (mod_dir split_decompile_folder) "libmain_orig.so".
Definition mod_file_path (split_decompile_folder : string) : string :=
  os_path_join (mod_dir split_decompile_folder) "libmain.so".

(** The download at line 84. *)
Definition libmain_download (libmain_url split_decompile_folder : string) : list string :=
  ["wget"; "-q"; libmain_url; "-O"; mod_file_path split_decompile_folder].

(** [modify_files(libmain_url, split_decompile_folder)], lines 69-86. *)
Definition modify_files (libmain_url split_decompile_folder : string) : py unit :=
  print "🛠️ Modifying files...";;
  let orig_file := orig_file split_decompile_folder in
  let new_orig_file := new_orig_file split_decompile_folder in
  found ← os_path_exists orig_file;
  (if found : bool then
     os_rename orig_file new_orig_file;;
     print ("Renamed " +:+ orig_file +:+ " to " +:+ new_orig_file)
   else mret tt);;
  run_command (libmain_download libmain_url split_decompile_folder)
    "Failed to download modded libmain.so";;
  print "File modification complete!";;
  print rule.

(** The two output paths of lines 94-95, and the argument vectors of
    lines 97-98 and 107-123. *)
Definition base_out_path (output_dir : string) : string :=
  os_path_join output_dir "base_recompiled.apk".
Definition split_out_path (output_dir : string) : string :=
  os_path_join output_dir "split_recompiled.apk".

Definition rebuild (folder out_path : string) : list string :=
  ["apktool"; "b"; folder; "-o"; out_path].

Definition keystore_alias : string := "androiddebugkey".
Definition keystore_pass : string := "android".
Definition key_pass : string := "android".

Definition sign (apk keystore_path : string) : list string :=
  ["java"; "-jar"; "uber-apk-signer.jar";
   "--apks"; apk;
   "--ks"; keystore_path;
   "--ksAlias"; keystore_alias;
   "--ksPass"; keystore_pass;
   "--ksKeyPass"; key_pass].

(** [recompile_and_sign(base_folder, split_folder, output_dir, keystore_path)],
    lines 88-126. *)
Definition recompile_and_sign (base_folder split_folder output_dir keystore_path : string)
    : py unit :=
  print "Recompiling and signing APKs...";;
  let base_out_path := base_out_path output_dir in
  let split_out_path := split_out_path output_dir in
  run_command (rebuild base_folder base_out_path) "Failed to recompile base APK";;
  run_command (rebuild split_folder split_out_path) "Failed to recompile split APK";;
  found ← os_path_exists keystore_path;
  (if negb found then
     raise (FileNotFoundError ("Keystore not found: " +:+ keystore_path))
   else mret tt);;
  run_command (sign base_out_path keystore_path)
    "Failed to sign base APK with custom debug.keystore";;
  run_command (sign split_out_path keystore_path)
    "Failed to sign split APK with custom debug.keystore";;
  print "Recompilation and signing complete!";;
  print rule.

(** The paths of lines 134-137. *)
Definition signed_base (directory : string) : string :=
  os_path_join directory "base_recompiled-aligned-signed.apk".
Definition signed_split (directory : string) : string :=
  os_path_join directory "split_recompiled-aligned-signed.apk".
Definition final_dir (directory : string) : string :=
  os_path_join directory "final".

Definition missing_signed_base (directory : string) : exn :=
  FileNotFoundError ("Missing signed base APK: " +:+ signed_base directory
                     +:+ ". Check uber-apk-signer output name.").
Definition missing_signed_split (directory : string) : exn :=
  FileNotFoundError ("Missing signed split APK: " +:+ signed_split directory
                     +:+ ". Check uber-apk-signer output name.").

(** [finalize_apks(directory)], lines 128-149. *)
Definition finalize_apks (directory : string) : py unit :=
  print "Finalizing APKs...";;
  let signed_base := signed_base directory in
  let signed_split := signed_split directory in
  let final_dir := final_dir directory in
  os_makedirs final_dir;;
  found_base ← os_path_exists signed_base;
  (if negb found_base then raise (missing_signed_base directory) else mret tt);;
  found_split ← os_path_exists signed_split;
  (if negb found_split then raise (missing_signed_split directory) else mret tt);;
  os_rename signed_base (os_path_join final_dir "base.apk");;
  os_rename signed_split (os_path_join final_dir "config.arm64_v8a.apk");;
  print "Finalization complete!";;
  print rule.

(** The body of the two loops of lines 158-162. *)
Definition add_file (xapk : loc) (folder_path root file : string) : py unit :=
  let file_path := os_path_join root file in
  arcname ← os_path_relpath file_path folder_path;
  zip_write xapk file_path arcname.

(** [create_xapk(folder_path, output_xapk_path)], lines 151-165. The members
    written before an exception stay in the archive, as [with] closes it. *)
Definition create_xapk (folder_path output_xapk_path : string) : py unit :=
  print "Building XAPK file...";;
  xapk ← zip_open output_xapk_path;
  triples ← os_walk folder_path;
  for_each triples (λ '(root, _, files),
    for_each files (add_file xapk folder_path root));;
  print ("XAPK file created: " +:+ output_xapk_path);;
  print rule.

(** The four required flags, after [parser.parse_args()]. *)
Record arguments := Arguments {
  baseapk_dlink : string;
  splitapk_dlink : string;
  libmain_url : string;
  keystore_url : string
}.

Definition final_output_dir : string := "./final".
Definition output_xapk_name : string := "umamusume.xapk".

(** The [try] block of [main], lines 179-185. *)
Definition pipeline (args : arguments) : py unit :=
  keystore_path ← setup_environment (keystore_url args);
  '(base_decompile_dir, split_decompile_dir) ←
     download_and_decompile (baseapk_dlink args) (splitapk_dlink args);
  modify_files (libmain_url args) split_decompile_dir;;
  recompile_and_sign base_decompile_dir split_decompile_dir "." keystore_path;;
  finalize_apks ".";;
  create_xapk final_output_dir output_xapk_name;;
  print "Process complete! The patched XAPK is ready.".

(** [main()], lines 167-188, from the parsed arguments on: the exit status
    of the interpreter and the world it leaves. *)
Definition main (args : arguments) (w : world) : Z * world :=
  match pipeline args w with
  | (Returned _, w') => (0%Z, w')
  | (Raised e, w') =>
      (1%Z, (print ("An error occurred: " +:+ str_exn e) w').2)
  end.

(** All six stages return, leaving [w6]. *)
Inductive stages_succeeded (args : arguments) (w w6 : world) : Prop :=
  | all_stages (ks b s : string) (w1 w2 w3 w4 w5 : world) :
      setup_environment (keystore_url args) w = (Returned ks, w1) →
      download_and_decompile (baseapk_dlink args) (splitapk_dlink args) w1
        = (Returned (b, s), w2) →
      modify_files (libmain_url args) s w2 = (Returned tt, w3) →
      recompile_and_sign b s "." ks w3 = (Returned tt, w4) →
      finalize_apks "." w4 = (Returned tt, w5) →
      create_xapk final_output_dir output_xapk_name w5 = (Returned tt, w6) →
      stages_succeeded args w w6.

(** The stages before some stage return, and that stage raises [e],
    leaving [w']. *)
Inductive stage_raised (args : arguments) (w : world) (e : exn) (w' : world) : Prop :=
  | setup_raised :
      setup_environment (keystore_url args) w = (Raised e, w') →
      stage_raised args w e w'
  | fetch_raised (ks : string) (w1 : world) :
      setup_environment (keystore_url args) w = (Returned ks, w1) →
      download_and_decompile (baseapk_dlink args) (splitapk_dlink args) w1 = (Raised e, w') →
      stage_raised args w e w'
  | substitute_raised (ks b s : string) (w1 w2 : world) :
      setup_environment (keystore_url args) w = (Returned ks, w1) →
      download_and_decompile (baseapk_dlink args) (splitapk_dlink args) w1
        = (Returned (b, s), w2) →
      modify_files (libmain_url args) s w2 = (Raised e, w') →
      stage_raised args w e w'
  | sign_raised (ks b s : string) (w1 w2 w3 : world) :
      setup_environment (keystore_url args) w = (Returned ks, w1) →
      download_and_decompile (baseapk_dlink args) (splitapk_dlink args) w1
        = (Returned (b, s), w2) →
      modify_files (libmain_url args) s w2 = (Returned tt, w3) →
      recompile_and_sign b s "." ks w3 = (Raised e, w') →
      stage_raised args w e w'
  | finalize_raised (ks b s : string) (w1 w2 w3 w4 : world) :
      setup_environment (keystore_url args) w = (Returned ks, w1) →
      download_and_decompile (baseapk_dlink args) (splitapk_dlink args) w1
        = (Returned (b, s), w2) →
      modify_files (libmain_url args) s w2 = (Returned tt, w3) →
      recompile_and_sign b s "." ks w3 = (Returned tt, w4) →
      finalize_apks "." w4 = (Raised e, w') →
      stage_raised args w e w'
  | bundle_raised (ks b s : string) (w1 w2 w3 w4 w5 : world) :
      setup_environment (keystore_url args) w = (Returned ks, w1) →
      download_and_decompile (baseapk_dlink args) (splitapk_dlink args) w1
        = (Returned (b, s), w2) →
      modify_files (libmain_url args) s w2 = (Returned tt, w3) →
      recompile_and_sign b s "." ks w3 = (Returned tt, w4) →
      finalize_apks "." w4 = (Returned tt, w5) →
      create_xapk final_output_dir output_xapk_name w5 = (Raised e, w') →
      stage_raised args w e w'.

End Script.

End Upatcher.

Export Upatcher.

(** ** External tools *)

Module Tools.

(** What an exit status of zero promises. The script never looks at what a
    tool did; these contracts are what its author relies on. *)
Section Contracts.

Variable spawn : process.

(** [wget -q url -O dst]: the document served at [url] has been saved as
    the regular file [dst], and nothing else on the disk has changed. *)
Definition downloads (remote : string → option content) : Prop :=
  ∀ url dst w r,
    spawn ["wget"; "-q"; url; "-O"; dst] w = Exited r →
    returncode r = 0%Z →
    ∃ k c, remote url = Some c
           ∧ resolve (fs w) (cwd w) dst = Some k
           ∧ is_dir_at (fs w) k = false
           ∧ disk r = write_at k (File c) (fs w).

(** [apktool b folder -o out]: [out] is a regular file afterwards, and
    every path that named a regular file still names one. *)
Definition rebuilds : Prop :=
  ∀ folder out w r,
    spawn (rebuild folder out) w = Exited r →
    returncode r = 0%Z →
    is_Some (file_at (set_fs w (disk r)) out)
    ∧ ∀ p, is_Some (file_at w p) → is_Some (file_at (set_fs w (disk r)) p).

End Contracts.

(** A concrete set of tools and a concrete network, to run the script on. *)

Definition internet (url : string) : option content :=
  if bool_decide (url = "https://dl.example/base.apk") then Some (Bytes "base package")
  else if bool_decide (url = "https://dl.example/split.apk") then Some (Bytes "split package")
  else if bool_decide (url = "https://dl.example/libmain.so") then Some (Bytes "patched library")
  else if bool_decide (url = "https://dl.example/debug.keystore") then Some (Bytes "keystore")
  else if bool_decide (url = "https://dl.example/missing") then None
  else Some (Bytes url).

Definition succeeded (d : node) : launch := Exited (Completed 0 "" "" d).
Definition failed (w : world) (err : string) : launch := Exited (Completed 1 "" err (fs w)).

(** Create or replace the regular file [p]. *)
Definition save (w : world) (p : string) (c : content) : launch :=
  match resolve (fs w) (cwd w) p with
  | Some k =>
      if is_dir_at (fs w) k then failed w (p +:+ ": Is a directory")
      else succeeded (write_at k (File c) (fs w))
  | None => failed w (p +:+ ": No such file or directory")
  end.

(** [name.apk] without its extension. *)
Definition stem (apk : string) : string :=
  let n := String.length apk in
  if String.eqb (String.substring (n - 4) 4 apk) ".apk"
  then String.substring 0 (n - 4) apk
  else apk.

(** The tree [apktool d] leaves; the native library stands for the
    package's own. *)
Definition decompiled (package : content) : node :=
  Dir {[ "apktool.yml" := File (Bytes "version: 2.9.3");
         "lib" := Dir {[ "arm64-v8a" := Dir {[ "libmain.so" := File package ]} ]} ]}.

Definition ideal (command : list string) (w : world) : launch :=
  match command with
  | "sudo" :: _ => succeeded (fs w)
  | ["wget"; "-q"; url; "-O"; dst] =>
      match internet url with
      | Some c => save w dst c
      | None => Exited (Completed 8 "" "ERROR 404: Not Found." (fs w))
      end
  | ["apktool"; "d"; apk] =>
      match file_at w apk, resolve (fs w) (cwd w) (stem apk) with
      | Some c, Some k =>
          if bool_decide (is_Some (lookup_at k (fs w)))
          then failed w "Destination directory already exists."
          else succeeded (write_at k (decompiled c) (fs w))
      | _, _ => failed w "Input file was not found or was not readable."
      end
  | ["apktool"; "b"; folder; "-o"; out] =>
      match dir_at w folder with
      | Some _ => save w out (Bytes ("rebuilt " +:+ folder))
      | None => failed w "brut.directory.PathNotExist"
      end
  | ["java"; "-jar"; "uber-apk-signer.jar"; "--apks"; apk; "--ks"; ks;
     "--ksAlias"; _; "--ksPass"; _; "--ksKeyPass"; _] =>
      match file_at w apk, file_at w ks with
      | Some _, Some _ => save w (stem apk +:+ "-aligned-signed.apk") (Bytes ("signed " +:+ apk))
      | _, _ => failed w "could not sign"
      end
  | _ => NotLaunched (enoent (default "" (head command)))
  end.

(** Tools that always exit with status 1. *)
Definition broken (command : list string) (w : world) : launch :=
  failed w "boom".

(** A fresh working directory [/work] on an otherwise empty disk. *)
Definition fresh : world :=
  World (Dir {[ "work" := Dir ∅ ]}) ["work"] [] [].

(** A world whose working directory holds the given entries. *)
Definition workdir (es : gmap string node) : world :=
  World (Dir {[ "work" := Dir es ]}) ["work"] [] [].

Definition example_arguments : arguments :=
  Arguments "https://dl.example/base.apk" "https://dl.example/split.apk"
            "https://dl.example/libmain.so" "https://dl.example/debug.keystore".

End Tools.

Export Tools.

(** * Properties *)

(** ** Strings and paths *)

Lemma str_app_cons (x : ascii) (a b : string) : String x a +:+ b = String x (a +:+ b).
Proof. reflexivity. Qed.

Lemma str_app_nil_l (a : string) : "" +:+ a = a.
Proof. reflexivity. Qed.

Lemma str_app_assoc (a b c : string) : (a +:+ b) +:+ c = a +:+ (b +:+ c).
Proof. induction a as [|x a IH]; [done|]. by rewrite !str_app_cons, IH. Qed.

Lemma str_app_nil_r (a : string) : a +:+ "" = a.
Proof. induction a as [|x a IH]; [done|]. by rewrite str_app_cons, IH. Qed.

Lemma str_app_eq_nil (a b : string) : a +:+ b = "" → a = "" ∧ b = "".
Proof. destruct a; [done|]. by rewrite str_app_cons. Qed.

Lemma contains_prefix (a b : string) : contains a (a +:+ b).
Proof. by exists "", b. Qed.

Lemma contains_suffix (a b : string) : contains b (a +:+ b).
Proof. exists a, "". by rewrite str_app_nil_r. Qed.

Lemma contains_app_r (s a b : string) : contains s b → contains s (a +:+ b).
Proof.
  intros (pre & post & ->). exists (a +:+ pre), post.
  by rewrite str_app_assoc.
Qed.

Lemma split_slash_nonempty (s : string) : split_slash s ≠ [].
Proof.
  induction s as [|c s IH]; simpl; [done|].
  destruct (Ascii.eqb c "/"); [done|]. by destruct (split_slash s).
Qed.

(** Splitting distributes over a separator. *)
Lemma split_slash_app (a b : string) :
  split_slash (a +:+ "/" +:+ b) = split_slash a ++ split_slash b.
Proof.
  induction a as [|c a IH]; [done|].
  rewrite str_app_cons. simpl. rewrite IH.
  destruct (Ascii.eqb c "/"); [done|].
  pose proof (split_slash_nonempty a). by destruct (split_slash a).
Qed.

Lemma split_slash_trailing (a : string) : split_slash (a +:+ "/") = split_slash a ++ [""].
Proof. pose proof (split_slash_app a "") as H. by rewrite str_app_nil_r in H. Qed.

Lemma ends_with_slash_inv (a : string) :
  ends_with_slash a = true → ∃ a', a = a' +:+ "/".
Proof.
  induction a as [|c a IH]; [done|]. simpl. destruct a as [|c' a].
  - intros Hc. apply Ascii.eqb_eq in Hc as ->. by exists "".
  - intros [a' Ha']%IH. exists (String c a'). by rewrite str_app_cons, <-Ha'.
Qed.

Lemma starts_with_slash_app (a b : string) :
  a ≠ "" → starts_with_slash (a +:+ b) = starts_with_slash a.
Proof. by destruct a. Qed.

Lemma valid_name_no_slash (c : string) : valid_name c → starts_with_slash c = false.
Proof.
  intros (Hne & _ & _ & Hs). destruct c as [|x c]; [done|]. simpl in *.
  destruct (Ascii.eqb x "/"); [|done].
  pose proof (split_slash_nonempty c). destruct (split_slash c); simplify_eq.
Qed.

(** The three shapes [os.path.join] can produce. *)
Lemma os_path_join_cases (a name : string) :
  starts_with_slash name = false →
  (a = "" ∧ os_path_join a name = name)
  ∨ (∃ a', a = a' +:+ "/" ∧ os_path_join a name = a' +:+ "/" +:+ name)
  ∨ (a ≠ "" ∧ ends_with_slash a = false ∧ os_path_join a name = a +:+ "/" +:+ name).
Proof.
  intros Hn. unfold os_path_join. rewrite Hn.
  destruct (decide (a = "")) as [->|Ha]; [by left|].
  rewrite bool_decide_eq_false_2 by done. simpl.
  destruct (ends_with_slash a) eqn:E.
  - right; left. apply ends_with_slash_inv in E as [a' ->]. exists a'.
    by rewrite str_app_assoc.
  - right; right. done.
Qed.

Lemma os_path_join_nonempty (a name : string) : name ≠ "" → os_path_join a name ≠ "".
Proof.
  intros Hn. unfold os_path_join.
  destruct (starts_with_slash name); [done|].
  destruct (bool_decide (a = "") || ends_with_slash a);
    intros [? ?]%str_app_eq_nil; [done|]. by destruct name.
Qed.

(** Joining a proper name adds one component. *)
Lemma split_slash_join (a name : string) :
  valid_name name → a ≠ "" →
  ∃ comps, split_slash (os_path_join a name) = comps ++ [name]
           ∧ (split_slash a = comps ∨ split_slash a = comps ++ [""])
           ∧ starts_with_slash (os_path_join a name) = starts_with_slash a.
Proof.
  intros Hv Ha. pose proof (valid_name_no_slash _ Hv) as Hs.
  destruct Hv as (_ & _ & _ & Hsp).
  destruct (os_path_join_cases a name Hs) as [[? _]|[(a' & -> & ->)|(_ & _ & ->)]]; [done|..].
  - exists (split_slash a'). rewrite split_slash_app, Hsp, split_slash_trailing.
    split_and!; [done|by right|]. by destruct a'.
  - exists (split_slash a). rewrite split_slash_app, Hsp.
    split_and!; [done|by left|]. by apply starts_with_slash_app.
Qed.

Lemma str_join_cons (sep x : string) (l : list string) :
  l ≠ [] → str_join sep (x :: l) = x +:+ sep +:+ str_join sep l.
Proof. by destruct l. Qed.

(** Splitting undoes joining proper names. *)
Lemma split_slash_str_join (l : list string) :
  l ≠ [] → Forall valid_name l → split_slash (str_join "/" l) = l.
Proof.
  induction l as [|x l IH]; [done|]. intros _ Hl.
  apply Forall_cons in Hl as [Hx Hl]. destruct l as [|y l].
  - simpl. apply Hx.
  - rewrite str_join_cons by done. rewrite split_slash_app, IH by done.
    destruct Hx as (_ & _ & _ & ->). done.
Qed.

Lemma str_join_nonempty (l : list string) :
  l ≠ [] → Forall valid_name l → str_join "/" l ≠ "".
Proof.
  destruct l as [|x l]; [done|]. intros _ Hl.
  apply Forall_cons in Hl as [(Hx & _) _].
  destruct l; simpl; [done|]. by intros [? _]%str_app_eq_nil.
Qed.

Lemma norm_step_valid (abs : bool) (st : list string) (c : string) :
  valid_name c → norm_step abs st c = st ++ [c].
Proof.
  intros (H1 & H2 & H3 & _). unfold norm_step.
  by rewrite !bool_decide_eq_false_2 by done.
Qed.

Lemma norm_comps_app (abs : bool) (st l1 l2 : list string) :
  norm_comps abs st (l1 ++ l2) = norm_comps abs (norm_comps abs st l1) l2.
Proof. apply fold_left_app. Qed.

Lemma norm_comps_valid (abs : bool) (st l : list string) :
  Forall valid_name l → norm_comps abs st l = st ++ l.
Proof.
  unfold norm_comps. revert st. induction l as [|c l IH]; intros st Hl; simpl.
  - by rewrite app_nil_r.
  - apply Forall_cons in Hl as [Hc Hl].
    rewrite norm_step_valid, IH by done. by rewrite <-app_assoc.
Qed.

(** [normpath] leaves a relative path of proper names alone. *)
Lemma normpath_rel_str_join (l : list string) :
  l ≠ [] → Forall valid_name l → normpath_rel (str_join "/" l) = str_join "/" l.
Proof.
  intros Hne Hl. unfold normpath_rel.
  rewrite bool_decide_eq_false_2 by by apply str_join_nonempty.
  rewrite split_slash_str_join, norm_comps_valid by done. simpl.
  by destruct l.
Qed.

(** The absolute path of [join(a, name)] extends that of [a]. *)
Lemma abspath_comps_join (cwd : list string) (a name : string) :
  valid_name name →
  abspath_comps cwd (os_path_join a name) = abspath_comps cwd a ++ [name].
Proof.
  intros Hv. pose proof (valid_name_no_slash _ Hv) as Hs.
  destruct (decide (a = "")) as [->|Ha].
  - unfold os_path_join. rewrite Hs. simpl. unfold abspath_comps.
    rewrite str_app_nil_l, Hs. simpl.
    destruct Hv as (? & ? & ? & Hsp). rewrite Hsp.
    rewrite !norm_comps_app. unfold norm_comps at 1 3. simpl.
    by rewrite norm_step_valid.
  - destruct (split_slash_join a name Hv Ha) as (comps & Hj & Ha' & Hst).
    unfold abspath_comps. rewrite Hst, Hj.
    assert (∀ st, norm_comps true st (split_slash a) = norm_comps true st comps) as Hn.
    { intros st. destruct Ha' as [->| ->]; [done|]. by rewrite norm_comps_app. }
    destruct (starts_with_slash a).
    + rewrite norm_comps_app, Hn. simpl. by rewrite norm_step_valid.
    + rewrite app_assoc, !norm_comps_app, Hn. simpl. by rewrite norm_step_valid.
Qed.

Lemma common_prefix_app (a b : list string) : common_prefix a (a ++ b) = a.
Proof.
  induction a as [|x a IH]; simpl; [by destruct b|].
  by rewrite bool_decide_eq_true_2, IH.
Qed.

(** A path below [start] is relative to it by its extra components. *)
Lemma relpath_comps_below (start rel : list string) :
  rel ≠ [] → relpath_comps start (start ++ rel) = str_join "/" rel.
Proof.
  intros Hrel. unfold relpath_comps. rewrite common_prefix_app.
  rewrite Nat.sub_diag, drop_app_length. simpl. by destruct rel.
Qed.

(** Distinct lists of proper names are joined into distinct paths. *)
Lemma str_join_inj (l1 l2 : list string) :
  l1 ≠ [] → l2 ≠ [] → Forall valid_name l1 → Forall valid_name l2 →
  str_join "/" l1 = str_join "/" l2 → l1 = l2.
Proof.
  intros ???? Heq.
  rewrite <-(split_slash_str_join l1), <-(split_slash_str_join l2) by done.
  by rewrite Heq.
Qed.

(** ** The tree *)

Lemma height_entry (es : gmap string node) (name : string) (sub : node) :
  es !! name = Some sub → height sub < height (Dir es).
Proof.
  intros H%elem_of_map_to_list. simpl. rewrite map_fold_foldr.
  induction (map_to_list es) as [|[k v] l IH]; [by apply elem_of_nil in H|].
  apply elem_of_cons in H as [H|H]; simpl in *.
  - simplify_eq. lia.
  - specialize (IH H). lia.
Qed.

(** Induction on the tree: a directory inherits from its entries. *)
Lemma node_induction (P : node → Prop) :
  (∀ c, P (File c)) →
  (∀ es, (∀ name sub, es !! name = Some sub → P sub) → P (Dir es)) →
  ∀ n, P n.
Proof.
  intros Hfile Hdir n. remember (height n) as h eqn:Hh. revert n Hh.
  induction h as [h IH] using lt_wf_ind. intros [c|es] ->; [done|].
  apply Hdir. intros name sub Hsub. eapply IH; [|done].
  by eapply height_entry.
Qed.

Lemma lookup_at_app (k1 k2 : loc) (n : node) :
  lookup_at (k1 ++ k2) n = lookup_at k1 n ≫= lookup_at k2.
Proof.
  revert n. induction k1 as [|c k1 IH]; intros n; simpl; [done|].
  destruct n as [|es]; [done|]. destruct (es !! c); simpl; [apply IH|done].
Qed.

Lemma lookup_at_file (k : loc) (c : content) :
  lookup_at k (File c) = match k with [] => Some (File c) | _ => None end.
Proof. by destruct k. Qed.

Lemma is_dir_at_app (n : node) (p q : loc) :
  is_dir_at n (p ++ q) = true → is_dir_at n p = true.
Proof.
  unfold is_dir_at. rewrite lookup_at_app.
  destruct (lookup_at p n) as [[c|es]|]; simpl; [|done..].
  by rewrite lookup_at_file; destruct q.
Qed.

Lemma is_dir_at_removelast (n : node) (k : loc) :
  is_dir_at n k = true → is_dir_at n (removelast k) = true.
Proof.
  destruct (decide (k = [])) as [->|Hk]; [done|].
  intros H. apply (is_dir_at_app n _ [List.last k ""]).
  by rewrite <-app_removelast_last.
Qed.

(** Below a name that is absent or a file there is nothing. *)
Lemma lookup_at_below (n : node) (p q : loc) :
  is_dir_at n p = false → q ≠ [] → lookup_at (p ++ q) n = None.
Proof.
  unfold is_dir_at. rewrite lookup_at_app. intros Hp Hq.
  destruct (lookup_at p n) as [[c|es]|]; simpl; [|done..].
  by rewrite lookup_at_file; destruct q.
Qed.

Lemma parent_dir_snoc (n : node) (p : loc) (c : string) :
  is_dir_at n p = true → parent_dir n (p ++ [c]).
Proof. by intros Hp p' c' [-> _]%app_inj_tail. Qed.

Lemma parent_dir_existing (n : node) (k : loc) :
  is_Some (lookup_at k n) → parent_dir n k.
Proof.
  intros [x Hx] p c ->. rewrite lookup_at_app in Hx. unfold is_dir_at.
  destruct (lookup_at p n) as [[?|es]|]; simplify_eq/=; done.
Qed.

Lemma lookup_at_write_snoc (p : loc) (c : string) (v n : node) :
  is_dir_at n p = true → lookup_at (p ++ [c]) (write_at (p ++ [c]) v n) = Some v.
Proof.
  unfold is_dir_at. revert n. induction p as [|x p IH]; intros n Hp.
  - destruct n as [|es]; [done|]. simpl. rewrite lookup_partial_alter_eq.
    by destruct (es !! c).
  - destruct n as [|es]; [done|]. simpl in *. rewrite lookup_partial_alter_eq.
    destruct (es !! x) as [sub|]; simpl in *; [by apply IH|done].
Qed.

Lemma lookup_at_write_same (k : loc) (v n : node) :
  parent_dir n k → lookup_at k (write_at k v n) = Some v.
Proof.
  destruct k as [|c p _] using rev_ind; [done|].
  intros Hp. apply lookup_at_write_snoc. by eapply Hp.
Qed.

(** Writing at [k] is invisible from locations beside [k]. *)
Lemma lookup_at_write_other (k k' : loc) (v n : node) :
  ¬ k `prefix_of` k' → ¬ k' `prefix_of` k →
  lookup_at k' (write_at k v n) = lookup_at k' n.
Proof.
  revert k' n. induction k as [|c k IH]; intros k' n H1 H2.
  { destruct H1. apply prefix_nil. }
  destruct k' as [|c' k']; [destruct H2; apply prefix_nil|].
  destruct n as [|es]; [done|]. simpl.
  destruct (decide (c = c')) as [->|Hc].
  - rewrite lookup_partial_alter_eq.
    assert (¬ k `prefix_of` k') by (intros ?; apply H1; by apply prefix_cons).
    assert (¬ k' `prefix_of` k) by (intros ?; apply H2; by apply prefix_cons).
    destruct (es !! c') as [sub|]; simpl; [by apply IH|].
    destruct k; simpl; [|done]. destruct H. apply prefix_nil.
  - by rewrite lookup_partial_alter_ne.
Qed.

Lemma write_at_write_at (k : loc) (v1 v2 n : node) :
  write_at k v2 (write_at k v1 n) = write_at k v2 n.
Proof.
  revert n. induction k as [|c k IH]; intros n; [done|].
  destruct n as [|es]; [done|]. simpl. f_equal.
  rewrite partial_alter_partial_alter_eq. apply partial_alter_ext.
  intros [sub|] _; simpl; [by rewrite IH|]. by destruct k.
Qed.

(** Putting a regular file where no directory was changes no directory. *)
Lemma is_dir_at_write_file (k k' : loc) (c : content) (n : node) :
  is_dir_at n k = false →
  is_dir_at (write_at k (File c) n) k' = is_dir_at n k'.
Proof.
  unfold is_dir_at. revert n k'. induction k as [|x k IH]; intros n k' Hk.
  { simpl in *. destruct n; [|done]. rewrite !lookup_at_file. by destruct k'. }
  destruct n as [|es]; [done|]. simpl. destruct k' as [|x' k']; [done|]. simpl.
  destruct (decide (x = x')) as [->|Hx]; [|by rewrite lookup_partial_alter_ne].
  rewrite lookup_partial_alter_eq. simpl in Hk.
  destruct (es !! x') as [sub|]; simpl in *; [by apply IH|].
  destruct k; simpl; [|done]. by rewrite lookup_at_file; destruct k'.
Qed.

(** A new empty directory keeps every directory there was. *)
Lemma is_dir_at_write_new_dir (k k' : loc) (n : node) :
  lookup_at k n = None →
  is_dir_at n k' = true → is_dir_at (write_at k (Dir ∅) n) k' = true.
Proof.
  unfold is_dir_at. revert n k'. induction k as [|x k IH]; intros n k' Hk; [done|].
  destruct n as [|es]; [done|]. simpl. destruct k' as [|x' k']; [done|]. simpl.
  destruct (decide (x = x')) as [->|Hx]; [|by rewrite lookup_partial_alter_ne].
  rewrite lookup_partial_alter_eq. simpl in Hk.
  destruct (es !! x') as [sub|]; simpl in *; [by apply IH|done].
Qed.

Lemma lookup_at_dir (c : string) (k : loc) (es : gmap string node) :
  lookup_at (c :: k) (Dir es) = es !! c ≫= lookup_at k.
Proof. reflexivity. Qed.

Lemma remove_at_deep (c c' : string) (k : loc) (es : gmap string node) :
  remove_at (c :: c' :: k) (Dir es) = Dir (alter (remove_at (c' :: k)) c es).
Proof. reflexivity. Qed.

Lemma lookup_at_remove_same (k : loc) (n : node) :
  k ≠ [] → lookup_at k (remove_at k n) = None.
Proof.
  revert n. induction k as [|c k IH]; intros n Hk; [done|].
  destruct n as [|es]; [done|]. destruct k as [|c' k].
  - simpl. by rewrite lookup_delete_eq.
  - rewrite remove_at_deep, lookup_at_dir, lookup_alter_eq.
    destruct (es !! c) as [sub|]; simpl; [by apply IH|done].
Qed.

Lemma lookup_at_remove_other (k k' : loc) (n : node) :
  ¬ k `prefix_of` k' → ¬ k' `prefix_of` k →
  lookup_at k' (remove_at k n) = lookup_at k' n.
Proof.
  revert k' n. induction k as [|c k IH]; intros k' n H1 H2.
  { destruct H1. apply prefix_nil. }
  destruct k' as [|c' k']; [destruct H2; apply prefix_nil|].
  destruct n as [|es]; [done|].
  destruct (decide (c = c')) as [->|Hc].
  - assert (¬ k `prefix_of` k') by (intros ?; apply H1; by apply prefix_cons).
    assert (¬ k' `prefix_of` k) by (intros ?; apply H2; by apply prefix_cons).
    destruct k as [|c k]; [destruct H; apply prefix_nil|].
    rewrite remove_at_deep, !lookup_at_dir, lookup_alter_eq.
    destruct (es !! c') as [sub|]; simpl; [|done].
    by apply (IH k' sub).
  - destruct k; simpl; [by rewrite lookup_delete_ne|by rewrite lookup_alter_ne].
Qed.

(** Unlinking a regular file changes no directory. *)
Lemma is_dir_at_remove_file (k k' : loc) (c : content) (n : node) :
  lookup_at k n = Some (File c) →
  is_dir_at (remove_at k n) k' = is_dir_at n k'.
Proof.
  unfold is_dir_at. revert n k'. induction k as [|x k IH]; intros n k' Hk; [done|].
  destruct n as [|es]; [done|]. destruct k' as [|x' k']; [by destruct k|].
  simpl in Hk. destruct (decide (x = x')) as [->|Hx].
  - destruct (es !! x') as [sub|] eqn:E; [|done]. simpl in Hk.
    destruct k as [|y k].
    + simpl in *. simplify_eq. rewrite lookup_delete_eq, E. simpl.
      by rewrite lookup_at_file; destruct k'.
    + rewrite remove_at_deep, !lookup_at_dir, lookup_alter_eq, E. simpl.
      by apply IH.
  - destruct k; simpl; [by rewrite lookup_delete_ne|by rewrite lookup_alter_ne].
Qed.

(** ** Path resolution *)

Lemma namei_app (root : node) (cur : loc) (l1 l2 : list string) :
  namei root cur (l1 ++ l2) = namei root cur l1 ≫= λ k, namei root k l2.
Proof.
  revert cur. induction l1 as [|c l1 IH]; intros cur; simpl; [done|].
  destruct (is_dir_at root cur); [|done].
  destruct (bool_decide (c = "") || bool_decide (c = ".")); [done|].
  by destruct (bool_decide (c = "..")).
Qed.

Lemma namei_name (root : node) (cur : loc) (name : string) :
  valid_name name →
  namei root cur [name] = if is_dir_at root cur then Some (cur ++ [name]) else None.
Proof.
  intros (? & ? & ? & _). simpl.
  by rewrite !bool_decide_eq_false_2 by done.
Qed.

Lemma namei_mono (r1 r2 : node) (cur : loc) (l : list string) (k : loc) :
  (∀ k, is_dir_at r1 k = true → is_dir_at r2 k = true) →
  namei r1 cur l = Some k → namei r2 cur l = Some k.
Proof.
  intros Hmono. revert cur. induction l as [|c l IH]; intros cur; simpl; [done|].
  destruct (is_dir_at r1 cur) eqn:E; [|done]. rewrite (Hmono _ E).
  destruct (bool_decide (c = "") || bool_decide (c = ".")); [by auto|].
  destruct (bool_decide (c = "..")); by auto.
Qed.

Lemma namei_ext (r1 r2 : node) (cur : loc) (l : list string) :
  (∀ k, is_dir_at r1 k = is_dir_at r2 k) → namei r1 cur l = namei r2 cur l.
Proof.
  intros Hext. revert cur. induction l as [|c l IH]; intros cur; simpl; [done|].
  rewrite Hext. destruct (is_dir_at r2 cur); [|done].
  destruct (bool_decide (c = "") || bool_decide (c = ".")); [done|].
  by destruct (bool_decide (c = "..")).
Qed.

Lemma resolve_ext (r1 r2 : node) (cwd : loc) (p : string) :
  (∀ k, is_dir_at r1 k = is_dir_at r2 k) → resolve r1 cwd p = resolve r2 cwd p.
Proof. intros H. unfold resolve. by rewrite (namei_ext r1 r2). Qed.

Lemma resolve_mono (r1 r2 : node) (cwd : loc) (p : string) (k : loc) :
  (∀ k, is_dir_at r1 k = true → is_dir_at r2 k = true) →
  resolve r1 cwd p = Some k → resolve r2 cwd p = Some k.
Proof.
  intros H. unfold resolve. destruct (bool_decide (p = "")); [done|].
  by apply namei_mono.
Qed.

Lemma namei_parent_dir (root : node) (cur : loc) (l : list string) (k : loc) :
  parent_dir root cur → namei root cur l = Some k → parent_dir root k.
Proof.
  revert cur. induction l as [|c l IH]; intros cur Hcur; simpl.
  { by intros [= <-]. }
  destruct (is_dir_at root cur) eqn:E; [|done].
  destruct (bool_decide (c = "") || bool_decide (c = ".")); [by apply IH|].
  destruct (bool_decide (c = "..")); apply IH.
  - apply parent_dir_existing. apply is_dir_at_removelast in E.
    unfold is_dir_at in E. by destruct (lookup_at (removelast cur) root).
  - by apply parent_dir_snoc.
Qed.

(** Whatever a path resolves to can be created or replaced there. *)
Lemma resolve_parent_dir (root : node) (cwd : loc) (p : string) (k : loc) :
  resolve root cwd p = Some k → parent_dir root k.
Proof.
  unfold resolve. destruct (bool_decide (p = "")); [done|].
  intros H. eapply namei_parent_dir; [|done].
  pose proof (split_slash_nonempty p). destruct (split_slash p) as [|c l]; [done|].
  simpl in H. destruct (is_dir_at root _) eqn:E; [|done].
  apply parent_dir_existing. unfold is_dir_at in E.
  by destruct (lookup_at _ root).
Qed.

(** Resolving [join(a, name)]: resolve [a], which has to be a directory,
    and step to [name]. *)
Lemma resolve_join (root : node) (cwd : loc) (a name : string) :
  a ≠ "" → valid_name name →
  resolve root cwd (os_path_join a name)
  = resolve root cwd a ≫= λ k, if is_dir_at root k then Some (k ++ [name]) else None.
Proof.
  intros Ha Hv. destruct (split_slash_join a name Hv Ha) as (comps & Hj & Ha' & Hst).
  unfold resolve. rewrite Hst, Hj.
  rewrite bool_decide_eq_false_2 by (apply os_path_join_nonempty, Hv).
  rewrite bool_decide_eq_false_2 by done.
  rewrite namei_app. destruct Ha' as [-> | ->].
  - destruct (namei root _ comps) as [k|]; [|done].
    change (namei root k [name] = if is_dir_at root k then Some (k ++ [name]) else None).
    by apply namei_name.
  - rewrite namei_app. destruct (namei root _ comps) as [k|]; [|done].
    change (namei root k [name]
            = namei root k [""] ≫= λ k, if is_dir_at root k then Some (k ++ [name]) else None).
    rewrite namei_name by done. simpl.
    by destruct (is_dir_at root k) eqn:E; simpl; rewrite ?E.
Qed.

Lemma resolve_join_dir (root : node) (cwd : loc) (a name : string) (k : loc) :
  valid_name name → resolve root cwd a = Some k → is_dir_at root k = true →
  resolve root cwd (os_path_join a name) = Some (k ++ [name]).
Proof.
  intros Hv Ha Hk. rewrite resolve_join; [|by intros ->|done].
  rewrite Ha. simpl. by rewrite Hk.
Qed.

(** ** Creating directories *)

Lemma makedirs_from_mono (p : string) (comps : list string) (root root' : node) (cur : loc) :
  makedirs_from p root cur comps = inr root' →
  ∀ k, is_dir_at root k = true → is_dir_at root' k = true.
Proof.
  revert root cur. induction comps as [|c l IH]; intros root cur; simpl.
  { by intros [= <-]. }
  destruct (is_dir_at root cur); simpl; [|done].
  destruct (bool_decide (c = "") || bool_decide (c = ".")); [by apply IH|].
  destruct (bool_decide (c = "..")); [by apply IH|].
  destruct (lookup_at (cur ++ [c]) root) as [[?|?]|] eqn:E; [done|by apply IH|].
  intros H k Hk. eapply IH; [done|]. by apply is_dir_at_write_new_dir.
Qed.

(** After [makedirs] the path names a directory. *)
Lemma makedirs_from_resolves (p : string) (comps : list string) (root root' : node) (cur : loc) :
  is_dir_at root cur = true →
  makedirs_from p root cur comps = inr root' →
  ∃ k, namei root' cur comps = Some k ∧ is_dir_at root' k = true.
Proof.
  revert root cur. induction comps as [|c l IH]; intros root cur Hcur H.
  { simpl in *. simplify_eq. eauto. }
  pose proof (makedirs_from_mono _ _ _ _ _ H _ Hcur) as Hcur'.
  simpl in *. rewrite Hcur in H. rewrite Hcur'. simpl in H.
  destruct (bool_decide (c = "") || bool_decide (c = ".")); [by apply (IH root cur)|].
  destruct (bool_decide (c = "..")).
  { apply (IH root (removelast cur)); [|done]. by apply is_dir_at_removelast. }
  destruct (lookup_at (cur ++ [c]) root) as [[?|?]|] eqn:E; [done|..].
  - apply (IH root (cur ++ [c])); [|done]. unfold is_dir_at. by rewrite E.
  - apply (IH (write_at (cur ++ [c]) (Dir ∅) root) (cur ++ [c])); [|done].
    unfold is_dir_at. by rewrite lookup_at_write_snoc.
Qed.

(** Below an existing directory, [makedirs] creates the one missing name. *)
Lemma makedirs_from_existing (p : string) (comps : list string) (root : node)
    (cur k : loc) (name : string) :
  valid_name name →
  namei root cur comps = Some k → is_dir_at root k = true →
  makedirs_from p root cur (comps ++ [name])
  = match lookup_at (k ++ [name]) root with
    | Some (Dir _) => inr root
    | Some (File _) => inl (FileExistsError ("[Errno 17] File exists: '" +:+ p +:+ "'"))
    | None => inr (write_at (k ++ [name]) (Dir ∅) root)
    end.
Proof.
  intros (? & ? & ? & _). revert cur.
  induction comps as [|c l IH]; intros cur; simpl.
  - intros [= ->] ->. simpl. rewrite !bool_decide_eq_false_2 by done. simpl.
    by destruct (lookup_at (k ++ [name]) root) as [[?|?]|].
  - destruct (is_dir_at root cur) eqn:E; [|done]. simpl.
    destruct (bool_decide (c = "") || bool_decide (c = ".")); [by apply IH|].
    destruct (bool_decide (c = "..")); [by apply IH|].
    intros Hl Hk. assert (is_dir_at root (cur ++ [c]) = true) as Hc.
    { destruct l as [|c' l]; simpl in Hl; [by simplify_eq|].
      by destruct (is_dir_at root (cur ++ [c])). }
    unfold is_dir_at in Hc.
    destruct (lookup_at (cur ++ [c]) root) as [[?|?]|]; [done| |done].
    by apply IH.
Qed.

(** ** Running commands *)

Section Execution.

Context (spawn : process).

Lemma bind_run {A B} (m : py A) (f : A → py B) (w : world) :
  (m ≫= f) w = match m w with
               | (Returned a, w') => f a w'
               | (Raised e, w') => (Raised e, w')
               end.
Proof. reflexivity. Qed.

(** [run_command] by cases on what the child did. *)
Lemma run_command_run (command : list string) (error_message : string) (w : world) :
  run_command spawn command error_message w
  = match spawn command (announced command w) with
    | Exited r =>
        if (returncode r =? 0)%Z
        then (Returned tt, after_success command r w)
        else (Raised (RuntimeError (error_message +:+ ": " +:+ stderr r)),
              after_failure command r w)
    | NotLaunched e => (Raised e, ran command (announced command w))
    end.
Proof.
  unfold run_command, after_success, after_failure, exited, announced.
  cbv [mbind py_bind print subprocess_run raise].
  destruct (spawn command _) as [r|e]; [|reflexivity].
  destruct (returncode r =? 0)%Z; reflexivity.
Qed.

(** Every call of [run_command] spawns its command, and only that. *)
Lemma run_command_history (command : list string) (error_message : string) (w : world) :
  history (run_command spawn command error_message w).2 = history w ++ [command].
Proof.
  rewrite run_command_run.
  destruct (spawn command _) as [r|e]; [|done].
  by destruct (returncode r =? 0)%Z.
Qed.

Lemma run_command_returned (command : list string) (error_message : string) (w w' : world) u :
  run_command spawn command error_message w = (Returned u, w') →
  ∃ r, spawn command (announced command w) = Exited r
       ∧ returncode r = 0%Z ∧ w' = after_success command r w.
Proof.
  rewrite run_command_run. destruct (spawn command _) as [r|e]; [|done].
  destruct (returncode r =? 0)%Z eqn:E; [|done].
  intros [= <- <-]. exists r. split_and!; [done| |done]. by apply Z.eqb_eq.
Qed.

End Execution.



(** ** Recompile and sign *)

Section RecompileAndSign.

Context (spawn : process) (base_folder split_folder output_dir keystore_path : string).

Let rebuild_base := rebuild base_folder (base_out_path output_dir).
Let rebuild_split := rebuild split_folder (split_out_path output_dir).
Let sign_base := sign (base_out_path output_dir) keystore_path.
Let sign_split := sign (split_out_path output_dir) keystore_path.

(** The stage, one [run_command] after the other. *)
Lemma recompile_and_sign_run (w : world) :
  recompile_and_sign spawn base_folder split_folder output_dir keystore_path w
  = match run_command spawn rebuild_base "Failed to recompile base APK"
            (say "Recompiling and signing APKs..." w) with
    | (Raised e, w1) => (Raised e, w1)
    | (Returned _, w1) =>
    match run_command spawn rebuild_split "Failed to recompile split APK" w1 with
    | (Raised e, w2) => (Raised e, w2)
    | (Returned _, w2) =>
    if exists_at w2 keystore_path then
      match run_command spawn sign_base
              "Failed to sign base APK with custom debug.keystore" w2 with
      | (Raised e, w3) => (Raised e, w3)
      | (Returned _, w3) =>
      match run_command spawn sign_split
              "Failed to sign split APK with custom debug.keystore" w3 with
      | (Raised e, w4) => (Raised e, w4)
      | (Returned _, w4) =>
          (Returned tt, say rule (say "Recompilation and signing complete!" w4))
      end end
    else (Raised (FileNotFoundError ("Keystore not found: " +:+ keystore_path)), w2)
    end end.
Proof.
  unfold recompile_and_sign.
  cbv [mbind py_bind print os_path_exists raise mret py_ret].
  destruct (run_command _ _ _ _) as [[?|?] w1]; [|done].
  destruct (run_command _ _ _ _) as [[?|?] w2]; [|done].
  destruct (exists_at w2 keystore_path); simpl; [|done].
  destruct (run_command _ _ _ _) as [[?|?] w3]; [|done].
  by destruct (run_command _ _ _ _) as [[?|?] w4].
Qed.

(** The commands of a run are an initial part of the four of the stage; a
    signing command is among them only if the keystore was there after both
    packages had been rebuilt, and all four are if the stage returns. *)
Lemma recompile_and_sign_spawned (w : world) :
  let run := recompile_and_sign spawn base_folder split_folder output_dir keystore_path in
  let raised := ∃ e, (run w).1 = Raised e in
  (spawned run w = [rebuild_base] ∧ raised)
  ∨ (spawned run w = [rebuild_base; rebuild_split] ∧ raised)
  ∨ ((∃ w1 w2,
        run_command spawn rebuild_base "Failed to recompile base APK"
          (say "Recompiling and signing APKs..." w) = (Returned tt, w1)
        ∧ run_command spawn rebuild_split "Failed to recompile split APK" w1
          = (Returned tt, w2)
        ∧ exists_at w2 keystore_path = true)
     ∧ ((spawned run w = [rebuild_base; rebuild_split; sign_base] ∧ raised)
        ∨ spawned run w = [rebuild_base; rebuild_split; sign_base; sign_split])).
Proof.
  cbv zeta. unfold spawned. rewrite recompile_and_sign_run.
  pose proof (run_command_history spawn rebuild_base "Failed to recompile base APK"
                (say "Recompiling and signing APKs..." w)) as H1.
  destruct (run_command spawn rebuild_base _ _) as [[[]|?] w1] eqn:E1; simpl in *.
  2:{ left. rewrite H1, drop_app_length. eauto. }
  pose proof (run_command_history spawn rebuild_split "Failed to recompile split APK" w1) as H2.
  destruct (run_command spawn rebuild_split _ w1) as [[[]|?] w2] eqn:E2; simpl in *.
  2:{ right; left. rewrite H2, H1, <-app_assoc, drop_app_length. eauto. }
  destruct (exists_at w2 keystore_path) eqn:Hks.
  2:{ right; left. simpl. rewrite H2, H1, <-app_assoc, drop_app_length. eauto. }
  right; right. split; [by exists w1, w2|].
  pose proof (run_command_history spawn sign_base
                "Failed to sign base APK with custom debug.keystore" w2) as H3.
  destruct (run_command spawn sign_base _ _) as [[[]|?] w3]; simpl in *.
  2:{ left. rewrite H3, H2, H1, <-!app_assoc, drop_app_length. eauto. }
  pose proof (run_command_history spawn sign_split
                "Failed to sign split APK with custom debug.keystore" w3) as H4.
  right. destruct (run_command spawn sign_split _ _) as [[[]|?] w4]; simpl in *;
    by rewrite H4, H3, H2, H1, <-!app_assoc, drop_app_length.
Qed.

(** Where the check of line 100 fails. *)
Lemma recompile_and_sign_no_keystore (w w1 w2 : world) :
  run_command spawn rebuild_base "Failed to recompile base APK"
    (say "Recompiling and signing APKs..." w) = (Returned tt, w1) →
  run_command spawn rebuild_split "Failed to recompile split APK" w1 = (Returned tt, w2) →
  exists_at w2 keystore_path = false →
  recompile_and_sign spawn base_folder split_folder output_dir keystore_path w
  = (Raised (FileNotFoundError ("Keystore not found: " +:+ keystore_path)), w2)
  ∧ spawned (recompile_and_sign spawn base_folder split_folder output_dir keystore_path) w
    = [rebuild_base; rebuild_split].
Proof.
  intros E1 E2 Hks. unfold spawned. rewrite recompile_and_sign_run, E1, E2, Hks.
  split; [done|]. simpl.
  pose proof (run_command_history spawn rebuild_base "Failed to recompile base APK"
                (say "Recompiling and signing APKs..." w)) as H1.
  pose proof (run_command_history spawn rebuild_split "Failed to recompile split APK" w1) as H2.
  rewrite E1 in H1. rewrite E2 in H2. simpl in *.
  by rewrite H2, H1, <-app_assoc, drop_app_length.
Qed.

End RecompileAndSign.

(** C10: whatever the arguments, the tools and the disk, each signing
    invocation of [recompile_and_sign] passes the alias ["androiddebugkey"],
    the store password ["android"] and the key password ["android"]: every
    command of the stage is a rebuild or a signing vector with these three
    literals, and a run that returns has issued both signing vectors. *)
Theorem signing_credentials_are_constants (spawn : process)
    (base_folder split_folder output_dir keystore_path : string) (w : world) :
  let run := recompile_and_sign spawn base_folder split_folder output_dir keystore_path in
  let signing apk :=
    ["java"; "-jar"; "uber-apk-signer.jar"; "--apks"; apk; "--ks"; keystore_path;
     "--ksAlias"; "androiddebugkey"; "--ksPass"; "android"; "--ksKeyPass"; "android"] in
  Forall (λ cmd, (∃ folder out, cmd = ["apktool"; "b"; folder; "-o"; out])
                 ∨ (∃ apk, cmd = signing apk))
         (spawned run w)
  ∧ match (run w).1 with
    | Returned _ =>
        drop 2 (spawned run w)
        = [signing (base_out_path output_dir); signing (split_out_path output_dir)]
    | Raised _ => True
    end.
Proof.
  cbv zeta.
  destruct (recompile_and_sign_spawned spawn base_folder split_folder output_dir
              keystore_path w) as [[Hc [e He]]|[[Hc [e He]]|(_ & [[Hc [e He]]| Hc])]];
    rewrite Hc, ?He; (split; [|try done]);
    repeat (apply List.Forall_cons;
            [first [left; by eexists _, _ | right; by eexists]|]);
    try apply List.Forall_nil.
  by destruct (recompile_and_sign _ _ _ _ _ _).1.
Qed.

(** C4, as the code has it: once both packages have been rebuilt, a
    keystore path that names nothing makes the stage raise
    [FileNotFoundError] (the spec's MissingCredential) with only the two
    rebuild commands issued; and in every run, a signing command is issued
    only if both rebuilds returned and the keystore was found by the check
    that follows them. *)
Theorem keystore_checked_before_signing (spawn : process)
    (base_folder split_folder output_dir keystore_path : string) (w : world) :
  let rebuild_base := rebuild base_folder (base_out_path output_dir) in
  let rebuild_split := rebuild split_folder (split_out_path output_dir) in
  let run := recompile_and_sign spawn base_folder split_folder output_dir keystore_path in
  let rebuilt w1 w2 :=
    run_command spawn rebuild_base "Failed to recompile base APK"
      (say "Recompiling and signing APKs..." w) = (Returned tt, w1)
    ∧ run_command spawn rebuild_split "Failed to recompile split APK" w1
      = (Returned tt, w2) in
  (∀ w1 w2, rebuilt w1 w2 → exists_at w2 keystore_path = false →
     run w = (Raised (FileNotFoundError ("Keystore not found: " +:+ keystore_path)), w2)
     ∧ spawned run w = [rebuild_base; rebuild_split])
  ∧ (∀ cmd, cmd ∈ spawned run w → head cmd = Some "java" →
       ∃ w1 w2, rebuilt w1 w2 ∧ exists_at w2 keystore_path = true).
Proof.
  cbv zeta. split.
  - intros w1 w2 [E1 E2] Hks. by eapply recompile_and_sign_no_keystore.
  - intros cmd Hcmd Hjava.
    destruct (recompile_and_sign_spawned spawn base_folder split_folder output_dir
                keystore_path w) as [[Hc _]|[[Hc _]|[(w1 & w2 & ? & ? & ?) _]]].
    + rewrite Hc in Hcmd. apply list_elem_of_singleton in Hcmd as ->. done.
    + rewrite Hc in Hcmd. repeat apply elem_of_cons in Hcmd as [->|Hcmd]; try done.
      by apply elem_of_nil in Hcmd.
    + by exists w1, w2.
Qed.

(** ** Files on disk *)

(** Writing a regular file at [k] leaves every other file, and every other
    absent name, as it was. *)
Lemma lookup_at_write_file_beside (root : node) (k k' : loc) (c : content) :
  parent_dir root k → is_dir_at root k = false → is_dir_at root k' = false → k ≠ k' →
  lookup_at k' (write_at k (File c) root) = lookup_at k' root.
Proof.
  intros Hp Hk Hk' Hne.
  destruct (decide (k `prefix_of` k')) as [[q ->]|H1].
  { assert (q ≠ []) by (intros Hq; apply Hne; by rewrite Hq, app_nil_r).
    rewrite (lookup_at_below root k q) by done.
    rewrite lookup_at_app, lookup_at_write_same by done. simpl.
    by rewrite lookup_at_file; destruct q. }
  destruct (decide (k' `prefix_of` k)) as [[q ->]|H2]; [|by apply lookup_at_write_other].
  destruct q as [|x q _] using rev_ind; [by rewrite app_nil_r in Hne|].
  rewrite app_assoc in Hp. specialize (Hp _ _ eq_refl).
  apply is_dir_at_app in Hp. congruence.
Qed.

Lemma is_dir_at_lookup (root : node) (k : loc) :
  is_dir_at root k = true ↔ ∃ es, lookup_at k root = Some (Dir es).
Proof.
  unfold is_dir_at. destruct (lookup_at k root) as [[?|?]|]; split;
    first [done | by eexists | by intros [? [=]]].
Qed.

(** What the paths name after a regular file has been written where a path
    resolves. *)
Lemma file_at_write (w : world) (p p' : string) (k : loc) (c : content) :
  resolve (fs w) (cwd w) p = Some k → is_dir_at (fs w) k = false →
  file_at (set_fs w (write_at k (File c) (fs w))) p'
  = match resolve (fs w) (cwd w) p' with
    | Some k' => if bool_decide (k' = k) then Some c else file_at w p'
    | None => None
    end.
Proof.
  intros Hp Hk. unfold file_at. simpl.
  rewrite (resolve_ext _ (fs w)) by (intros; by apply is_dir_at_write_file).
  destruct (resolve (fs w) (cwd w) p') as [k'|]; simpl; [|done].
  apply resolve_parent_dir in Hp. case_bool_decide as Hkk'.
  - subst. by rewrite lookup_at_write_same.
  - destruct (is_dir_at (fs w) k') eqn:Hd.
    + pose proof Hd as Hd'. rewrite <-(is_dir_at_write_file k k' c) in Hd' by done.
      apply is_dir_at_lookup in Hd as [? ->]. by apply is_dir_at_lookup in Hd' as [? ->].
    + by rewrite lookup_at_write_file_beside.
Qed.

Lemma exists_at_write (w : world) (p p' : string) (k : loc) (c : content) :
  resolve (fs w) (cwd w) p = Some k → is_dir_at (fs w) k = false →
  exists_at (set_fs w (write_at k (File c) (fs w))) p'
  = match resolve (fs w) (cwd w) p' with
    | Some k' => bool_decide (k' = k) || exists_at w p'
    | None => false
    end.
Proof.
  intros Hp Hk. unfold exists_at. simpl.
  rewrite (resolve_ext _ (fs w)) by (intros; by apply is_dir_at_write_file).
  destruct (resolve (fs w) (cwd w) p') as [k'|]; simpl; [|done].
  apply resolve_parent_dir in Hp. destruct (decide (k' = k)) as [->|Hkk'].
  - rewrite lookup_at_write_same by done.
    by rewrite !bool_decide_eq_true_2 by eauto.
  - rewrite (bool_decide_eq_false_2 (k' = k)) by done. simpl.
    destruct (is_dir_at (fs w) k') eqn:Hd.
    + pose proof Hd as Hd'. rewrite <-(is_dir_at_write_file k k' c) in Hd' by done.
      apply is_dir_at_lookup in Hd as [? ->]. by apply is_dir_at_lookup in Hd' as [? ->].
    + by rewrite lookup_at_write_file_beside.
Qed.

(** What a path names depends on the disk and the working directory only. *)
Lemma file_at_same_disk (w w' : world) (p : string) :
  fs w = fs w' → cwd w = cwd w' → file_at w p = file_at w' p.
Proof. unfold file_at. by intros -> ->. Qed.

Lemma exists_at_same_disk (w w' : world) (p : string) :
  fs w = fs w' → cwd w = cwd w' → exists_at w p = exists_at w' p.
Proof. unfold exists_at. by intros -> ->. Qed.

(** ** The concrete tools honour the contracts *)

Lemma save_succeeded (w : world) (p : string) (c : content) (r : completed) :
  save w p c = Exited r → returncode r = 0%Z →
  ∃ k, resolve (fs w) (cwd w) p = Some k ∧ is_dir_at (fs w) k = false
       ∧ disk r = write_at k (File c) (fs w).
Proof.
  unfold save, failed, succeeded.
  destruct (resolve _ _ p) as [k|]; [|by intros [= <-]].
  destruct (is_dir_at (fs w) k) eqn:E; [by intros [= <-]|].
  intros [= <-] _. by exists k.
Qed.

Lemma ideal_downloads : downloads ideal internet.
Proof.
  intros url dst w r H Hrc. simpl in H.
  destruct (internet url) as [c|]; [|by simplify_eq].
  destruct (save_succeeded _ _ _ _ H Hrc) as (k & ? & ? & ?). by exists k, c.
Qed.

Lemma ideal_rebuilds : rebuilds ideal.
Proof.
  intros folder out w r H Hrc. simpl in H.
  destruct (dir_at w folder); [|by unfold failed in H; simplify_eq].
  destruct (save_succeeded _ _ _ _ H Hrc) as (k & Hk & Hd & ->). split.
  - rewrite (file_at_write w out out k) by done.
    by rewrite Hk, bool_decide_eq_true_2.
  - intros p Hp. rewrite (file_at_write w out p k) by done.
    destruct (resolve _ _ p) as [k'|] eqn:E.
    + by case_bool_decide.
    + unfold file_at in Hp. rewrite E in Hp. by destruct Hp.
Qed.

Lemma keystore_checked_before_signing_witness :
  let w := workdir {[ "base" := Dir ∅; "split" := Dir ∅ ]} in
  let w1 := (run_command ideal (rebuild "base" (base_out_path "."))
               "Failed to recompile base APK" (say "Recompiling and signing APKs..." w)).2 in
  let w2 := (run_command ideal (rebuild "split" (split_out_path "."))
               "Failed to recompile split APK" w1).2 in
  exists_at w2 "debug.keystore" = false
  ∧ recompile_and_sign ideal "base" "split" "." "debug.keystore" w
    = (Raised (FileNotFoundError ("Keystore not found: " +:+ "debug.keystore")), w2)
  ∧ spawned (recompile_and_sign ideal "base" "split" "." "debug.keystore") w
    = [rebuild "base" (base_out_path "."); rebuild "split" (split_out_path ".")].
Proof.
  intros w w1 w2. split; [by vm_compute|].
  apply (proj1 (keystore_checked_before_signing ideal "base" "split" "."
                  "debug.keystore" w) w1 w2).
  - split; by vm_compute.
  - by vm_compute.
Defined.

(** C4 as stated fails: with the keystore absent and a rebuild that exits
    with status 1, the stage raises [RuntimeError], not the
    missing-keystore error. *)
Lemma keystore_check_counterexample :
  ¬ (∀ (spawn : process) (base_folder split_folder output_dir keystore_path : string)
       (w : world),
       exists_at w keystore_path = false →
       ∃ w', recompile_and_sign spawn base_folder split_folder output_dir keystore_path w
             = (Raised (FileNotFoundError ("Keystore not found: " +:+ keystore_path)), w')).
Proof.
  intros H.
  destruct (H broken "base" "split" "." "debug.keystore" fresh eq_refl) as [w' Hw'].
  vm_compute in Hw'. discriminate Hw'.
Qed.

(** C8: when the stage fails at the keystore check, both repackage commands
    have already run and exited with status zero, and (as [apktool b]
    promises for that status) both recompiled packages are on disk in the
    state the failure leaves. *)
Theorem packages_rebuilt_before_keystore_check (spawn : process)
    (base_folder split_folder output_dir keystore_path : string) (w w1 w2 : world) :
  rebuilds spawn →
  run_command spawn (rebuild base_folder (base_out_path output_dir))
    "Failed to recompile base APK" (say "Recompiling and signing APKs..." w)
  = (Returned tt, w1) →
  run_command spawn (rebuild split_folder (split_out_path output_dir))
    "Failed to recompile split APK" w1
  = (Returned tt, w2) →
  exists_at w2 keystore_path = false →
  recompile_and_sign spawn base_folder split_folder output_dir keystore_path w
  = (Raised (FileNotFoundError ("Keystore not found: " +:+ keystore_path)), w2)
  ∧ spawned (recompile_and_sign spawn base_folder split_folder output_dir keystore_path) w
    = [rebuild base_folder (base_out_path output_dir);
       rebuild split_folder (split_out_path output_dir)]
  ∧ is_Some (file_at w2 (base_out_path output_dir))
  ∧ is_Some (file_at w2 (split_out_path output_dir)).
Proof.
  intros Htool E1 E2 Hks.
  destruct (recompile_and_sign_no_keystore spawn base_folder split_folder output_dir
              keystore_path w w1 w2 E1 E2 Hks) as [-> ->].
  split_and!; [done..| |].
  - apply run_command_returned in E1 as (r1 & Hr1 & Hrc1 & ->).
    apply run_command_returned in E2 as (r2 & Hr2 & Hrc2 & ->).
    destruct (Htool _ _ _ _ Hr1 Hrc1) as [Hbase _].
    destruct (Htool _ _ _ _ Hr2 Hrc2) as [_ Hkeep].
    rewrite (file_at_same_disk _ (set_fs (announced
      (rebuild split_folder (split_out_path output_dir))
      (after_success (rebuild base_folder (base_out_path output_dir)) r1
         (say "Recompiling and signing APKs..." w))) (disk r2))) by done.
    apply Hkeep. by erewrite file_at_same_disk.
  - apply run_command_returned in E2 as (r2 & Hr2 & Hrc2 & ->).
    destruct (Htool _ _ _ _ Hr2 Hrc2) as [Hsplit _].
    by erewrite file_at_same_disk.
Qed.

Lemma packages_rebuilt_before_keystore_check_witness :
  let w := workdir {[ "base" := Dir ∅; "split" := Dir ∅ ]} in
  let w1 := (run_command ideal (rebuild "base" (base_out_path "."))
               "Failed to recompile base APK" (say "Recompiling and signing APKs..." w)).2 in
  let w2 := (run_command ideal (rebuild "split" (split_out_path "."))
               "Failed to recompile split APK" w1).2 in
  exists_at w2 "debug.keystore" = false
  ∧ (recompile_and_sign ideal "base" "split" "." "debug.keystore" w).1
    = Raised (FileNotFoundError "Keystore not found: debug.keystore")
  ∧ is_Some (file_at w2 "./base_recompiled.apk")
  ∧ is_Some (file_at w2 "./split_recompiled.apk").
Proof.
  intros w w1 w2. split; [by vm_compute|].
  destruct (packages_rebuilt_before_keystore_check ideal "base" "split" "."
              "debug.keystore" w w1 w2) as (Hrun & _ & Hbase & Hsplit).
  - apply ideal_rebuilds.
  - by vm_compute.
  - by vm_compute.
  - by vm_compute.
  - split_and!; [by rewrite Hrun|exact Hbase|exact Hsplit].
Defined.

(** ** The pipeline *)

(** C7: [main] exits with status 0 when all six stages return, and with
    status 1 when a stage raises, after printing the description of the
    error on standard output; every run is one or the other. *)
Theorem main_exit_status (spawn : process) (args : arguments) (w : world) :
  (∀ w6, stages_succeeded spawn args w w6 →
     main spawn args w = (0%Z, say "Process complete! The patched XAPK is ready." w6))
  ∧ (∀ e w', stage_raised spawn args w e w' →
       main spawn args w = (1%Z, say ("An error occurred: " +:+ str_exn e) w'))
  ∧ ((∃ w6, stages_succeeded spawn args w w6) ∨ (∃ e w', stage_raised spawn args w e w')).
Proof.
  unfold main, pipeline. cbv [mbind py_bind]. split_and!.
  - intros w6 [ks b s w1 w2 w3 w4 w5 E1 E2 E3 E4 E5 E6].
    rewrite E1. cbv beta iota. rewrite E2. cbv beta iota. rewrite E3. cbv beta iota.
    rewrite E4. cbv beta iota. rewrite E5. cbv beta iota. by rewrite E6.
  - intros e w' [E1|ks w1 E1 E2|ks b s w1 w2 E1 E2 E3|ks b s w1 w2 w3 E1 E2 E3 E4
                |ks b s w1 w2 w3 w4 E1 E2 E3 E4 E5|ks b s w1 w2 w3 w4 w5 E1 E2 E3 E4 E5 E6];
      rewrite E1; cbv beta iota; try done;
      rewrite E2; cbv beta iota; try done;
      rewrite E3; cbv beta iota; try done;
      rewrite E4; cbv beta iota; try done;
      rewrite E5; cbv beta iota; try done;
      by rewrite E6.
  - destruct (setup_environment spawn (keystore_url args) w) as [[ks|e] w1] eqn:E1;
      [|right; exists e, w1; by apply setup_raised].
    destruct (download_and_decompile spawn (baseapk_dlink args) (splitapk_dlink args) w1)
      as [[[b s]|e] w2] eqn:E2; [|right; exists e, w2; by eapply fetch_raised].
    destruct (modify_files spawn (libmain_url args) s w2) as [[[]|e] w3] eqn:E3;
      [|right; exists e, w3; by eapply substitute_raised].
    destruct (recompile_and_sign spawn b s "." ks w3) as [[[]|e] w4] eqn:E4;
      [|right; exists e, w4; by eapply sign_raised].
    destruct (finalize_apks "." w4) as [[[]|e] w5] eqn:E5;
      [|right; exists e, w5; by eapply finalize_raised].
    destruct (create_xapk final_output_dir output_xapk_name w5) as [[[]|e] w6] eqn:E6;
      [|right; exists e, w6; by eapply bundle_raised].
    left. exists w6. by eapply all_stages.
Qed.

Lemma main_exit_status_witness :
  let args := example_arguments in
  let w1 := (setup_environment ideal (keystore_url args) fresh).2 in
  let w2 := (download_and_decompile ideal (baseapk_dlink args) (splitapk_dlink args) w1).2 in
  let w3 := (modify_files ideal (libmain_url args) "split" w2).2 in
  let w4 := (recompile_and_sign ideal "base" "split" "." "debug.keystore" w3).2 in
  let w5 := (finalize_apks "." w4).2 in
  let w6 := (create_xapk final_output_dir output_xapk_name w5).2 in
  stages_succeeded ideal args fresh w6
  ∧ main ideal args fresh = (0%Z, say "Process complete! The patched XAPK is ready." w6)
  ∧ stage_raised broken args fresh (RuntimeError "Failed to update apt: boom")
      (setup_environment broken (keystore_url args) fresh).2
  ∧ main broken args fresh
    = (1%Z, say "An error occurred: Failed to update apt: boom"
              (setup_environment broken (keystore_url args) fresh).2).
Proof.
  intros args w1 w2 w3 w4 w5 w6.
  assert (stages_succeeded ideal args fresh w6) as Hok.
  { apply (all_stages ideal args fresh w6 "debug.keystore" "base" "split" w1 w2 w3 w4 w5);
      by vm_compute. }
  assert (stage_raised broken args fresh (RuntimeError "Failed to update apt: boom")
            (setup_environment broken (keystore_url args) fresh).2) as Hko.
  { apply setup_raised. by vm_compute. }
  destruct (main_exit_status ideal args fresh) as (H0 & _ & _).
  destruct (main_exit_status broken args fresh) as (_ & H1 & _).
  split_and!; [exact Hok|exact (H0 _ Hok)|exact Hko|exact (H1 _ _ Hko)].
Defined.

(** ** Finalize *)

Lemma sibling_not_prefix (p : loc) (a b : string) (q : list string) :
  a ≠ b → ¬ (p ++ [a]) `prefix_of` (p ++ b :: q).
Proof.
  intros Hab [r Hr]. rewrite <-app_assoc in Hr. apply app_inv_head in Hr.
  simpl in Hr. by simplify_eq.
Qed.

(** The components of [join(d, name)] when [d] names a directory. *)
Lemma resolve_join_comps (root : node) (cwd : loc) (d name : string) (D : loc) :
  valid_name name → resolve root cwd d = Some D → is_dir_at root D = true →
  ∃ comps, split_slash (os_path_join d name) = comps ++ [name]
           ∧ namei root (if starts_with_slash (os_path_join d name) then [] else cwd) comps
             = Some D.
Proof.
  intros Hv Hd HD. assert (d ≠ "") as Hne by by intros ->.
  destruct (split_slash_join d name Hv Hne) as (comps & Hj & Hs & Hst).
  exists comps. split; [done|]. rewrite Hst. unfold resolve in Hd.
  rewrite bool_decide_eq_false_2 in Hd by done.
  destruct Hs as [Hs|Hs]; rewrite Hs in Hd; [done|].
  rewrite namei_app in Hd. destruct (namei root _ comps) as [k|]; [|done].
  simpl in Hd. destruct (is_dir_at root k); by simplify_eq.
Qed.

(** [os.makedirs(join(d, name), exist_ok=True)] in an existing directory. *)
Lemma os_makedirs_in_directory (w : world) (d name : string) (D : loc) :
  valid_name name → resolve (fs w) (cwd w) d = Some D → is_dir_at (fs w) D = true →
  os_makedirs (os_path_join d name) w
  = match lookup_at (D ++ [name]) (fs w) with
    | Some (Dir _) => (Returned tt, w)
    | Some (File _) =>
        (Raised (FileExistsError ("[Errno 17] File exists: '" +:+ os_path_join d name +:+ "'")), w)
    | None => (Returned tt, set_fs w (write_at (D ++ [name]) (Dir ∅) (fs w)))
    end.
Proof.
  intros Hv Hd HD. destruct (resolve_join_comps _ _ _ _ _ Hv Hd HD) as (comps & Hj & Hn).
  unfold os_makedirs.
  rewrite bool_decide_eq_false_2 by (apply os_path_join_nonempty, Hv).
  rewrite Hj, (makedirs_from_existing _ _ _ _ D) by done.
  destruct (lookup_at (D ++ [name]) (fs w)) as [[?|?]|]; try done.
  by destruct w.
Qed.

(** A new directory beside it does not change what [join(d, name)] names. *)
Lemma exists_at_beside_new_dir (w : world) (d name other : string) (D : loc) :
  valid_name name → name ≠ other →
  resolve (fs w) (cwd w) d = Some D → is_dir_at (fs w) D = true →
  lookup_at (D ++ [other]) (fs w) = None →
  exists_at (set_fs w (write_at (D ++ [other]) (Dir ∅) (fs w))) (os_path_join d name)
  = exists_at w (os_path_join d name).
Proof.
  intros Hv Hne Hd HD Hnone. unfold exists_at. simpl.
  rewrite (resolve_join_dir (fs w) _ _ _ D) by done.
  rewrite (resolve_join_dir _ _ _ _ D); [|done| |].
  - rewrite lookup_at_write_other; [done|..].
    + by apply (sibling_not_prefix D other name []).
    + by apply (sibling_not_prefix D name other []).
  - eapply resolve_mono; [|done]. intros k. by apply is_dir_at_write_new_dir.
  - by apply is_dir_at_write_new_dir.
Qed.

(** The stage, one primitive after the other. *)
Lemma finalize_apks_run (directory : string) (w : world) :
  finalize_apks directory w
  = match os_makedirs (final_dir directory) (say "Finalizing APKs..." w) with
    | (Raised e, w1) => (Raised e, w1)
    | (Returned _, w1) =>
    if exists_at w1 (signed_base directory) then
      if exists_at w1 (signed_split directory) then
        match os_rename (signed_base directory)
                (os_path_join (final_dir directory) "base.apk") w1 with
        | (Raised e, w2) => (Raised e, w2)
        | (Returned _, w2) =>
        match os_rename (signed_split directory)
                (os_path_join (final_dir directory) "config.arm64_v8a.apk") w2 with
        | (Raised e, w3) => (Raised e, w3)
        | (Returned _, w3) => (Returned tt, say rule (say "Finalization complete!" w3))
        end end
      else (Raised (missing_signed_split directory), w1)
    else (Raised (missing_signed_base directory), w1)
    end.
Proof.
  unfold finalize_apks.
  cbv [mbind py_bind print os_path_exists raise mret py_ret].
  destruct (os_makedirs _ _) as [[?|?] w1]; [|done].
  destruct (exists_at w1 (signed_base directory)); simpl; [|done].
  destruct (exists_at w1 (signed_split directory)); simpl; [|done].
  destruct (os_rename _ _ w1) as [[?|?] w2]; [|done].
  by destruct (os_rename _ _ w2) as [[?|?] w3].
Qed.

Lemma valid_name_final : valid_name "final".
Proof. by repeat split. Qed.
Lemma valid_name_signed_base : valid_name "base_recompiled-aligned-signed.apk".
Proof. by repeat split. Qed.
Lemma valid_name_signed_split : valid_name "split_recompiled-aligned-signed.apk".
Proof. by repeat split. Qed.

(** The final directory as [makedirs] leaves it in an existing directory
    whose entry [final] is not a regular file. *)
Lemma finalize_apks_makedirs (directory : string) (w : world) (D : loc) :
  resolve (fs w) (cwd w) directory = Some D → is_dir_at (fs w) D = true →
  (∀ c, lookup_at (D ++ ["final"]) (fs w) ≠ Some (File c)) →
  ∃ w1, os_makedirs (final_dir directory) (say "Finalizing APKs..." w) = (Returned tt, w1)
        ∧ cwd w1 = cwd w
        ∧ exists_at w1 (signed_base directory) = exists_at w (signed_base directory)
        ∧ exists_at w1 (signed_split directory) = exists_at w (signed_split directory)
        ∧ (∀ name, lookup_at (D ++ ["final"; name]) (fs w1)
                   = lookup_at (D ++ ["final"; name]) (fs w))
        ∧ is_dir_at (fs w1) (D ++ ["final"]) = true.
Proof.
  intros Hd HD Hfile. unfold final_dir.
  rewrite (os_makedirs_in_directory _ _ _ D) by (done || apply valid_name_final).
  simpl. destruct (lookup_at (D ++ ["final"]) (fs w)) as [[c|es]|] eqn:E.
  - by destruct (Hfile c).
  - eexists. split_and!; try done. unfold is_dir_at. simpl. by rewrite E.
  - eexists. split_and!; [done|done|..].
    + apply (exists_at_beside_new_dir (say "Finalizing APKs..." w) _ _ "final" D);
        first [done | apply valid_name_signed_base].
    + apply (exists_at_beside_new_dir (say "Finalizing APKs..." w) _ _ "final" D);
        first [done | apply valid_name_signed_split].
    + intros name. simpl.
      change (D ++ ["final"; name]) with (D ++ ["final"] ++ [name]).
      rewrite !app_assoc, !(lookup_at_app (D ++ ["final"]) [name]), E.
      rewrite lookup_at_write_snoc by done. simpl. by rewrite lookup_empty.
    + unfold is_dir_at. simpl. by rewrite lookup_at_write_snoc.
Qed.

Lemma missing_signed_base_names (directory : string) :
  contains (signed_base directory) (str_exn (missing_signed_base directory)).
Proof. by exists "Missing signed base APK: ", ". Check uber-apk-signer output name.". Qed.

Lemma missing_signed_split_names (directory : string) :
  contains (signed_split directory) (str_exn (missing_signed_split directory)).
Proof. by exists "Missing signed split APK: ", ". Check uber-apk-signer output name.". Qed.

(** C3, as the code has it: once the final directory has been created (or
    found to be a directory), when a signed package is absent [finalize_apks]
    raises [FileNotFoundError] (the spec's MissingSignedArtifact) with a
    message that names the missing file, the base package first, and leaves
    the state the directory creation left, so nothing has been moved into the
    final directory. In an existing directory whose entry [final] is not a
    regular file the creation succeeds and changes neither which signed
    packages are there nor what the final directory holds. *)
Theorem finalize_reports_missing_artifact (directory : string) (w : world) :
  (∀ w1,
     os_makedirs (final_dir directory) (say "Finalizing APKs..." w) = (Returned tt, w1) →
     exists_at w1 (signed_base directory) = false
     ∨ exists_at w1 (signed_split directory) = false →
     ∃ e, finalize_apks directory w = (Raised e, w1)
          ∧ if exists_at w1 (signed_base directory)
            then e = missing_signed_split directory
                 ∧ contains (signed_split directory) (str_exn e)
            else e = missing_signed_base directory
                 ∧ contains (signed_base directory) (str_exn e))
  ∧ (∀ D,
       resolve (fs w) (cwd w) directory = Some D → is_dir_at (fs w) D = true →
       (∀ c, lookup_at (D ++ ["final"]) (fs w) ≠ Some (File c)) →
       ∃ w1,
         os_makedirs (final_dir directory) (say "Finalizing APKs..." w) = (Returned tt, w1)
         ∧ exists_at w1 (signed_base directory) = exists_at w (signed_base directory)
         ∧ exists_at w1 (signed_split directory) = exists_at w (signed_split directory)
         ∧ ∀ name, lookup_at (D ++ ["final"; name]) (fs w1)
                   = lookup_at (D ++ ["final"; name]) (fs w)).
Proof.
  split.
  - intros w1 Hmk Hmiss. rewrite finalize_apks_run, Hmk.
    destruct (exists_at w1 (signed_base directory)) eqn:Eb.
    + destruct Hmiss as [? | ->]; [done|].
      eexists. split; [done|]. split; [done|]. apply missing_signed_split_names.
    + eexists. split; [done|]. split; [done|]. apply missing_signed_base_names.
  - intros D Hd HD Hfile.
    destruct (finalize_apks_makedirs directory w D Hd HD Hfile)
      as (w1 & Hmk & _ & Hb & Hs & Hkeep & _).
    by exists w1.
Qed.

Lemma finalize_reports_missing_artifact_witness :
  let w := workdir {[ "base_recompiled-aligned-signed.apk" := File (Bytes "signed base") ]} in
  ∃ w1,
    (os_makedirs (final_dir ".") (say "Finalizing APKs..." w) = (Returned tt, w1)
     ∧ exists_at w1 (signed_base ".") = exists_at w (signed_base ".")
     ∧ exists_at w1 (signed_split ".") = exists_at w (signed_split ".")
     ∧ ∀ name, lookup_at (["work"] ++ ["final"; name]) (fs w1)
               = lookup_at (["work"] ++ ["final"; name]) (fs w))
    ∧ exists_at w (signed_split ".") = false
    ∧ ∃ e, finalize_apks "." w = (Raised e, w1)
           ∧ e = missing_signed_split "." ∧ contains (signed_split ".") (str_exn e).
Proof.
  intros w.
  destruct (finalize_reports_missing_artifact "." w) as [Hfails Hcreates].
  destruct (Hcreates ["work"]) as (w1 & Hmk & Hb & Hs & Hkeep).
  - by vm_compute.
  - by vm_compute.
  - intros c. by vm_compute.
  - assert (exists_at w (signed_split ".") = false) as Hsplit by by vm_compute.
    assert (exists_at w (signed_base ".") = true) as Hbase by by vm_compute.
    exists w1. split_and!; [done..|].
    destruct (Hfails w1 Hmk) as (e & Hrun & He); [right; by rewrite Hs|].
    rewrite Hb, Hbase in He. by exists e.
Defined.

(** C3 as stated fails: where [final] is a regular file, [finalize_apks]
    stops at the directory creation with [FileExistsError], whichever signed
    package is absent. *)
Lemma finalize_counterexample :
  ¬ (∀ (directory : string) (w : world),
       exists_at w (signed_base directory) = false
       ∨ exists_at w (signed_split directory) = false →
       ∃ w', finalize_apks directory w = (Raised (missing_signed_base directory), w')
             ∨ finalize_apks directory w = (Raised (missing_signed_split directory), w')).
Proof.
  intros H.
  destruct (H "." (workdir {[ "final" := File (Bytes "not a directory") ]}))
    as [w' [Hw'|Hw']].
  - left. by vm_compute.
  - vm_compute in Hw'. discriminate Hw'.
  - vm_compute in Hw'. discriminate Hw'.
Qed.

Lemma errno_not_missing (e : exn) (directory : string) :
  errno e → e ≠ missing_signed_base directory ∧ e ≠ missing_signed_split directory.
Proof.
  unfold missing_signed_base, missing_signed_split.
  destruct e; try done; intros [m' ->]; split; intros [= H];
    by rewrite !str_app_cons in H.
Qed.

Lemma os_makedirs_raised (p : string) (w w' : world) (e : exn) :
  os_makedirs p w = (Raised e, w') → errno e.
Proof.
  unfold os_makedirs. case_bool_decide.
  { intros [= <- _]. by eexists. }
  destruct (makedirs_from _ _ _ _) as [e'|] eqn:E; [|done]. intros [= -> _].
  revert E. generalize (fs w) (if starts_with_slash p then [] else cwd w).
  induction (split_slash p) as [|c l IH]; intros root cur; simpl; [done|].
  destruct (is_dir_at root cur); simpl; [|by intros [= <-]].
  destruct (bool_decide (c = "") || bool_decide (c = ".")); [by apply IH|].
  destruct (bool_decide (c = "..")); [by apply IH|].
  destruct (lookup_at (cur ++ [c]) root) as [[?|?]|]; [|by apply IH..].
  intros [= <-]. by destruct l.
Qed.

Lemma os_rename_raised (src dst : string) (w w' : world) (e : exn) :
  os_rename src dst w = (Raised e, w') → errno e.
Proof.
  unfold os_rename.
  destruct (resolve (fs w) (cwd w) src) as [ks|]; [|intros [= <- _]; by eexists].
  destruct (lookup_at ks (fs w)) as [n|], (resolve (fs w) (cwd w) dst) as [kd|];
    try (intros [= <- _]; by eexists).
  repeat case_bool_decide; try (by intros [= <- _]).
  destruct n, (lookup_at kd (fs w)) as [[?|?]|]; try (by intros [= <- _]).
  by case_bool_decide; intros [= <- _].
Qed.

(** After [os.makedirs] has returned, its path names a directory. *)
Lemma os_makedirs_returned (p : string) (w w' : world) u :
  os_makedirs p w = (Returned u, w') →
  cwd w' = cwd w ∧ is_Some (dir_at w' p).
Proof.
  unfold os_makedirs. case_bool_decide as Hp; [done|].
  destruct (makedirs_from _ _ _ _) as [|root'] eqn:E; [done|]. intros [= _ <-].
  split; [done|]. unfold dir_at, resolve. simpl.
  rewrite bool_decide_eq_false_2 by done.
  assert (is_dir_at (fs w) (if starts_with_slash p then [] else cwd w) = true) as Hcur.
  { pose proof (split_slash_nonempty p). destruct (split_slash p); [done|].
    simpl in E. by destruct (is_dir_at (fs w) _). }
  destruct (makedirs_from_resolves _ _ _ _ _ Hcur E) as (k & -> & Hk). simpl.
  apply is_dir_at_lookup in Hk as [es ->]. by eexists.
Qed.

(** C9: [finalize_apks] creates the final directory before it looks for the
    signed packages: when it fails for a missing signed package, the state
    it leaves is the one [os.makedirs] returned, in which the final
    directory exists; it is empty if it had to be created in an existing
    directory. *)
Theorem final_directory_created_before_checks (directory : string) (w w' : world)
    (e : exn) :
  finalize_apks directory w = (Raised e, w') →
  e = missing_signed_base directory ∨ e = missing_signed_split directory →
  os_makedirs (final_dir directory) (say "Finalizing APKs..." w) = (Returned tt, w')
  ∧ is_Some (dir_at w' (final_dir directory))
  ∧ ∀ D, resolve (fs w) (cwd w) directory = Some D → is_dir_at (fs w) D = true →
         lookup_at (D ++ ["final"]) (fs w) = None →
         dir_at w' (final_dir directory) = Some ∅.
Proof.
  intros Hrun He. rewrite finalize_apks_run in Hrun.
  assert (e ≠ missing_signed_base directory ∧ e ≠ missing_signed_split directory → False)
    as Habs by (intros [? ?]; by destruct He).
  destruct (os_makedirs _ _) as [[[]|e1] w1] eqn:Hmk.
  2:{ simplify_eq. destruct Habs. eapply errno_not_missing, os_makedirs_raised, Hmk. }
  assert (w1 = w') as ->.
  { destruct (exists_at w1 (signed_base directory)); [|by simplify_eq].
    destruct (exists_at w1 (signed_split directory)); [|by simplify_eq].
    destruct (os_rename _ _ w1) as [[[]|e2] w2] eqn:Hr1.
    2:{ simplify_eq. destruct Habs. eapply errno_not_missing, os_rename_raised, Hr1. }
    destruct (os_rename _ _ w2) as [[[]|e3] w3] eqn:Hr2; [done|].
    simplify_eq. destruct Habs. eapply errno_not_missing, os_rename_raised, Hr2. }
  split_and!; [done|by eapply os_makedirs_returned|].
  intros D Hd HD Hnone. unfold final_dir in *.
  rewrite (os_makedirs_in_directory _ _ _ D) in Hmk by (done || apply valid_name_final).
  simpl in Hmk. rewrite Hnone in Hmk. simplify_eq. unfold dir_at. simpl.
  rewrite (resolve_join_dir _ _ _ _ D); [|apply valid_name_final| |].
  - simpl. by rewrite lookup_at_write_snoc.
  - eapply resolve_mono; [|done]. intros k. by apply is_dir_at_write_new_dir.
  - by apply is_dir_at_write_new_dir.
Qed.

Lemma final_directory_created_before_checks_witness :
  let w := workdir ∅ in
  let w' := (finalize_apks "." w).2 in
  exists_at w (final_dir ".") = false
  ∧ finalize_apks "." w = (Raised (missing_signed_base "."), w')
  ∧ os_makedirs (final_dir ".") (say "Finalizing APKs..." w) = (Returned tt, w')
  ∧ is_Some (dir_at w' (final_dir "."))
  ∧ dir_at w' (final_dir ".") = Some ∅.
Proof.
  intros w w'. assert (finalize_apks "." w = (Raised (missing_signed_base "."), w')) as Hrun
    by by vm_compute.
  destruct (final_directory_created_before_checks "." w w' (missing_signed_base ".") Hrun)
    as (Hmk & Hdir & Hempty); [by left|].
  split_and!; [by vm_compute|exact Hrun|exact Hmk|exact Hdir|].
  apply (Hempty ["work"]); by vm_compute.
Defined.

(** ** Native library substitution *)

Lemma valid_name_libmain : valid_name "libmain.so".
Proof. by repeat split. Qed.
Lemma valid_name_libmain_orig : valid_name "libmain_orig.so".
Proof. by repeat split. Qed.

(** The library and its backup are two names in one directory. *)
Lemma libmain_paths (root : node) (cwd : loc) (folder : string) (k : loc) :
  resolve root cwd (mod_file_path folder) = Some k →
  ∃ P, is_dir_at root P = true ∧ k = P ++ ["libmain.so"]
       ∧ resolve root cwd (new_orig_file folder) = Some (P ++ ["libmain_orig.so"]).
Proof.
  unfold mod_file_path, new_orig_file.
  assert (mod_dir folder ≠ "") by by apply os_path_join_nonempty.
  rewrite !resolve_join by (done || apply valid_name_libmain || apply valid_name_libmain_orig).
  destruct (resolve root cwd (mod_dir folder)) as [P|]; [|done]. simpl.
  destruct (is_dir_at root P) eqn:E; [|done]. intros [= <-]. by exists P.
Qed.

Section ModifyFiles.

Context (spawn : process) (libmain_url split_decompile_folder : string).

Let download := libmain_download libmain_url split_decompile_folder.

(** Lines 84-86. *)
Let finish : py unit :=
  run_command spawn download "Failed to download modded libmain.so";;
  print "File modification complete!";;
  print rule.

(** The stage, one primitive after the other. *)
Lemma modify_files_run (w : world) :
  modify_files spawn libmain_url split_decompile_folder w
  = let w0 := say "🛠️ Modifying files..." w in
    if exists_at w0 (orig_file split_decompile_folder) then
      match os_rename (orig_file split_decompile_folder)
              (new_orig_file split_decompile_folder) w0 with
      | (Raised e, w1) => (Raised e, w1)
      | (Returned _, w1) =>
          finish (say ("Renamed " +:+ orig_file split_decompile_folder +:+ " to "
                       +:+ new_orig_file split_decompile_folder) w1)
      end
    else finish w0.
Proof.
  unfold modify_files, finish, download.
  cbv [mbind py_bind print os_path_exists mret py_ret].
  destruct (exists_at _ _); [|done].
  by destruct (os_rename _ _ _) as [[?|?] w1].
Qed.

Lemma finish_returned (w w' : world) u :
  finish w = (Returned u, w') →
  ∃ r, spawn download (announced download w) = Exited r ∧ returncode r = 0%Z
       ∧ fs w' = disk r ∧ cwd w' = cwd w.
Proof.
  unfold finish. cbv [mbind py_bind print].
  destruct (run_command _ _ _ _) as [[[]|?] w1] eqn:E; [|done].
  apply run_command_returned in E as (r & ? & ? & ->). intros [= _ <-]. by exists r.
Qed.

Lemma finish_history (w : world) : history (finish w).2 = history w ++ [download].
Proof.
  unfold finish. cbv [mbind py_bind print].
  pose proof (run_command_history spawn download "Failed to download modded libmain.so" w) as H.
  by destruct (run_command _ _ _ _) as [[[]|?] w1].
Qed.

End ModifyFiles.

(** [os.rename] of a regular file onto a name beside it. *)
Lemma os_rename_file (w : world) (src dst : string) (ks kd : loc) (c : content) :
  resolve (fs w) (cwd w) src = Some ks → lookup_at ks (fs w) = Some (File c) →
  resolve (fs w) (cwd w) dst = Some kd → ¬ ks `prefix_of` kd →
  os_rename src dst w
  = if is_dir_at (fs w) kd
    then (Raised (IsADirectoryError ("[Errno 21] Is a directory: "
                                     +:+ "'" +:+ src +:+ "' -> '" +:+ dst +:+ "'")), w)
    else (Returned tt, set_fs w (write_at kd (File c) (remove_at ks (fs w)))).
Proof.
  intros Hs Hl Hd Hpre. unfold os_rename. rewrite Hs, Hl, Hd.
  rewrite bool_decide_eq_false_2 by (intros ->; by apply Hpre).
  rewrite bool_decide_eq_false_2 by (intros ->; apply Hpre, prefix_nil).
  rewrite bool_decide_eq_false_2 by done.
  unfold is_dir_at. by destruct (lookup_at kd (fs w)) as [[?|?]|].
Qed.

(** The disk after a regular file has been renamed within its directory. *)
Lemma renamed_file_disk (root : node) (P : loc) (a b : string) (c : content) :
  is_dir_at root P = true → a ≠ b →
  lookup_at (P ++ [a]) root = Some (File c) → is_dir_at root (P ++ [b]) = false →
  let root' := write_at (P ++ [b]) (File c) (remove_at (P ++ [a]) root) in
  (∀ k, is_dir_at root' k = is_dir_at root k)
  ∧ lookup_at (P ++ [b]) root' = Some (File c)
  ∧ lookup_at (P ++ [a]) root' = None.
Proof.
  intros HP Hab Ha Hb root'.
  assert (∀ k, is_dir_at (remove_at (P ++ [a]) root) k = is_dir_at root k) as Hrm
    by (intros k; by eapply is_dir_at_remove_file).
  split_and!.
  - intros k. subst root'. rewrite is_dir_at_write_file; [done|]. by rewrite Hrm.
  - apply lookup_at_write_snoc. by rewrite Hrm.
  - subst root'. rewrite lookup_at_write_other.
    + apply lookup_at_remove_same. by destruct P.
    + apply (sibling_not_prefix P b a []). done.
    + apply (sibling_not_prefix P a b []). done.
Qed.

(** C2: when the original library is a regular file and [modify_files]
    returns, the library path holds the document the download fetched and
    the backup path holds what the library held before; the download tool
    is taken at its word (exit status zero: the document is saved at the
    path given, nothing else changes). *)
Theorem modify_files_keeps_backup (spawn : process) (remote : string → option content)
    (libmain_url split_decompile_folder : string) (w w' : world) (original : content) :
  downloads spawn remote →
  file_at w (orig_file split_decompile_folder) = Some original →
  modify_files spawn libmain_url split_decompile_folder w = (Returned tt, w') →
  ∃ replacement,
    remote libmain_url = Some replacement
    ∧ file_at w' (mod_file_path split_decompile_folder) = Some replacement
    ∧ file_at w' (new_orig_file split_decompile_folder) = Some original.
Proof.
  intros Htool Horig Hrun. rewrite modify_files_run in Hrun. cbv zeta in Hrun.
  set (w0 := say "🛠️ Modifying files..." w) in *.
  unfold file_at in Horig.
  destruct (resolve (fs w) (cwd w) (orig_file split_decompile_folder)) as [ks|] eqn:Hks;
    [|done].
  simpl in Horig. destruct (lookup_at ks (fs w)) as [[c|?]|] eqn:Hl; simplify_eq.
  assert (exists_at w0 (orig_file split_decompile_folder) = true) as Hex.
  { unfold exists_at. change (fs w0) with (fs w). change (cwd w0) with (cwd w).
    rewrite Hks, Hl. by apply bool_decide_eq_true_2. }
  rewrite Hex in Hrun.
  destruct (libmain_paths _ _ _ _ Hks) as (P & HP & -> & Hnew).
  rewrite (os_rename_file w0 _ _ (P ++ ["libmain.so"]) (P ++ ["libmain_orig.so"]) original)
    in Hrun; [|done..|by apply (sibling_not_prefix P _ _ [])].
  destruct (is_dir_at (fs w0) (P ++ ["libmain_orig.so"])) eqn:Hbak; [done|].
  destruct (renamed_file_disk (fs w) P "libmain.so" "libmain_orig.so" original)
    as (Hdirs & Hb & Ha); [done..|].
  apply finish_returned in Hrun as (r & Hr & Hrc & Hfs & Hcwd).
  destruct (Htool _ _ _ _ Hr Hrc) as (k & replacement & Hrem & Hk & Hkd & Hdisk).
  cbn [fs cwd announced say set_fs] in Hk, Hkd, Hdisk, Hcwd.
  change (fs w0) with (fs w) in *. change (cwd w0) with (cwd w) in *.
  set (root1 := write_at (P ++ ["libmain_orig.so"]) (File original)
                  (remove_at (P ++ ["libmain.so"]) (fs w))) in *.
  rewrite (resolve_ext root1 (fs w)) in Hk by done.
  change (mod_file_path split_decompile_folder)
    with (orig_file split_decompile_folder) in Hk.
  rewrite Hks in Hk. injection Hk as <-.
  exists replacement. split; [done|].
  pose (w1 := World root1 (cwd w) (console w) (history w)).
  assert (∀ p, file_at w' p = file_at (set_fs w1 (write_at (P ++ ["libmain.so"])
                                                   (File replacement) (fs w1))) p) as Hw'.
  { intros p. apply file_at_same_disk; [by rewrite Hfs, Hdisk|done]. }
  assert (∀ p, resolve (fs w1) (cwd w1) p = resolve (fs w) (cwd w) p) as Hres
    by (intros p; by apply resolve_ext).
  rewrite !Hw', !(file_at_write w1 (orig_file split_decompile_folder))
    by (by rewrite ?Hres).
  rewrite !Hres. change (mod_file_path split_decompile_folder)
    with (orig_file split_decompile_folder).
  rewrite Hks, Hnew, bool_decide_eq_true_2 by done. split; [done|].
  rewrite bool_decide_eq_false_2.
  - unfold file_at. rewrite Hres, Hnew. simpl. by rewrite Hb.
  - intros Heq. apply app_inj_tail in Heq as [_ [=]].
Qed.

Lemma modify_files_keeps_backup_witness :
  let w := workdir {[ "split" := decompiled (Bytes "original library") ]} in
  let w' := (modify_files ideal "https://dl.example/libmain.so" "split" w).2 in
  file_at w (orig_file "split") = Some (Bytes "original library")
  ∧ modify_files ideal "https://dl.example/libmain.so" "split" w = (Returned tt, w')
  ∧ ∃ replacement,
      internet "https://dl.example/libmain.so" = Some replacement
      ∧ file_at w' (mod_file_path "split") = Some replacement
      ∧ file_at w' (new_orig_file "split") = Some (Bytes "original library").
Proof.
  intros w w'.
  assert (file_at w (orig_file "split") = Some (Bytes "original library")) as Horig
    by by vm_compute.
  assert (modify_files ideal "https://dl.example/libmain.so" "split" w = (Returned tt, w'))
    as Hrun by by vm_compute.
  split_and!; [exact Horig|exact Hrun|].
  exact (modify_files_keeps_backup ideal internet "https://dl.example/libmain.so" "split"
           w w' (Bytes "original library") ideal_downloads Horig Hrun).
Defined.




(** ** The files of a tree *)

Lemma foldr_uncurry_bind {A B C} (g : A → B → list C) (l : list (A * B)) :
  foldr (uncurry (λ a b acc, g a b ++ acc)) [] l = l ≫= λ e, g e.1 e.2.
Proof. induction l as [|[a b] l IH]; [done|]. rewrite bind_cons. simpl. by rewrite IH. Qed.

Lemma tree_files_dir (es : gmap string node) :
  tree_files (Dir es)
  = ((λ e, ([e.1], e.2)) <$> file_entries (listing es))
    ++ (listing es ≫= λ e, (λ x, (e.1 :: x.1, x.2)) <$> tree_files e.2).
Proof.
  simpl. f_equal. rewrite map_fold_foldr.
  apply (foldr_uncurry_bind (λ name sub, (λ x, (name :: x.1, x.2)) <$> tree_files sub)).
Qed.

Lemma walk_node_dir (top : string) (es : gmap string node) :
  walk_node top (Dir es)
  = (top, dir_names (listing es), file_names (listing es))
    :: (listing es ≫= λ e, walk_node (os_path_join top e.1) e.2).
Proof.
  simpl. f_equal. rewrite map_fold_foldr.
  apply (foldr_uncurry_bind (λ name sub, walk_node (os_path_join top name) sub)).
Qed.

Lemma count_files_dir (es : gmap string node) :
  count_files (Dir es) = foldr (λ e acc, count_files e.2 + acc) 0 (listing es).
Proof.
  simpl. rewrite map_fold_foldr. unfold listing.
  induction (map_to_list es) as [|[??] ? IH]; [done|]. simpl. by rewrite IH.
Qed.

Lemma elem_of_listing (es : gmap string node) (name : string) (sub : node) :
  (name, sub) ∈ listing es ↔ es !! name = Some sub.
Proof. apply elem_of_map_to_list. Qed.

Lemma elem_of_file_entries (l : list (string * node)) (f : string) (c : content) :
  (f, c) ∈ file_entries l ↔ (f, File c) ∈ l.
Proof.
  unfold file_entries. rewrite list_elem_of_omap. split.
  - intros ([f' [c'|?]] & Hin & Heq); simplify_eq/=. done.
  - intros Hin. by exists (f, File c).
Qed.

(** The files of a tree are the locations that hold a regular file. *)
Lemma elem_of_tree_files (n : node) (rel : loc) (c : content) :
  (rel, c) ∈ tree_files n ↔ rel ≠ [] ∧ lookup_at rel n = Some (File c).
Proof.
  revert rel. induction n as [c'|es IH] using node_induction; intros rel.
  { simpl. rewrite elem_of_nil. split; [done|]. intros [Hrel H].
    rewrite lookup_at_file in H. by destruct rel. }
  rewrite tree_files_dir, elem_of_app, list_elem_of_fmap, list_elem_of_bind. split.
  - intros [([f c0] & [= -> ->] & Hin)|([name sub] & Hin & Hsub)].
    + apply elem_of_file_entries, elem_of_listing in Hin. simpl. by rewrite Hin.
    + apply elem_of_listing in Hsub. simpl in Hin.
      apply list_elem_of_fmap in Hin as ([rel' c0] & [= -> ->] & Hin).
      apply (IH _ _ Hsub) in Hin as [? Hin]. simpl. by rewrite Hsub.
  - intros [Hrel H]. destruct rel as [|name rel']; [done|]. simpl in H.
    destruct (es !! name) as [sub|] eqn:Hsub; [|done]. simpl in H.
    destruct rel' as [|x rel'].
    + simpl in H. simplify_eq. left. exists (name, c). split; [done|].
      by apply elem_of_file_entries, elem_of_listing.
    + right. exists (name, sub). split; [|by apply elem_of_listing]. simpl.
      apply list_elem_of_fmap. exists (x :: rel', c). split; [done|].
      by apply (IH _ _ Hsub).
Qed.

Lemma file_entries_names (l : list (string * node)) (f : string) :
  f ∈ (file_entries l).*1 → f ∈ l.*1.
Proof.
  intros ([f' c] & -> & Hin%elem_of_file_entries)%list_elem_of_fmap.
  apply list_elem_of_fmap. by exists (f', File c).
Qed.

Lemma NoDup_file_entries (l : list (string * node)) :
  NoDup l.*1 → NoDup (file_entries l).*1.
Proof.
  induction l as [|[f [c|es]] l IH]; [done|..]; rewrite fmap_cons, NoDup_cons;
    intros [Hf Hl]; unfold file_entries; csimpl; [|by apply IH].
  apply NoDup_cons. split; [|by apply IH].
  intros Hin. by apply Hf, file_entries_names.
Qed.

Lemma fmap_fst_bind {A B C} (g : A → list (B * C)) (l : list A) :
  (l ≫= g).*1 = l ≫= λ e, (g e).*1.
Proof.
  induction l as [|x l IH]; [done|]. by rewrite !bind_cons, fmap_app, IH.
Qed.

(** No location is listed twice. *)
Lemma NoDup_tree_files (n : node) : NoDup (tree_files n).*1.
Proof.
  induction n as [c'|es IH] using node_induction; [constructor|].
  rewrite tree_files_dir, fmap_app, NoDup_app. split_and!.
  - rewrite <-list_fmap_compose.
    change (NoDup (((λ f : string, [f]) ∘ fst) <$> file_entries (listing es))).
    rewrite list_fmap_compose.
    apply (NoDup_fmap_2 (λ f : string, [f])), NoDup_file_entries, NoDup_fst_map_to_list.
  - intros rel (e1 & -> & H1)%list_elem_of_fmap (e2 & Hrel & H2)%list_elem_of_fmap.
    apply list_elem_of_fmap in H1 as ([f c] & -> & _).
    apply list_elem_of_bind in H2 as ([name sub] & H2 & _).
    apply list_elem_of_fmap in H2 as ([rel' c0] & -> & H2).
    apply elem_of_tree_files in H2 as [? _]. simpl in *. by simplify_eq.
  - rewrite fmap_fst_bind. apply NoDup_bind; [| |apply NoDup_map_to_list].
    + intros [n1 s1] [n2 s2] rel H1%elem_of_listing H2%elem_of_listing.
      rewrite <-!list_fmap_compose.
      intros (x1 & -> & _)%list_elem_of_fmap (x2 & [= -> _] & _)%list_elem_of_fmap.
      f_equal. congruence.
    + intros [name sub] Hsub%elem_of_listing. rewrite <-list_fmap_compose.
      change (NoDup ((cons name ∘ fst) <$> tree_files sub)).
      rewrite list_fmap_compose.
      apply (NoDup_fmap_2 (cons name)), (IH _ _ Hsub).
Qed.

(** A directory holds as many files as it lists. *)
Lemma length_tree_files_node (n : node) :
  length (tree_files n) = match n with File _ => 0 | Dir _ => count_files n end.
Proof.
  induction n as [c|es IH] using node_induction; [done|].
  rewrite tree_files_dir, count_files_dir, length_app, length_fmap.
  assert (∀ name sub, (name, sub) ∈ listing es →
            length (tree_files sub)
            = match sub with File _ => 0 | Dir _ => count_files sub end) as Hl.
  { intros name sub Hsub%elem_of_listing. by eapply IH. }
  clear IH. induction (listing es) as [|[name sub] l IHl]; [done|].
  rewrite bind_cons, length_app, length_fmap. simpl foldr. cbn [fst snd].
  rewrite <-IHl by (intros ???; eapply Hl; by apply list_elem_of_further).
  rewrite (Hl name sub) by apply list_elem_of_here.
  unfold file_entries. csimpl. destruct sub; simpl; lia.
Qed.

Lemma length_tree_files (es : gmap string node) :
  length (tree_files (Dir es)) = count_files (Dir es).
Proof. apply (length_tree_files_node (Dir es)). Qed.

Lemma wf_node_file (c : content) : wf_node (File c).
Proof. intros k sub. rewrite lookup_at_file. destruct k; [constructor|done]. Qed.

Lemma wf_node_dir (es : gmap string node) :
  (∀ name sub, es !! name = Some sub → valid_name name ∧ wf_node sub) → wf_node (Dir es).
Proof.
  intros H [|name k] x; [constructor|]. simpl.
  destruct (es !! name) as [sub|] eqn:E; [|done]. simpl.
  destruct (H _ _ E) as [? Hsub]. intros Hx. constructor; [done|]. by eapply Hsub.
Qed.

(** ** Bundle *)

Lemma for_each_app {A} (l1 l2 : list A) (body : A → py unit) (w : world) :
  for_each (l1 ++ l2) body w
  = match for_each l1 body w with
    | (Returned _, w') => for_each l2 body w'
    | (Raised e, w') => (Raised e, w')
    end.
Proof.
  revert w. induction l1 as [|x l1 IH]; intros w; [done|]. simpl.
  cbv [mbind py_bind]. destruct (body x w) as [[[]|e] w1]; [apply IH|done].
Qed.

Section Bundle.

(** The disk the archive is opened on, the bundled directory [K], outside
    of which the archive [kout] lies, and the working directory. *)
Context (base : node) (cwdv : loc) (folder : string) (K kout : loc)
        (top : gmap string node).
Hypothesis Hfolder : resolve base cwdv folder = Some K.
Hypothesis HK : lookup_at K base = Some (Dir top).
Hypothesis Hwf : wf_node (Dir top).
Hypothesis Hparent : parent_dir base kout.
Hypothesis Hout : is_dir_at base kout = false.
Hypothesis Houtside : ¬ K `prefix_of` kout.

(** The disk once the archive holds the members [ms]. *)
Let disk (ms : list (string * content)) : node := write_at kout (File (Archive ms)) base.
Let packed (ms : list (string * content)) (con : list string) (hist : list (list string)) :=
  World (disk ms) cwdv con hist.

Lemma disk_resolve (ms : list (string * content)) (p : string) :
  resolve (disk ms) cwdv p = resolve base cwdv p.
Proof. apply resolve_ext. intros k. by apply is_dir_at_write_file. Qed.

Lemma disk_archive (ms : list (string * content)) :
  lookup_at kout (disk ms) = Some (File (Archive ms)).
Proof. by apply lookup_at_write_same. Qed.

Lemma disk_below (ms : list (string * content)) (rel : loc) :
  lookup_at (K ++ rel) (disk ms) = lookup_at (K ++ rel) base.
Proof.
  apply lookup_at_write_other.
  - intros Hpre.
    destruct (prefix_weak_total K kout (K ++ rel)) as [?|[q HKq]];
      [by apply prefix_app_r|done|done|].
    rewrite HKq in HK. assert (is_dir_at base (kout ++ q) = true) as Hd
      by (unfold is_dir_at; by rewrite HK).
    apply is_dir_at_app in Hd. congruence.
  - intros [q Hq]. apply Houtside. exists (rel ++ q). by rewrite app_assoc.
Qed.

(** One file goes into the archive under its path relative to the bundled
    directory. *)
Lemma add_file_packed (root : string) (rel : loc) (file : string) (c : content)
    (ms : list (string * content)) (con : list string) (hist : list (list string)) :
  resolve base cwdv root = Some (K ++ rel) →
  abspath_comps cwdv root = abspath_comps cwdv folder ++ rel →
  Forall valid_name (rel ++ [file]) →
  lookup_at (K ++ rel ++ [file]) base = Some (File c) →
  add_file kout folder root file (packed ms con hist)
  = (Returned tt, packed (ms ++ [(str_join "/" (rel ++ [file]), c)]) con hist).
Proof.
  intros Hroot Habs Hvalid Hfile.
  assert (valid_name file) as Hv.
  { apply Forall_app in Hvalid as [_ Hf]. exact (List.Forall_inv Hf). }
  assert (is_dir_at base (K ++ rel) = true) as Hdir.
  { rewrite app_assoc in Hfile. apply (parent_dir_existing base _ (mk_is_Some _ _ Hfile)
      (K ++ rel) file eq_refl). }
  unfold add_file, os_path_relpath, zip_write. cbv [mbind py_bind].
  rewrite bool_decide_eq_false_2 by (apply os_path_join_nonempty, Hv).
  cbn [fs cwd packed]. fold (disk ms).
  rewrite abspath_comps_join, Habs, <-app_assoc by done.
  rewrite relpath_comps_below by (by destruct rel).
  rewrite disk_resolve, (resolve_join_dir _ _ _ _ (K ++ rel)) by done. simpl.
  rewrite <-app_assoc, disk_below, Hfile, disk_archive.
  unfold zip_member_name. rewrite normpath_rel_str_join by (done || by destruct rel).
  unfold packed, set_fs, disk. simpl. by rewrite write_at_write_at.
Qed.

(** The member a file at [rel] below the bundled directory becomes. *)
Let member (rel : loc) (e : loc * content) : string * content :=
  (str_join "/" (rel ++ e.1), e.2).

(** The files of one directory, in listing order. *)
Lemma add_files_packed (root : string) (rel : loc) (dir : gmap string node)
    (l : list (string * node)) (ms : list (string * content))
    (con : list string) (hist : list (list string)) :
  lookup_at (K ++ rel) base = Some (Dir dir) →
  resolve base cwdv root = Some (K ++ rel) →
  abspath_comps cwdv root = abspath_comps cwdv folder ++ rel →
  Forall valid_name rel →
  (∀ e, e ∈ l → dir !! e.1 = Some e.2 ∧ valid_name e.1) →
  for_each (file_names l) (add_file kout folder root) (packed ms con hist)
  = (Returned tt,
     packed (ms ++ (member rel <$> ((λ e, ([e.1], e.2)) <$> file_entries l))) con hist).
Proof.
  intros Hdir Hroot Habs Hrel. revert ms.
  induction l as [|[f nd] l IH]; intros ms Hl.
  { simpl. by rewrite app_nil_r. }
  assert (∀ e, e ∈ l → dir !! e.1 = Some e.2 ∧ valid_name e.1) as Hl'
    by (intros e He; by apply Hl, list_elem_of_further).
  destruct (Hl (f, nd) (list_elem_of_here _ _)) as [Hf Hv]. simpl in Hf, Hv.
  destruct nd as [c|sub]; unfold file_names, file_entries; csimpl; [|by apply IH].
  rewrite bind_run.
  rewrite (add_file_packed root rel f c); [|done|done| |].
  - fold (file_entries l). fold (file_names l). rewrite IH by done.
    by rewrite <-app_assoc.
  - apply Forall_app. split; [done|]. by apply Forall_singleton.
  - by rewrite app_assoc, lookup_at_app, Hdir; simpl; rewrite Hf.
Qed.

(** The two loops of [create_xapk] over the walk of a subtree add the files
    of the subtree. *)
Lemma bundle_node (n : node) :
  ∀ (root : string) (rel : loc) (ms : list (string * content))
    (con : list string) (hist : list (list string)),
  lookup_at rel (Dir top) = Some n →
  resolve base cwdv root = Some (K ++ rel) →
  abspath_comps cwdv root = abspath_comps cwdv folder ++ rel →
  for_each (walk_node root n)
    (λ '(root, _, files), for_each files (add_file kout folder root)) (packed ms con hist)
  = (Returned tt, packed (ms ++ (member rel <$> tree_files n)) con hist).
Proof.
  induction n as [c|es IH] using node_induction; intros root rel ms con hist Hn Hroot Habs.
  { simpl. by rewrite app_nil_r. }
  pose proof (Hwf _ _ Hn) as Hrel.
  assert (lookup_at (K ++ rel) base = Some (Dir es)) as Hdir
    by (by rewrite lookup_at_app, HK).
  assert (∀ e, e ∈ listing es → es !! e.1 = Some e.2 ∧ valid_name e.1) as Hes.
  { intros [name sub] He%elem_of_listing. split; [done|].
    assert (lookup_at (rel ++ [name]) (Dir top) = Some sub) as Hsub
      by (rewrite lookup_at_app, Hn; simpl; by rewrite He).
    apply Hwf, Forall_app in Hsub as [_ Hsub]. exact (List.Forall_inv Hsub). }
  rewrite walk_node_dir, tree_files_dir, fmap_app. simpl for_each.
  rewrite bind_run, (add_files_packed root rel es) by done.
  rewrite app_assoc.
  generalize (ms ++ (member rel <$> ((λ e, ([e.1], e.2)) <$> file_entries (listing es)))).
  clear ms. revert Hes. generalize (listing es). intros l.
  induction l as [|[name sub] l IHl]; intros Hl ms.
  { simpl. by rewrite app_nil_r. }
  destruct (Hl (name, sub) (list_elem_of_here _ _)) as [Hsub Hv]. simpl in Hsub, Hv.
  rewrite !bind_cons, for_each_app, fmap_app, <-list_fmap_compose. cbn [fst snd].
  rewrite (IH name sub Hsub _ (rel ++ [name])).
  - rewrite IHl by (intros e He; by apply Hl, list_elem_of_further).
    assert (member (rel ++ [name]) <$> tree_files sub
            = member rel ∘ (λ x, (name :: x.1, x.2)) <$> tree_files sub) as ->.
    { apply list_fmap_ext. intros i [k c'] _. unfold member. simpl.
      by rewrite <-app_assoc. }
    by rewrite app_assoc.
  - rewrite lookup_at_app, Hn. simpl. by rewrite Hsub.
  - rewrite app_assoc. apply resolve_join_dir; [done..|].
    unfold is_dir_at. by rewrite Hdir.
  - by rewrite abspath_comps_join, Habs, <-app_assoc.
Qed.

End Bundle.


(** Well-formedness of a tree written out with its entries. *)
Ltac wf_tree :=
  repeat first
    [ apply wf_node_file
    | apply wf_node_dir; intros ? ?;
      rewrite ?lookup_insert_Some, ?lookup_singleton_Some, ?lookup_empty;
      let E := fresh "E" in
      intros E; repeat (destruct E as [E|E]); try discriminate E;
      destruct_and?; subst; (split; [by repeat split|]) ].



(** * Further properties *)

(** ** The order of the commands *)

Lemma spawned_history {A} (m : py A) (w : world) (cmds : list (list string)) :
  history (m w).2 = history w ++ cmds → spawned m w = cmds.
Proof. intros H. unfold spawned. by rewrite H, drop_app_length. Qed.

Lemma emits_intro {A} (m : py A) (cmds : list (list string)) (post : A → Prop) :
  (∀ w, ∃ started, history (m w).2 = history w ++ started
                   ∧ started `prefix_of` cmds
                   ∧ ∀ a, (m w).1 = Returned a → started = cmds ∧ post a) →
  emits m cmds post.
Proof.
  intros H w. destruct (H w) as (started & Hh & Hp & Hr).
  by rewrite (spawned_history m w started Hh).
Qed.

Lemma emits_ret {A} (a : A) (post : A → Prop) : post a → emits (mret a) [] post.
Proof.
  intros Ha. apply emits_intro. intros w. exists []. simpl.
  split_and!; [by rewrite app_nil_r|done|]. by intros a' [= <-].
Qed.

Lemma emits_raise {A} (e : exn) (cmds : list (list string)) (post : A → Prop) :
  emits (raise e) cmds post.
Proof.
  apply emits_intro. intros w. exists []. simpl.
  split_and!; [by rewrite app_nil_r|apply prefix_nil|done].
Qed.

Lemma emits_print (s : string) : emits (print s) [] (λ _, True).
Proof.
  apply emits_intro. intros w. exists []. simpl.
  split_and!; [by rewrite app_nil_r|done|done].
Qed.

(** A computation that leaves the history alone. *)
Lemma emits_silent {A} (m : py A) :
  (∀ w, history (m w).2 = history w) → emits m [] (λ _, True).
Proof.
  intros H. apply emits_intro. intros w. exists [].
  split_and!; [by rewrite H, app_nil_r|done|done].
Qed.

(** Sequencing appends the commands. *)
Lemma emits_bind {A B} (m : py A) (f : A → py B) (cmds1 cmds2 : list (list string))
    (post1 : A → Prop) (post2 : B → Prop) :
  emits m cmds1 post1 → (∀ a, post1 a → emits (f a) cmds2 post2) →
  emits (m ≫= f) (cmds1 ++ cmds2) post2.
Proof.
  intros Hm Hf. apply emits_intro. intros w. rewrite bind_run.
  destruct (Hm w) as (Hh & Hp & Hr). destruct (m w) as [[a|e] w1]; simpl in *.
  - destruct (Hr a eq_refl) as [Hc Ha]. rewrite Hc in Hh.
    destruct (Hf a Ha w1) as (Hh2 & Hp2 & Hr2).
    exists (cmds1 ++ spawned (f a) w1). split_and!.
    + by rewrite Hh2, Hh, <-app_assoc.
    + by apply prefix_app.
    + intros b Hb. destruct (Hr2 b Hb) as [-> ?]. done.
  - exists (spawned m (w)). split_and!; [done|by apply prefix_app_r|done].
Qed.

Lemma emits_run_command (spawn : process) (command : list string) (error_message : string) :
  emits (run_command spawn command error_message) [command] (λ _, True).
Proof.
  apply emits_intro. intros w. exists [command].
  split_and!; [apply run_command_history|done|done].
Qed.

Lemma os_makedirs_history (p : string) (w : world) :
  history (os_makedirs p w).2 = history w.
Proof.
  unfold os_makedirs. case_bool_decide; [done|].
  by destruct (makedirs_from _ _ _ _).
Qed.

Lemma os_rename_history (src dst : string) (w : world) :
  history (os_rename src dst w).2 = history w.
Proof.
  unfold os_rename.
  destruct (resolve (fs w) (cwd w) src) as [ks|]; [|done].
  destruct (lookup_at ks (fs w)) as [n|], (resolve (fs w) (cwd w) dst) as [kd|]; try done.
  repeat case_bool_decide; try done.
  destruct n, (lookup_at kd (fs w)) as [[?|?]|]; try done.
  by case_bool_decide.
Qed.

Lemma emits_bind_silent {A B} (m : py A) (f : A → py B) (cmds : list (list string))
    (post1 : A → Prop) (post2 : B → Prop) :
  emits m [] post1 → (∀ a, post1 a → emits (f a) cmds post2) → emits (m ≫= f) cmds post2.
Proof. exact (emits_bind m f [] cmds post1 post2). Qed.

Lemma emits_bind_one {A B} (m : py A) (f : A → py B) (c : list string)
    (cmds : list (list string)) (post1 : A → Prop) (post2 : B → Prop) :
  emits m [c] post1 → (∀ a, post1 a → emits (f a) cmds post2) →
  emits (m ≫= f) (c :: cmds) post2.
Proof. exact (emits_bind m f [c] cmds post1 post2). Qed.

Lemma zip_open_history (p : string) (w : world) : history (zip_open p w).2 = history w.
Proof.
  unfold zip_open. destruct (resolve _ _ _) as [k|]; [|done].
  by destruct (lookup_at k (fs w)) as [[?|?]|].
Qed.

Lemma add_file_history (xapk : loc) (folder_path root file : string) (w : world) :
  history (add_file xapk folder_path root file w).2 = history w.
Proof.
  unfold add_file. rewrite bind_run. unfold os_path_relpath.
  case_bool_decide; [done|]. unfold zip_write. cbn [fst snd].
  destruct (resolve _ _ _ ≫= _) as [n|]; [|done].
  by destruct (lookup_at xapk _) as [[[?|?]|?]|].
Qed.

Lemma for_each_history {A} (l : list A) (body : A → py unit) :
  (∀ x w, history (body x w).2 = history w) →
  ∀ w, history (for_each l body w).2 = history w.
Proof.
  intros Hbody. induction l as [|x l IH]; intros w; [done|].
  simpl. rewrite bind_run. pose proof (Hbody x w) as Hx.
  destruct (body x w) as [[[]|e] w1]; simpl in *; [|done]. by rewrite IH.
Qed.

(** One step of a stage: a [print], a call of [os], or a [run_command]. *)
Ltac emits_silent_step :=
  first [ apply emits_print
        | apply emits_silent; intros;
          first [ reflexivity | apply os_makedirs_history | apply os_rename_history
                | apply zip_open_history ] ].

Ltac emits_steps :=
  repeat first
    [ apply emits_ret
    | apply emits_print
    | apply emits_run_command
    | eapply emits_bind_one; [apply emits_run_command|intros ? _]
    | eapply emits_bind_silent; [emits_silent_step|intros ? _] ];
  try done.

Ltac emits_branch :=
  match goal with
  | |- emits (if negb ?b then _ else _) _ _ => destruct b
  | |- emits (if ?b then _ else _) _ _ => destruct b
  end.

Section Commands.

Context (spawn : process).

Lemma emits_setup_environment (keystore_url : string) :
  emits (setup_environment spawn keystore_url)
    [ ["sudo"; "apt-get"; "update"];
      ["sudo"; "apt-get"; "install"; "openjdk-8-jre-headless"; "-y"];
      ["wget"; "-q";
       "https://raw.githubusercontent.com/iBotPeaches/Apktool/master/scripts/linux/apktool";
       "-O"; "apktool"];
      ["wget"; "-q"; "https://bitbucket.org/iBotPeaches/apktool/downloads/apktool_2.9.3.jar";
       "-O"; "apktool.jar"];
      ["sudo"; "chmod"; "+x"; "/usr/local/bin/apktool"];
      ["wget"; "-q";
       "https://github.com/patrickfav/uber-apk-signer/releases/download/v1.3.0/uber-apk-signer-1.3.0.jar";
       "-O"; "uber-apk-signer.jar"];
      ["wget"; "-q"; keystore_url; "-O"; "debug.keystore"] ]
    (λ keystore_filename, keystore_filename = "debug.keystore").
Proof. unfold setup_environment. emits_steps. Qed.

Lemma emits_download_and_decompile (base_apk_dlink split_apk_dlink : string) :
  emits (download_and_decompile spawn base_apk_dlink split_apk_dlink)
    [ ["wget"; "-q"; base_apk_dlink; "-O"; "base.apk"];
      ["wget"; "-q"; split_apk_dlink; "-O"; "split.apk"];
      ["apktool"; "d"; "base.apk"];
      ["apktool"; "d"; "split.apk"] ]
    (λ folders, folders = ("base", "split")).
Proof. unfold download_and_decompile. emits_steps. Qed.

Lemma emits_modify_files (libmain_url split_decompile_folder : string) :
  emits (modify_files spawn libmain_url split_decompile_folder)
    [ libmain_download libmain_url split_decompile_folder ] (λ _, True).
Proof.
  unfold modify_files. emits_steps.
  eapply emits_bind_silent with (post1 := λ _, True).
  - emits_branch; emits_steps.
  - intros _ _. emits_steps.
Qed.

Lemma emits_recompile_and_sign (base_folder split_folder output_dir keystore_path : string) :
  emits (recompile_and_sign spawn base_folder split_folder output_dir keystore_path)
    [ rebuild base_folder (base_out_path output_dir);
      rebuild split_folder (split_out_path output_dir);
      sign (base_out_path output_dir) keystore_path;
      sign (split_out_path output_dir) keystore_path ] (λ _, True).
Proof.
  unfold recompile_and_sign. emits_steps.
  eapply emits_bind_silent with (post1 := λ _, True).
  - emits_branch; simpl; first [by apply emits_ret|apply emits_raise].
  - intros _ _. emits_steps.
Qed.

End Commands.

Lemma emits_finalize_apks (directory : string) :
  emits (finalize_apks directory) [] (λ _, True).
Proof.
  unfold finalize_apks. emits_steps.
  eapply emits_bind_silent with (post1 := λ _, True);
    [emits_branch; simpl; first [by apply emits_ret|apply emits_raise]|intros _ _].
  emits_steps.
  eapply emits_bind_silent with (post1 := λ _, True);
    [emits_branch; simpl; first [by apply emits_ret|apply emits_raise]|intros _ _].
  emits_steps.
Qed.

Lemma emits_create_xapk (folder_path output_xapk_path : string) :
  emits (create_xapk folder_path output_xapk_path) [] (λ _, True).
Proof.
  unfold create_xapk. emits_steps.
  eapply emits_bind_silent with (post1 := λ _, True); [|intros _ _; emits_steps].
  apply emits_silent. apply for_each_history. intros [[root dirs] files] w.
  apply for_each_history. intros file w'. apply add_file_history.
Qed.

Lemma emits_pipeline (spawn : process) (args : arguments) :
  emits (pipeline spawn args)
    [ ["sudo"; "apt-get"; "update"];
      ["sudo"; "apt-get"; "install"; "openjdk-8-jre-headless"; "-y"];
      ["wget"; "-q";
       "https://raw.githubusercontent.com/iBotPeaches/Apktool/master/scripts/linux/apktool";
       "-O"; "apktool"];
      ["wget"; "-q"; "https://bitbucket.org/iBotPeaches/apktool/downloads/apktool_2.9.3.jar";
       "-O"; "apktool.jar"];
      ["sudo"; "chmod"; "+x"; "/usr/local/bin/apktool"];
      ["wget"; "-q";
       "https://github.com/patrickfav/uber-apk-signer/releases/download/v1.3.0/uber-apk-signer-1.3.0.jar";
       "-O"; "uber-apk-signer.jar"];
      ["wget"; "-q"; keystore_url args; "-O"; "debug.keystore"];
      ["wget"; "-q"; baseapk_dlink args; "-O"; "base.apk"];
      ["wget"; "-q"; splitapk_dlink args; "-O"; "split.apk"];
      ["apktool"; "d"; "base.apk"];
      ["apktool"; "d"; "split.apk"];
      ["wget"; "-q"; libmain_url args; "-O"; "split/lib/arm64-v8a/libmain.so"];
      ["apktool"; "b"; "base"; "-o"; "./base_recompiled.apk"];
      ["apktool"; "b"; "split"; "-o"; "./split_recompiled.apk"];
      ["java"; "-jar"; "uber-apk-signer.jar"; "--apks"; "./base_recompiled.apk";
       "--ks"; "debug.keystore"; "--ksAlias"; "androiddebugkey";
       "--ksPass"; "android"; "--ksKeyPass"; "android"];
      ["java"; "-jar"; "uber-apk-signer.jar"; "--apks"; "./split_recompiled.apk";
       "--ks"; "debug.keystore"; "--ksAlias"; "androiddebugkey";
       "--ksPass"; "android"; "--ksKeyPass"; "android"] ]
    (λ _, True).
Proof.
  unfold pipeline.
  eapply (emits_bind _ _ _ _ _ _ (emits_setup_environment spawn (keystore_url args))).
  intros ks ->.
  eapply (emits_bind _ _ _ _ _ _
            (emits_download_and_decompile spawn (baseapk_dlink args) (splitapk_dlink args))).
  intros [b s] [= -> ->].
  eapply (emits_bind _ _ _ _ _ _ (emits_modify_files spawn (libmain_url args) "split")).
  intros _ _.
  eapply (emits_bind _ _ _ [] _ _
            (emits_recompile_and_sign spawn "base" "split" "." "debug.keystore")).
  intros _ _.
  eapply emits_bind_silent; [apply emits_finalize_apks|intros _ _].
  eapply emits_bind_silent; [apply emits_create_xapk|intros _ _].
  apply emits_print.
Qed.



(** X2: [setup_environment] runs these seven commands in this order and
    stops at the first that fails: the commands of a run that raises are an
    initial part of the list, a run that returns has run them all, and
    what it returns is ["debug.keystore"] whatever the URL. *)
Theorem setup_environment_commands (spawn : process) (keystore_url : string) (w : world) :
  let run := setup_environment spawn keystore_url in
  let commands :=
    [ ["sudo"; "apt-get"; "update"];
      ["sudo"; "apt-get"; "install"; "openjdk-8-jre-headless"; "-y"];
      ["wget"; "-q";
       "https://raw.githubusercontent.com/iBotPeaches/Apktool/master/scripts/linux/apktool";
       "-O"; "apktool"];
      ["wget"; "-q"; "https://bitbucket.org/iBotPeaches/apktool/downloads/apktool_2.9.3.jar";
       "-O"; "apktool.jar"];
      ["sudo"; "chmod"; "+x"; "/usr/local/bin/apktool"];
      ["wget"; "-q";
       "https://github.com/patrickfav/uber-apk-signer/releases/download/v1.3.0/uber-apk-signer-1.3.0.jar";
       "-O"; "uber-apk-signer.jar"];
      ["wget"; "-q"; keystore_url; "-O"; "debug.keystore"] ] in
  history (run w).2 = history w ++ spawned run w
  ∧ spawned run w `prefix_of` commands
  ∧ ∀ keystore_filename w', run w = (Returned keystore_filename, w') →
      spawned run w = commands ∧ keystore_filename = "debug.keystore".
Proof.
  cbv zeta. destruct (emits_setup_environment spawn keystore_url w) as (Hh & Hp & Hr).
  split_and!; [done..|]. intros ks w' Hrun. apply Hr. by rewrite Hrun.
Qed.

Lemma setup_environment_commands_witness :
  let run := setup_environment ideal "https://dl.example/debug.keystore" in
  (run fresh).1 = Returned "debug.keystore"
  ∧ length (spawned run fresh) = 7
  ∧ last (spawned run fresh)
    = Some ["wget"; "-q"; "https://dl.example/debug.keystore"; "-O"; "debug.keystore"].
Proof.
  intros run.
  destruct (setup_environment_commands ideal "https://dl.example/debug.keystore" fresh)
    as (_ & _ & Hr).
  assert (run fresh = (Returned "debug.keystore", (run fresh).2)) as Hrun by by vm_compute.
  destruct (Hr _ _ Hrun) as [Hcmds _]. subst run.
  split_and!; [by rewrite Hrun|by rewrite Hcmds|by rewrite Hcmds].
Defined.

(** X3: [download_and_decompile] downloads the base package, then the split
    package, then decompiles them in the same order, stopping at the first
    command that fails; when it returns it returns the folders ["base"] and
    ["split"], whatever the links. *)
Theorem download_and_decompile_commands (spawn : process)
    (base_apk_dlink split_apk_dlink : string) (w : world) :
  let run := download_and_decompile spawn base_apk_dlink split_apk_dlink in
  let commands :=
    [ ["wget"; "-q"; base_apk_dlink; "-O"; "base.apk"];
      ["wget"; "-q"; split_apk_dlink; "-O"; "split.apk"];
      ["apktool"; "d"; "base.apk"];
      ["apktool"; "d"; "split.apk"] ] in
  history (run w).2 = history w ++ spawned run w
  ∧ spawned run w `prefix_of` commands
  ∧ ∀ folders w', run w = (Returned folders, w') →
      spawned run w = commands ∧ folders = ("base", "split").
Proof.
  cbv zeta.
  destruct (emits_download_and_decompile spawn base_apk_dlink split_apk_dlink w)
    as (Hh & Hp & Hr).
  split_and!; [done..|]. intros folders w' Hrun. apply Hr. by rewrite Hrun.
Qed.

Lemma download_and_decompile_commands_witness :
  let run := download_and_decompile ideal "https://dl.example/base.apk"
               "https://dl.example/split.apk" in
  (run fresh).1 = Returned ("base", "split")
  ∧ spawned run fresh
    = [ ["wget"; "-q"; "https://dl.example/base.apk"; "-O"; "base.apk"];
        ["wget"; "-q"; "https://dl.example/split.apk"; "-O"; "split.apk"];
        ["apktool"; "d"; "base.apk"];
        ["apktool"; "d"; "split.apk"] ].
Proof.
  intros run.
  destruct (download_and_decompile_commands ideal "https://dl.example/base.apk"
              "https://dl.example/split.apk" fresh) as (_ & _ & Hr).
  assert (run fresh = (Returned ("base", "split"), (run fresh).2)) as Hrun by by vm_compute.
  destruct (Hr _ _ Hrun) as [Hcmds _]. subst run.
  split; [by rewrite Hrun|exact Hcmds].
Defined.

(** X4: the commands of a whole run of [main] are an initial part of these
    sixteen, in this order: the seven of the setup, the two downloads and the
    two decompilations, the download of the library into
    [split/lib/arm64-v8a/libmain.so], the two rebuilds into the working
    directory and the two signatures with [debug.keystore]; only the four
    URLs come from the command line. A run that exits with status 0 has run
    all sixteen. *)
Theorem main_commands (spawn : process) (args : arguments) (w : world) :
  let commands :=
    [ ["sudo"; "apt-get"; "update"];
      ["sudo"; "apt-get"; "install"; "openjdk-8-jre-headless"; "-y"];
      ["wget"; "-q";
       "https://raw.githubusercontent.com/iBotPeaches/Apktool/master/scripts/linux/apktool";
       "-O"; "apktool"];
      ["wget"; "-q"; "https://bitbucket.org/iBotPeaches/apktool/downloads/apktool_2.9.3.jar";
       "-O"; "apktool.jar"];
      ["sudo"; "chmod"; "+x"; "/usr/local/bin/apktool"];
      ["wget"; "-q";
       "https://github.com/patrickfav/uber-apk-signer/releases/download/v1.3.0/uber-apk-signer-1.3.0.jar";
       "-O"; "uber-apk-signer.jar"];
      ["wget"; "-q"; keystore_url args; "-O"; "debug.keystore"];
      ["wget"; "-q"; baseapk_dlink args; "-O"; "base.apk"];
      ["wget"; "-q"; splitapk_dlink args; "-O"; "split.apk"];
      ["apktool"; "d"; "base.apk"];
      ["apktool"; "d"; "split.apk"];
      ["wget"; "-q"; libmain_url args; "-O"; "split/lib/arm64-v8a/libmain.so"];
      ["apktool"; "b"; "base"; "-o"; "./base_recompiled.apk"];
      ["apktool"; "b"; "split"; "-o"; "./split_recompiled.apk"];
      ["java"; "-jar"; "uber-apk-signer.jar"; "--apks"; "./base_recompiled.apk";
       "--ks"; "debug.keystore"; "--ksAlias"; "androiddebugkey";
       "--ksPass"; "android"; "--ksKeyPass"; "android"];
      ["java"; "-jar"; "uber-apk-signer.jar"; "--apks"; "./split_recompiled.apk";
       "--ks"; "debug.keystore"; "--ksAlias"; "androiddebugkey";
       "--ksPass"; "android"; "--ksKeyPass"; "android"] ] in
  ∃ started,
    history (main spawn args w).2 = history w ++ started
    ∧ started `prefix_of` commands
    ∧ ((main spawn args w).1 = 0%Z → started = commands).
Proof.
  cbv zeta. destruct (emits_pipeline spawn args w) as (Hh & Hp & Hr).
  exists (spawned (pipeline spawn args) w). unfold main.
  destruct (pipeline spawn args w) as [[[]|e] w']; simpl in *.
  - split_and!; [done..|]. intros _. by destruct (Hr () eq_refl).
  - by split_and!.
Qed.

Lemma main_commands_witness :
  (main ideal example_arguments fresh).1 = 0%Z
  ∧ length (history (main ideal example_arguments fresh).2) = 16
  ∧ (main broken example_arguments fresh).1 = 1%Z
  ∧ history (main broken example_arguments fresh).2 = [["sudo"; "apt-get"; "update"]].
Proof.
  destruct (main_commands ideal example_arguments fresh) as (started & Hh & _ & Hall).
  destruct (main_commands broken example_arguments fresh) as (started' & Hh' & _ & _).
  assert ((main ideal example_arguments fresh).1 = 0%Z) as Hok by by vm_compute.
  split_and!; [exact Hok|by rewrite Hh, (Hall Hok)|by vm_compute|by vm_compute].
Defined.

(** ** Moving the signed packages *)

(** Unlinking a regular file leaves every other file, and every absent
    name, as it was. *)
Lemma lookup_at_remove_file_beside (root : node) (k k' : loc) (c : content) :
  lookup_at k root = Some (File c) → is_dir_at root k' = false → k ≠ k' →
  lookup_at k' (remove_at k root) = lookup_at k' root.
Proof.
  intros Hk Hk' Hne.
  assert (is_dir_at root k = false) as Hkd by (unfold is_dir_at; by rewrite Hk).
  destruct (decide (k `prefix_of` k')) as [[q ->]|H1].
  { assert (q ≠ []) by (intros Hq; apply Hne; by rewrite Hq, app_nil_r).
    rewrite (lookup_at_below root k q) by done.
    apply lookup_at_below; [|done]. by rewrite (is_dir_at_remove_file k k c). }
  destruct (decide (k' `prefix_of` k)) as [[q ->]|H2]; [|by apply lookup_at_remove_other].
  assert (q ≠ []) by (intros Hq; apply Hne; by rewrite Hq, app_nil_r).
  by rewrite (lookup_at_below root k' q) in Hk.
Qed.

(** The disk after a regular file has been renamed to a path that names no
    directory. *)
Lemma moved_file_disk (root : node) (ks kd : loc) (c : content) :
  lookup_at ks root = Some (File c) → parent_dir root kd → is_dir_at root kd = false →
  ks ≠ kd →
  let root' := write_at kd (File c) (remove_at ks root) in
  (∀ k, is_dir_at root' k = is_dir_at root k)
  ∧ lookup_at kd root' = Some (File c)
  ∧ lookup_at ks root' = None
  ∧ ∀ k, k ≠ ks → k ≠ kd → is_dir_at root k = false → lookup_at k root' = lookup_at k root.
Proof.
  intros Hs Hp Hd Hne root'.
  assert (∀ k, is_dir_at (remove_at ks root) k = is_dir_at root k) as Hrm
    by (intros k; by eapply is_dir_at_remove_file).
  assert (parent_dir (remove_at ks root) kd) as Hp'.
  { intros p x Hx. rewrite Hrm. by eapply Hp. }
  assert (is_dir_at root ks = false) as Hsd by (unfold is_dir_at; by rewrite Hs).
  assert (ks ≠ []) as Hnil.
  { intros ->. simpl in Hs. injection Hs as ->.
    destruct kd as [|x kd _] using rev_ind; [done|].
    specialize (Hp _ _ eq_refl). unfold is_dir_at in Hp.
    rewrite lookup_at_file in Hp. by destruct kd. }
  split_and!.
  - intros k. subst root'. rewrite is_dir_at_write_file; [done|]. by rewrite Hrm.
  - by apply lookup_at_write_same.
  - subst root'. rewrite lookup_at_write_file_beside by (by rewrite ?Hrm).
    by apply lookup_at_remove_same.
  - intros k Hks Hkd Hk. subst root'.
    rewrite lookup_at_write_file_beside by (by rewrite ?Hrm).
    by eapply lookup_at_remove_file_beside.
Qed.

(** A new empty directory leaves every regular file, and every other absent
    name, as it was. *)
Lemma lookup_at_new_dir_beside (root : node) (k k' : loc) :
  parent_dir root k → lookup_at k root = None → is_dir_at root k' = false → k ≠ k' →
  lookup_at k' (write_at k (Dir ∅) root) = lookup_at k' root.
Proof.
  intros Hp Hk Hk' Hne.
  destruct (decide (k `prefix_of` k')) as [[q ->]|H1].
  { rewrite !lookup_at_app, lookup_at_write_same, Hk by done.
    destruct q as [|x q]; [by rewrite app_nil_r in Hne|]. simpl. by rewrite lookup_empty. }
  destruct (decide (k' `prefix_of` k)) as [[q ->]|H2]; [|by apply lookup_at_write_other].
  destruct q as [|x q _] using rev_ind; [by rewrite app_nil_r in Hne|].
  rewrite app_assoc in Hp. specialize (Hp _ _ eq_refl).
  apply is_dir_at_app in Hp. congruence.
Qed.

Section FinalizeMoves.

Context (directory : string) (D : loc) (b s : content).

Let sb : loc := D ++ ["base_recompiled-aligned-signed.apk"].
Let ss : loc := D ++ ["split_recompiled-aligned-signed.apk"].
Let final : loc := D ++ ["final"].
Let fb : loc := final ++ ["base.apk"].
Let fc : loc := final ++ ["config.arm64_v8a.apk"].

Lemma valid_name_base_apk : valid_name "base.apk".
Proof. by repeat split. Qed.
Lemma valid_name_config_apk : valid_name "config.arm64_v8a.apk".
Proof. by repeat split. Qed.

(** The four places are pairwise distinct. *)
Lemma finalize_places : sb ≠ ss ∧ sb ≠ fb ∧ sb ≠ fc ∧ ss ≠ fb ∧ ss ≠ fc ∧ fb ≠ fc.
Proof.
  subst sb ss fb fc final. rewrite <-!app_assoc.
  split_and!; intros H%app_inv_head; by simplify_eq.
Qed.

Lemma finalize_sources_outside : ¬ sb `prefix_of` fb ∧ ¬ ss `prefix_of` fc.
Proof.
  subst sb ss fb fc final. rewrite <-!app_assoc. split; by apply sibling_not_prefix.
Qed.

(** Lines 140-149, from a world in which the final directory exists. *)
Lemma finalize_apks_renames (w w1 : world) :
  os_makedirs (final_dir directory) (say "Finalizing APKs..." w) = (Returned tt, w1) →
  resolve (fs w1) (cwd w1) directory = Some D → is_dir_at (fs w1) D = true →
  is_dir_at (fs w1) final = true →
  lookup_at sb (fs w1) = Some (File b) → lookup_at ss (fs w1) = Some (File s) →
  is_dir_at (fs w1) fb = false → is_dir_at (fs w1) fc = false →
  ∃ w', finalize_apks directory w = (Returned tt, w')
        ∧ cwd w' = cwd w1
        ∧ (∀ k, is_dir_at (fs w') k = is_dir_at (fs w1) k)
        ∧ lookup_at fb (fs w') = Some (File b)
        ∧ lookup_at fc (fs w') = Some (File s)
        ∧ lookup_at sb (fs w') = None
        ∧ lookup_at ss (fs w') = None
        ∧ ∀ k, k ≠ sb → k ≠ ss → k ≠ fb → k ≠ fc → is_dir_at (fs w1) k = false →
               lookup_at k (fs w') = lookup_at k (fs w1).
Proof.
  intros Hmk Hd HD HF Hb Hs Hfb Hfc.
  destruct finalize_places as (Hn1 & Hn2 & Hn3 & Hn4 & Hn5 & Hn6).
  assert (is_dir_at (fs w1) sb = false) as Hbd by (unfold is_dir_at; by rewrite Hb).
  assert (is_dir_at (fs w1) ss = false) as Hsd by (unfold is_dir_at; by rewrite Hs).
  assert (∀ root, (∀ k, is_dir_at root k = is_dir_at (fs w1) k) →
            resolve root (cwd w1) (signed_base directory) = Some sb
            ∧ resolve root (cwd w1) (signed_split directory) = Some ss
            ∧ resolve root (cwd w1) (os_path_join (final_dir directory) "base.apk") = Some fb
            ∧ resolve root (cwd w1) (os_path_join (final_dir directory) "config.arm64_v8a.apk")
              = Some fc) as Hres.
  { intros root Hroot. rewrite !(resolve_ext root (fs w1)) by done.
    unfold signed_base, signed_split, final_dir.
    assert (resolve (fs w1) (cwd w1) (os_path_join directory "final") = Some final) as HrF
      by (apply resolve_join_dir; [apply valid_name_final|done..]).
    split_and!; apply resolve_join_dir;
      first [done | apply valid_name_signed_base | apply valid_name_signed_split
            | apply valid_name_base_apk | apply valid_name_config_apk]. }
  destruct (Hres (fs w1)) as (Hr1 & Hr2 & Hr3 & Hr4); [done|].
  rewrite finalize_apks_run, Hmk.
  assert (exists_at w1 (signed_base directory) = true) as ->.
  { unfold exists_at. rewrite Hr1, Hb. by apply bool_decide_eq_true_2. }
  assert (exists_at w1 (signed_split directory) = true) as ->.
  { unfold exists_at. rewrite Hr2, Hs. by apply bool_decide_eq_true_2. }
  rewrite (os_rename_file w1 _ _ sb fb b), Hfb;
    [|done..|apply finalize_sources_outside].
  destruct (moved_file_disk (fs w1) sb fb b) as (Hdirs2 & Hfb2 & Hsb2 & Hrest2);
    [done|by apply parent_dir_snoc|done..|].
  set (fs2 := write_at fb (File b) (remove_at sb (fs w1))) in *.
  destruct (Hres fs2) as (_ & Hr2' & _ & Hr4'); [done|].
  assert (lookup_at ss fs2 = Some (File s)) as Hs2.
  { rewrite Hrest2; [done|by apply not_eq_sym..|done]. }
  rewrite (os_rename_file (set_fs w1 fs2) _ _ ss fc s);
    [|done..|apply finalize_sources_outside].
  cbn [fs set_fs]. rewrite Hdirs2, Hfc.
  destruct (moved_file_disk fs2 ss fc s) as (Hdirs3 & Hfc3 & Hss3 & Hrest3);
    [done|apply parent_dir_snoc; by rewrite Hdirs2|by rewrite Hdirs2|done|].
  eexists. split; [done|]. cbn [fs cwd say set_fs].
  split_and!; [done| | |done| |done|].
  - intros k. by rewrite Hdirs3.
  - rewrite Hrest3; [done|by apply not_eq_sym|done|by rewrite Hdirs2].
  - rewrite Hrest3; [done..|by rewrite Hdirs2].
  - intros k ? ? ? ? Hk. rewrite Hrest3; [by apply Hrest2|done..|by rewrite Hdirs2].
Qed.

Section FromAnyDisk.

Context (w : world).

Hypothesis Hd : resolve (fs w) (cwd w) directory = Some D.
Hypothesis HD : is_dir_at (fs w) D = true.
Hypothesis Hb : lookup_at sb (fs w) = Some (File b).
Hypothesis Hs : lookup_at ss (fs w) = Some (File s).
Hypothesis Hfinal : ∀ c, lookup_at final (fs w) ≠ Some (File c).
Hypothesis Hfb : is_dir_at (fs w) fb = false.
Hypothesis Hfc : is_dir_at (fs w) fc = false.

(** The whole stage when both signed packages are regular files and nothing
    is in the way of the final directory and of the two names in it. *)
Lemma finalize_apks_moved :
  ∃ w', finalize_apks directory w = (Returned tt, w')
        ∧ cwd w' = cwd w
        ∧ (∀ k, is_dir_at (fs w) k = true → is_dir_at (fs w') k = true)
        ∧ is_dir_at (fs w') final = true
        ∧ lookup_at fb (fs w') = Some (File b)
        ∧ lookup_at fc (fs w') = Some (File s)
        ∧ lookup_at sb (fs w') = None
        ∧ lookup_at ss (fs w') = None
        ∧ ∀ k, k ≠ sb → k ≠ ss → k ≠ final → k ≠ fb → k ≠ fc →
               is_dir_at (fs w) k = false → lookup_at k (fs w') = lookup_at k (fs w).
Proof.
  destruct finalize_places as (Hn1 & Hn2 & Hn3 & Hn4 & Hn5 & Hn6).
  pose proof (os_makedirs_in_directory (say "Finalizing APKs..." w) directory "final" D
                valid_name_final Hd HD) as Hmk.
  fold (final_dir directory) in Hmk. cbn [fs say] in Hmk. fold final in Hmk.
  destruct (lookup_at final (fs w)) as [[c|es]|] eqn:E; [by destruct (Hfinal c)|..].
  - assert (is_dir_at (fs w) final = true) as HF by (unfold is_dir_at; by rewrite E).
    destruct (finalize_apks_renames w _ Hmk)
      as (w' & Hrun & Hcwd & Hdirs & Hb' & Hs' & Hgb & Hgs & Hrest); [done..|].
    exists w'. split_and!; [done|done| |by rewrite Hdirs|done..|].
    + intros k. by rewrite Hdirs.
    + intros k ? ? ? ? ? Hk. by apply Hrest.
  - set (fs1 := write_at final (Dir ∅) (fs w)) in *.
    assert (∀ k, is_dir_at (fs w) k = true → is_dir_at fs1 k = true) as Hmono
      by (intros k; by apply is_dir_at_write_new_dir).
    assert (is_dir_at fs1 final = true) as HF.
    { unfold is_dir_at, fs1, final. by rewrite lookup_at_write_snoc. }
    assert (∀ name, lookup_at (final ++ [name]) fs1 = None) as Hempty.
    { intros name. rewrite lookup_at_app. unfold fs1, final.
      rewrite lookup_at_write_snoc by done. simpl. by rewrite lookup_empty. }
    assert (∀ k, k ≠ final → is_dir_at (fs w) k = false →
              lookup_at k fs1 = lookup_at k (fs w)) as Hbeside.
    { intros k Hk Hkd. apply lookup_at_new_dir_beside; [by apply parent_dir_snoc|done..]. }
    destruct (finalize_apks_renames w _ Hmk)
      as (w' & Hrun & Hcwd & Hdirs & Hb' & Hs' & Hgb & Hgs & Hrest);
      cbn [fs cwd say set_fs].
    + by eapply resolve_mono.
    + by apply Hmono.
    + done.
    + unfold fs1. rewrite lookup_at_write_other; [done|..].
      * by apply (sibling_not_prefix D "final" _ []).
      * by apply (sibling_not_prefix D _ "final" []).
    + unfold fs1. rewrite lookup_at_write_other; [done|..].
      * by apply (sibling_not_prefix D "final" _ []).
      * by apply (sibling_not_prefix D _ "final" []).
    + unfold is_dir_at, fb. by rewrite Hempty.
    + unfold is_dir_at, fc. by rewrite Hempty.
    + exists w'. split_and!; [done|done| |by rewrite Hdirs|done..|].
      * intros k Hk. rewrite Hdirs. by apply Hmono.
      * intros k ? ? ? ? ? Hk. cbn [fs cwd say set_fs] in Hrest.
        rewrite Hrest, Hbeside; [done..|].
        unfold is_dir_at. rewrite Hbeside by done. apply Hk.
Qed.

End FromAnyDisk.

End FinalizeMoves.

(** What the paths of the stage name, in a directory that holds the two
    signed packages as regular files. *)
Lemma finalize_ready (directory : string) (w : world) (b s : content) :
  is_Some (dir_at w directory) →
  file_at w (signed_base directory) = Some b →
  file_at w (signed_split directory) = Some s →
  file_at w (final_dir directory) = None →
  dir_at w (os_path_join (final_dir directory) "base.apk") = None →
  dir_at w (os_path_join (final_dir directory) "config.arm64_v8a.apk") = None →
  ∃ D, resolve (fs w) (cwd w) directory = Some D
       ∧ is_dir_at (fs w) D = true
       ∧ lookup_at (D ++ ["base_recompiled-aligned-signed.apk"]) (fs w) = Some (File b)
       ∧ lookup_at (D ++ ["split_recompiled-aligned-signed.apk"]) (fs w) = Some (File s)
       ∧ (∀ c, lookup_at (D ++ ["final"]) (fs w) ≠ Some (File c))
       ∧ is_dir_at (fs w) ((D ++ ["final"]) ++ ["base.apk"]) = false
       ∧ is_dir_at (fs w) ((D ++ ["final"]) ++ ["config.arm64_v8a.apk"]) = false.
Proof.
  unfold dir_at, file_at, signed_base, signed_split, final_dir.
  intros [es Hdir] Hb Hs Hfinal Hfb Hfc.
  destruct (resolve (fs w) (cwd w) directory) as [D|] eqn:Hd; [|done]. simpl in Hdir.
  assert (is_dir_at (fs w) D = true) as HD.
  { unfold is_dir_at. by destruct (lookup_at D (fs w)) as [[?|?]|]. }
  rewrite (resolve_join_dir _ _ _ _ D) in Hb by (done || apply valid_name_signed_base).
  rewrite (resolve_join_dir _ _ _ _ D) in Hs by (done || apply valid_name_signed_split).
  rewrite (resolve_join_dir _ _ _ _ D) in Hfinal by (done || apply valid_name_final).
  simpl in Hb, Hs, Hfinal.
  exists D. split_and!; [done|done|..].
  - by destruct (lookup_at (D ++ [_]) (fs w)) as [[?|?]|]; simplify_eq.
  - by destruct (lookup_at (D ++ ["split_recompiled-aligned-signed.apk"]) (fs w))
      as [[?|?]|]; simplify_eq.
  - intros c Hc. by rewrite Hc in Hfinal.
  - destruct (is_dir_at (fs w) (D ++ ["final"])) eqn:HF.
    + rewrite (resolve_join_dir _ _ _ _ (D ++ ["final"])) in Hfb;
        [|apply valid_name_base_apk|by apply resolve_join_dir; [apply valid_name_final|..]
         |done].
      simpl in Hfb. unfold is_dir_at.
      by destruct (lookup_at ((D ++ ["final"]) ++ ["base.apk"]) (fs w)) as [[?|?]|].
    + unfold is_dir_at. by rewrite lookup_at_below.
  - destruct (is_dir_at (fs w) (D ++ ["final"])) eqn:HF.
    + rewrite (resolve_join_dir _ _ _ _ (D ++ ["final"])) in Hfc;
        [|apply valid_name_config_apk|by apply resolve_join_dir; [apply valid_name_final|..]
         |done].
      simpl in Hfc. unfold is_dir_at.
      by destruct (lookup_at ((D ++ ["final"]) ++ ["config.arm64_v8a.apk"]) (fs w))
        as [[?|?]|].
    + unfold is_dir_at. by rewrite lookup_at_below.
Qed.

(** X5: in a directory that holds both signed packages as regular files,
    where [final] is absent or a directory and neither of the two names in it
    is a directory, [finalize_apks] returns; afterwards [final/base.apk]
    holds the signed base package, [final/config.arm64_v8a.apk] holds the
    signed split package, and the two signed names are gone: the packages
    are moved, not copied. *)
Theorem finalize_apks_moves_packages (directory : string) (w : world) (b s : content) :
  is_Some (dir_at w directory) →
  file_at w (signed_base directory) = Some b →
  file_at w (signed_split directory) = Some s →
  file_at w (final_dir directory) = None →
  dir_at w (os_path_join (final_dir directory) "base.apk") = None →
  dir_at w (os_path_join (final_dir directory) "config.arm64_v8a.apk") = None →
  ∃ w', finalize_apks directory w = (Returned tt, w')
        ∧ file_at w' (os_path_join (final_dir directory) "base.apk") = Some b
        ∧ file_at w' (os_path_join (final_dir directory) "config.arm64_v8a.apk") = Some s
        ∧ exists_at w' (signed_base directory) = false
        ∧ exists_at w' (signed_split directory) = false.
Proof.
  intros Hdir Hb Hs Hfinal Hfb Hfc.
  destruct (finalize_ready directory w b s) as (D & Hd & HD & Hlb & Hls & HF & Hdb & Hdc);
    [done..|].
  destruct (finalize_apks_moved directory D b s w)
    as (w' & Hrun & Hcwd & Hmono & HF' & Hb' & Hs' & Hgb & Hgs & _); [done..|].
  exists w'. split; [done|].
  assert (resolve (fs w') (cwd w') directory = Some D) as Hd'
    by (rewrite Hcwd; by eapply resolve_mono).
  assert (resolve (fs w') (cwd w') (final_dir directory) = Some (D ++ ["final"])) as HrF
    by (apply resolve_join_dir; [apply valid_name_final|auto..]).
  unfold file_at, exists_at, signed_base, signed_split.
  rewrite !(resolve_join_dir _ _ _ _ (D ++ ["final"]))
    by (done || apply valid_name_base_apk || apply valid_name_config_apk).
  rewrite !(resolve_join_dir _ _ _ _ D)
    by (auto || apply valid_name_signed_base || apply valid_name_signed_split).
  simpl. rewrite Hb', Hs', Hgb, Hgs. split_and!; [done|done|..];
    apply bool_decide_eq_false_2; by intros [? ?].
Qed.

Lemma finalize_apks_moves_packages_witness :
  let w := workdir {[ "base_recompiled-aligned-signed.apk" := File (Bytes "signed base");
                      "split_recompiled-aligned-signed.apk" := File (Bytes "signed split") ]} in
  ∃ w', finalize_apks "." w = (Returned tt, w')
        ∧ file_at w' "./final/base.apk" = Some (Bytes "signed base")
        ∧ file_at w' "./final/config.arm64_v8a.apk" = Some (Bytes "signed split")
        ∧ exists_at w' "./base_recompiled-aligned-signed.apk" = false
        ∧ exists_at w' "./split_recompiled-aligned-signed.apk" = false.
Proof.
  intros w.
  apply (finalize_apks_moves_packages "." w (Bytes "signed base") (Bytes "signed split"));
    first [by vm_compute | by eexists].
Defined.

(** X6: [finalize_apks] cannot be run twice: after a run that moved both
    packages, a second run in the state the first one left raises the
    [FileNotFoundError] for the signed base package, and changes nothing. *)
Theorem finalize_apks_consumes_packages (directory : string) (w : world) (b s : content) :
  is_Some (dir_at w directory) →
  file_at w (signed_base directory) = Some b →
  file_at w (signed_split directory) = Some s →
  file_at w (final_dir directory) = None →
  dir_at w (os_path_join (final_dir directory) "base.apk") = None →
  dir_at w (os_path_join (final_dir directory) "config.arm64_v8a.apk") = None →
  ∃ w', finalize_apks directory w = (Returned tt, w')
        ∧ finalize_apks directory w'
          = (Raised (missing_signed_base directory), say "Finalizing APKs..." w').
Proof.
  intros Hdir Hb Hs Hfinal Hfb Hfc.
  destruct (finalize_ready directory w b s) as (D & Hd & HD & Hlb & Hls & HF & Hdb & Hdc);
    [done..|].
  destruct (finalize_apks_moved directory D b s w)
    as (w' & Hrun & Hcwd & Hmono & HF' & Hb' & Hs' & Hgb & Hgs & _); [done..|].
  exists w'. split; [done|].
  assert (resolve (fs w') (cwd w') directory = Some D) as Hd'
    by (rewrite Hcwd; by eapply resolve_mono).
  rewrite finalize_apks_run. unfold final_dir.
  rewrite (os_makedirs_in_directory _ _ _ D) by (auto || apply valid_name_final).
  cbn [fs say]. apply is_dir_at_lookup in HF' as [es ->].
  assert (exists_at (say "Finalizing APKs..." w') (signed_base directory) = false) as ->;
    [|done].
  unfold exists_at, signed_base. cbn [fs cwd say].
  rewrite (resolve_join_dir _ _ _ _ D) by (auto || apply valid_name_signed_base).
  rewrite Hgb. apply bool_decide_eq_false_2. by intros [? ?].
Qed.

Lemma finalize_apks_consumes_packages_witness :
  let w := workdir {[ "base_recompiled-aligned-signed.apk" := File (Bytes "signed base");
                      "split_recompiled-aligned-signed.apk" := File (Bytes "signed split") ]} in
  ∃ w', finalize_apks "." w = (Returned tt, w')
        ∧ finalize_apks "." w'
          = (Raised (missing_signed_base "."), say "Finalizing APKs..." w').
Proof.
  intros w.
  apply (finalize_apks_consumes_packages "." w (Bytes "signed base") (Bytes "signed split"));
    first [by vm_compute | by eexists].
Defined.

(** ** What the bundle leaves on disk *)

(** The archive of a directory that does not hold it: the disk afterwards
    is the disk before with the archive of every file of the tree at the
    output path. *)
Lemma create_xapk_disk (folder_path output_xapk_path : string) (w : world)
    (K kout : loc) (top : gmap string node) :
  resolve (fs w) (cwd w) folder_path = Some K →
  lookup_at K (fs w) = Some (Dir top) →
  wf_node (Dir top) →
  resolve (fs w) (cwd w) output_xapk_path = Some kout →
  is_dir_at (fs w) kout = false →
  ¬ K `prefix_of` kout →
  ∃ w', create_xapk folder_path output_xapk_path w = (Returned tt, w')
        ∧ cwd w' = cwd w
        ∧ fs w' = write_at kout
                    (File (Archive ((λ e, (str_join "/" e.1, e.2)) <$> tree_files (Dir top))))
                    (fs w).
Proof.
  intros Hfolder HK Hwf Hres Hout Houtside.
  pose proof (resolve_parent_dir _ _ _ _ Hres) as Hparent.
  eexists. split.
  - unfold create_xapk. rewrite bind_run. cbn [print]. rewrite bind_run.
    unfold zip_open. cbn [fs cwd say]. rewrite Hres.
    assert (∀ A (x y : A), match lookup_at kout (fs w) with
                           | Some (Dir _) => x | _ => y end = y) as ->.
    { intros A x y. unfold is_dir_at in Hout.
      by destruct (lookup_at kout (fs w)) as [[?|?]|]. }
    rewrite bind_run. unfold os_walk. cbn [fs cwd say set_fs].
    rewrite (disk_resolve (fs w) (cwd w) kout Hout).
    rewrite Hfolder. cbn [mbind option_bind].
    rewrite <-(app_nil_r K) at 1.
    rewrite (disk_below (fs w) K kout top HK Hout Houtside), app_nil_r, HK.
    rewrite bind_run. unfold set_fs, say. cbn [fs cwd console history].
    rewrite (bundle_node (fs w) (cwd w) folder_path K kout top HK Hwf Hparent
               Hout Houtside (Dir top) folder_path [] []);
      [|done|by rewrite app_nil_r|by rewrite app_nil_r].
    reflexivity.
  - done.
Qed.

(** A loop keeps what each of its rounds keeps. *)
Lemma for_each_invariant {A} (inv : world → Prop) (l : list A) (body : A → py unit) :
  (∀ x w, inv w → inv (body x w).2) →
  ∀ w, inv w → inv (for_each l body w).2.
Proof.
  intros Hbody. induction l as [|x l IH]; intros w Hw; [done|].
  simpl. rewrite bind_run. pose proof (Hbody x w Hw) as Hx.
  destruct (body x w) as [[[]|e] w1]; simpl in *; [by apply IH|done].
Qed.

Section Archive.

(** The disk the archive is opened on, and where. *)
Context (base : node) (cwdv : loc) (kout : loc).
Hypothesis Hparent : parent_dir base kout.

(** The disk is the one the archive was opened on, but for the members
    the archive holds. *)
Let only_archive (w : world) : Prop :=
  cwd w = cwdv ∧ ∃ ms, fs w = write_at kout (File (Archive ms)) base.

Lemma add_file_only_archive (folder_path root file : string) (w : world) :
  only_archive w → only_archive (add_file kout folder_path root file w).2.
Proof.
  intros [Hcwd [ms Hfs]]. unfold add_file. rewrite bind_run. unfold os_path_relpath.
  case_bool_decide; [by split; [|exists ms]|]. unfold zip_write.
  destruct (resolve _ _ _ ≫= _) as [n|]; [|by split; [|exists ms]].
  rewrite Hfs, lookup_at_write_same by done. cbn [fs cwd set_fs snd].
  split; [done|]. eexists. by rewrite write_at_write_at.
Qed.

Lemma loops_only_archive (folder_path : string)
    (triples : list (string * list string * list string)) (w : world) :
  only_archive w →
  only_archive (for_each triples (λ '(root, _, files),
                  for_each files (add_file kout folder_path root)) w).2.
Proof.
  apply for_each_invariant. intros [[root dirs] files] w'.
  apply for_each_invariant. intros file w''. apply add_file_only_archive.
Qed.

End Archive.

(** The disk after [create_xapk], whatever it does. *)
Lemma create_xapk_only_archive (folder_path output_xapk_path : string) (w : world) :
  let run := create_xapk folder_path output_xapk_path w in
  cwd run.2 = cwd w
  ∧ match resolve (fs w) (cwd w) output_xapk_path with
    | Some kout =>
        if is_dir_at (fs w) kout then fs run.2 = fs w ∧ ∃ e, run.1 = Raised e
        else ∃ ms, fs run.2 = write_at kout (File (Archive ms)) (fs w)
    | None => fs run.2 = fs w ∧ ∃ e, run.1 = Raised e
    end.
Proof.
  cbv zeta. unfold create_xapk. rewrite bind_run. cbn [print]. rewrite bind_run.
  unfold zip_open. cbn [fs cwd say].
  destruct (resolve (fs w) (cwd w) output_xapk_path) as [kout|] eqn:Hres;
    [|by split; [|split; [|eexists]]].
  unfold is_dir_at.
  destruct (lookup_at kout (fs w)) as [[c|es]|] eqn:Hl;
    [|by split; [|split; [|eexists]]|].
  all: rewrite bind_run; unfold os_walk; cbn [fst snd]; rewrite bind_run.
  all: pose proof (resolve_parent_dir _ _ _ _ Hres) as Hparent.
  all: match goal with
       | |- context [for_each ?l ?body ?w0] =>
           pose proof (loops_only_archive (fs w) (cwd w) kout Hparent folder_path l w0) as Hinv
       end.
  all: destruct Hinv as [Hcwd [ms Hfs]]; [by split; [|eexists]|].
  all: match goal with
       | |- context [for_each ?l ?body ?w0] =>
           destruct (for_each l body w0) as [[[]|e] w1]
       end; cbn [fst snd fs cwd say print mbind py_bind] in *.
  all: split; [done|by exists ms].
Qed.

(** X7: whether it returns or raises, the only thing [create_xapk] changes
    on disk is the file at the output path: the working directory is the
    same, every path that names another place names the regular file it
    named before, and after a return the output path holds an archive. When
    the output path cannot be resolved or names a directory, [create_xapk]
    raises and the disk is untouched. *)
Theorem create_xapk_changes_only_the_archive (folder_path output_xapk_path : string)
    (w : world) :
  let run := create_xapk folder_path output_xapk_path w in
  cwd run.2 = cwd w
  ∧ (∀ p, resolve (fs w) (cwd w) p ≠ resolve (fs w) (cwd w) output_xapk_path →
          file_at run.2 p = file_at w p)
  ∧ (∀ u, run.1 = Returned u → ∃ ms, file_at run.2 output_xapk_path = Some (Archive ms))
  ∧ (resolve (fs w) (cwd w) output_xapk_path = None ∨ is_Some (dir_at w output_xapk_path) →
     fs run.2 = fs w ∧ ∃ e, run.1 = Raised e).
Proof.
  cbv zeta.
  destruct (create_xapk_only_archive folder_path output_xapk_path w) as [Hcwd Hfs].
  set (run := create_xapk folder_path output_xapk_path w) in *.
  split; [done|].
  destruct (resolve (fs w) (cwd w) output_xapk_path) as [kout|] eqn:Hres.
  2:{ destruct Hfs as [Hfs [e He]]. split_and!.
      - intros p _. by apply file_at_same_disk.
      - intros u Hu. congruence.
      - intros _. split; [done|by exists e]. }
  destruct (is_dir_at (fs w) kout) eqn:Hdir.
  { destruct Hfs as [Hfs [e He]]. split_and!.
    - intros p _. by apply file_at_same_disk.
    - intros u Hu. congruence.
    - intros _. split; [done|by exists e]. }
  destruct Hfs as [ms Hfs].
  assert (∀ p, file_at run.2 p
               = file_at (set_fs w (write_at kout (File (Archive ms)) (fs w))) p) as Hsame
    by (intros p; by apply file_at_same_disk).
  split_and!.
  - intros p Hp. rewrite Hsame, (file_at_write w output_xapk_path) by done.
    destruct (resolve (fs w) (cwd w) p) as [k'|] eqn:Hk'.
    + by rewrite bool_decide_eq_false_2 by congruence.
    + unfold file_at. by rewrite Hk'.
  - intros u _. exists ms.
    rewrite Hsame, (file_at_write w output_xapk_path), Hres by done.
    by rewrite bool_decide_eq_true_2.
  - intros [?|[es Hes]]; [done|]. unfold dir_at in Hes. rewrite Hres in Hes.
    simpl in Hes. unfold is_dir_at in Hdir.
    by destruct (lookup_at kout (fs w)) as [[?|?]|].
Qed.

Lemma create_xapk_changes_only_the_archive_witness :
  let w := workdir {[ "final" := Dir {[ "base.apk" := File (Bytes "signed base") ]};
                      "notes.txt" := File (Bytes "keep me") ]} in
  file_at (create_xapk "final" "out.xapk" w).2 "notes.txt" = Some (Bytes "keep me")
  ∧ file_at (create_xapk "final" "out.xapk" w).2 "final/base.apk" = Some (Bytes "signed base")
  ∧ (∃ ms, file_at (create_xapk "final" "out.xapk" w).2 "out.xapk" = Some (Archive ms))
  ∧ fs (create_xapk "final" "final" w).2 = fs w
  ∧ ∃ e, (create_xapk "final" "final" w).1 = Raised e.
Proof.
  intros w.
  destruct (create_xapk_changes_only_the_archive "final" "out.xapk" w)
    as (_ & Hkeep & Hout & _).
  destruct (create_xapk_changes_only_the_archive "final" "final" w) as (_ & _ & _ & Hdir).
  split_and!.
  - rewrite (Hkeep "notes.txt"); by vm_compute.
  - rewrite (Hkeep "final/base.apk"); by vm_compute.
  - apply (Hout tt). by vm_compute.
  - apply Hdir. right. by eexists.
  - apply Hdir. right. by eexists.
Defined.

(** X8: when the folder to bundle does not exist, or is not a directory,
    [create_xapk] raises nothing: it returns and leaves an archive without
    members at the output path (which has to name a place where a file can
    be written). *)
Theorem create_xapk_missing_folder (folder_path output_xapk_path : string) (w : world) :
  dir_at w folder_path = None →
  is_Some (resolve (fs w) (cwd w) output_xapk_path) →
  dir_at w output_xapk_path = None →
  ∃ w', create_xapk folder_path output_xapk_path w = (Returned tt, w')
        ∧ file_at w' output_xapk_path = Some (Archive []).
Proof.
  intros Hfolder [kout Hres] Hout.
  assert (is_dir_at (fs w) kout = false) as Hdir.
  { unfold dir_at in Hout. rewrite Hres in Hout. simpl in Hout. unfold is_dir_at.
    by destruct (lookup_at kout (fs w)) as [[?|?]|]. }
  pose proof (resolve_parent_dir _ _ _ _ Hres) as Hparent.
  set (disk := write_at kout (File (Archive [])) (fs w)).
  assert (∀ k, is_dir_at disk k = is_dir_at (fs w) k) as Hdirs
    by (intros k; by apply is_dir_at_write_file).
  assert (∀ top, match resolve disk (cwd w) folder_path ≫= λ k, lookup_at k disk with
                 | Some n => walk_node top n
                 | None => []
                 end = []) as Hwalk.
  { intros top. rewrite (resolve_ext disk (fs w)) by done. unfold dir_at in Hfolder.
    destruct (resolve (fs w) (cwd w) folder_path) as [K|]; [|done]. simpl in *.
    pose proof (Hdirs K) as HK. unfold is_dir_at in HK.
    by destruct (lookup_at K disk) as [[?|?]|], (lookup_at K (fs w)) as [[?|?]|]. }
  eexists. split.
  - unfold create_xapk. rewrite bind_run. cbn [print]. rewrite bind_run.
    unfold zip_open. cbn [fs cwd say]. rewrite Hres.
    assert (∀ A (x y : A), match lookup_at kout (fs w) with
                           | Some (Dir _) => x | _ => y end = y) as ->.
    { intros A x y. unfold is_dir_at in Hdir.
      by destruct (lookup_at kout (fs w)) as [[?|?]|]. }
    rewrite bind_run. unfold os_walk. cbn [fs cwd say set_fs]. fold disk.
    rewrite Hwalk. reflexivity.
  - unfold file_at. cbn [fs cwd say set_fs print mbind py_bind fst snd]. fold disk.
    rewrite (resolve_ext disk (fs w)), Hres by done. simpl.
    unfold disk. by rewrite lookup_at_write_same.
Qed.

Lemma create_xapk_missing_folder_witness :
  ∃ w', create_xapk "./final" "umamusume.xapk" fresh = (Returned tt, w')
        ∧ file_at w' "umamusume.xapk" = Some (Archive []).
Proof.
  apply (create_xapk_missing_folder "./final" "umamusume.xapk" fresh);
    first [by vm_compute | by eexists].
Defined.

(** ** From the signed packages to the bundle *)



(** ** More on the native library *)

(** The disk after a run that found the library as a regular file: the
    directories are the same, the backup holds the original, the library
    holds the download, and every other file is as it was. *)
Lemma modify_files_disk (spawn : process) (remote : string → option content)
    (libmain_url split_decompile_folder : string) (w w' : world) (original : content) :
  downloads spawn remote →
  file_at w (orig_file split_decompile_folder) = Some original →
  modify_files spawn libmain_url split_decompile_folder w = (Returned tt, w') →
  ∃ P replacement,
    let lib := P ++ ["libmain.so"] in
    let bak := P ++ ["libmain_orig.so"] in
    resolve (fs w) (cwd w) (mod_file_path split_decompile_folder) = Some lib
    ∧ resolve (fs w) (cwd w) (new_orig_file split_decompile_folder) = Some bak
    ∧ remote libmain_url = Some replacement
    ∧ cwd w' = cwd w
    ∧ (∀ k, is_dir_at (fs w') k = is_dir_at (fs w) k)
    ∧ lookup_at lib (fs w') = Some (File replacement)
    ∧ lookup_at bak (fs w') = Some (File original)
    ∧ ∀ k, k ≠ lib → k ≠ bak → is_dir_at (fs w) k = false →
           lookup_at k (fs w') = lookup_at k (fs w).
Proof.
  intros Htool Horig Hrun. rewrite modify_files_run in Hrun. cbv zeta in Hrun.
  set (w0 := say "🛠️ Modifying files..." w) in *.
  unfold file_at in Horig.
  destruct (resolve (fs w) (cwd w) (orig_file split_decompile_folder)) as [ks|] eqn:Hks;
    [|done].
  simpl in Horig. destruct (lookup_at ks (fs w)) as [[c|?]|] eqn:Hl; simplify_eq.
  assert (exists_at w0 (orig_file split_decompile_folder) = true) as Hex.
  { unfold exists_at. change (fs w0) with (fs w). change (cwd w0) with (cwd w).
    rewrite Hks, Hl. by apply bool_decide_eq_true_2. }
  rewrite Hex in Hrun.
  destruct (libmain_paths _ _ _ _ Hks) as (P & HP & -> & Hnew).
  assert (P ++ ["libmain.so"] ≠ P ++ ["libmain_orig.so"]) as Hne
    by (intros H%app_inv_head; by simplify_eq).
  rewrite (os_rename_file w0 _ _ (P ++ ["libmain.so"]) (P ++ ["libmain_orig.so"]) original)
    in Hrun; [|done..|by apply (sibling_not_prefix P _ _ [])].
  destruct (is_dir_at (fs w0) (P ++ ["libmain_orig.so"])) eqn:Hbak; [done|].
  change (fs w0) with (fs w) in *. change (cwd w0) with (cwd w) in *.
  destruct (moved_file_disk (fs w) (P ++ ["libmain.so"]) (P ++ ["libmain_orig.so"]) original)
    as (Hdirs & Hb & Ha & Hrest); [done|by apply parent_dir_snoc|done..|].
  set (root1 := write_at (P ++ ["libmain_orig.so"]) (File original)
                  (remove_at (P ++ ["libmain.so"]) (fs w))) in *.
  apply finish_returned in Hrun as (r & Hr & Hrc & Hfs & Hcwd).
  destruct (Htool _ _ _ _ Hr Hrc) as (k & replacement & Hrem & Hk & Hkd & Hdisk).
  cbn [fs cwd announced say set_fs] in Hk, Hkd, Hdisk, Hcwd.
  change (cwd w0) with (cwd w) in *.
  rewrite (resolve_ext root1 (fs w)) in Hk by done.
  change (mod_file_path split_decompile_folder)
    with (orig_file split_decompile_folder) in Hk.
  rewrite Hks in Hk. injection Hk as <-.
  assert (parent_dir root1 (P ++ ["libmain.so"])) as Hparent
    by (apply parent_dir_snoc; by rewrite Hdirs).
  exists P, replacement. cbv zeta. rewrite Hfs, Hdisk.
  split_and!; [done..| | | |].
  - intros k. by rewrite is_dir_at_write_file, Hdirs.
  - by apply lookup_at_write_same.
  - rewrite lookup_at_write_file_beside; [done..| |done].
    unfold is_dir_at. by rewrite Hb.
  - intros k Hk1 Hk2 Hk. rewrite lookup_at_write_file_beside; [by apply Hrest|done..| |done].
    by rewrite Hdirs.
Qed.

(** X10: [modify_files] is not idempotent. Of two runs in a row, both
    successful, the second takes the library the first one downloaded for
    the original: afterwards the backup path holds the first download, the
    library path holds the second, and the backup of the original has been
    overwritten. *)
Theorem modify_files_twice (spawn : process) (remote : string → option content)
    (url1 url2 split_decompile_folder : string) (w w1 w2 : world) (original : content) :
  downloads spawn remote →
  file_at w (orig_file split_decompile_folder) = Some original →
  modify_files spawn url1 split_decompile_folder w = (Returned tt, w1) →
  modify_files spawn url2 split_decompile_folder w1 = (Returned tt, w2) →
  ∃ first second,
    remote url1 = Some first ∧ remote url2 = Some second
    ∧ file_at w1 (new_orig_file split_decompile_folder) = Some original
    ∧ file_at w2 (new_orig_file split_decompile_folder) = Some first
    ∧ file_at w2 (mod_file_path split_decompile_folder) = Some second.
Proof.
  intros Htool Horig Hrun1 Hrun2.
  destruct (modify_files_disk spawn remote url1 split_decompile_folder w w1 original)
    as (P & first & Hlib & Hbak & Hrem1 & Hcwd1 & Hdirs1 & Hl1 & Hb1 & _); [done..|].
  cbv zeta in *.
  assert (∀ p, resolve (fs w1) (cwd w1) p = resolve (fs w) (cwd w) p) as Hres1
    by (intros p; rewrite Hcwd1; by apply resolve_ext).
  assert (file_at w1 (orig_file split_decompile_folder) = Some first) as Horig1.
  { unfold file_at. rewrite Hres1.
    change (orig_file split_decompile_folder) with (mod_file_path split_decompile_folder).
    by rewrite Hlib; simpl; rewrite Hl1. }
  destruct (modify_files_disk spawn remote url2 split_decompile_folder w1 w2 first)
    as (P' & second & Hlib' & Hbak' & Hrem2 & Hcwd2 & Hdirs2 & Hl2 & Hb2 & _); [done..|].
  cbv zeta in *.
  assert (∀ p, resolve (fs w2) (cwd w2) p = resolve (fs w1) (cwd w1) p) as Hres2
    by (intros p; rewrite Hcwd2; by apply resolve_ext).
  exists first, second. split_and!; [done|done|..]; unfold file_at.
  - by rewrite Hres1, Hbak; simpl; rewrite Hb1.
  - by rewrite Hres2, Hbak'; simpl; rewrite Hb2.
  - by rewrite Hres2, Hlib'; simpl; rewrite Hl2.
Qed.

Lemma modify_files_twice_witness :
  let w := workdir {[ "split" := decompiled (Bytes "original library") ]} in
  let w1 := (modify_files ideal "https://dl.example/libmain.so" "split" w).2 in
  let w2 := (modify_files ideal "https://dl.example/libmain-v2.so" "split" w1).2 in
  file_at w1 (new_orig_file "split") = Some (Bytes "original library")
  ∧ file_at w2 (new_orig_file "split") = Some (Bytes "patched library")
  ∧ file_at w2 (mod_file_path "split") = Some (Bytes "https://dl.example/libmain-v2.so").
Proof.
  intros w w1 w2.
  destruct (modify_files_twice ideal internet "https://dl.example/libmain.so"
              "https://dl.example/libmain-v2.so" "split" w w1 w2 (Bytes "original library"))
    as (first & second & Hf & Hs & H1 & H2 & H3);
    [apply ideal_downloads|by vm_compute..|].
  vm_compute in Hf. vm_compute in Hs. injection Hf as <-. injection Hs as <-.
  split_and!; [exact H1|exact H2|exact H3].
Defined.

(** X11: a successful [modify_files] on a library that is a regular file
    changes two names and nothing else: the working directory and the
    directories are the same, and every path that resolves neither to the
    library nor to its backup names the regular file it named before. *)
Theorem modify_files_keeps_other_files (spawn : process) (remote : string → option content)
    (libmain_url split_decompile_folder : string) (w w' : world) (original : content) :
  downloads spawn remote →
  file_at w (orig_file split_decompile_folder) = Some original →
  modify_files spawn libmain_url split_decompile_folder w = (Returned tt, w') →
  cwd w' = cwd w
  ∧ (∀ k, is_dir_at (fs w') k = is_dir_at (fs w) k)
  ∧ ∀ p, resolve (fs w) (cwd w) p
           ≠ resolve (fs w) (cwd w) (mod_file_path split_decompile_folder) →
         resolve (fs w) (cwd w) p
           ≠ resolve (fs w) (cwd w) (new_orig_file split_decompile_folder) →
         file_at w' p = file_at w p.
Proof.
  intros Htool Horig Hrun.
  destruct (modify_files_disk spawn remote libmain_url split_decompile_folder w w' original)
    as (P & replacement & Hlib & Hbak & _ & Hcwd & Hdirs & _ & _ & Hrest); [done..|].
  cbv zeta in *. split_and!; [done..|].
  intros p Hp1 Hp2. unfold file_at.
  rewrite Hcwd, (resolve_ext (fs w') (fs w)) by done.
  destruct (resolve (fs w) (cwd w) p) as [k|]; [|done]. simpl.
  destruct (is_dir_at (fs w) k) eqn:Hk.
  - pose proof (Hdirs k) as Hk'. rewrite Hk in Hk'.
    apply is_dir_at_lookup in Hk as [? ->]. by apply is_dir_at_lookup in Hk' as [? ->].
  - rewrite Hrest; [done| | |done]; congruence.
Qed.

Lemma modify_files_keeps_other_files_witness :
  let w := workdir {[ "split" := decompiled (Bytes "original library") ]} in
  let w' := (modify_files ideal "https://dl.example/libmain.so" "split" w).2 in
  file_at w "split/apktool.yml" = Some (Bytes "version: 2.9.3")
  ∧ file_at w' "split/apktool.yml" = Some (Bytes "version: 2.9.3").
Proof.
  intros w w'.
  destruct (modify_files_keeps_other_files ideal internet "https://dl.example/libmain.so"
              "split" w w' (Bytes "original library")) as (_ & _ & Hkeep);
    [apply ideal_downloads|by vm_compute..|].
  split; [by vm_compute|]. rewrite (Hkeep "split/apktool.yml"); by vm_compute.
Defined.

(** X12: when the library is a regular file and the backup path names a
    directory, the rename of line 81 fails: [modify_files] raises
    [IsADirectoryError] after its first message, the download is never
    started, and the disk, with the original library in place, is as it
    was. *)
Theorem modify_files_backup_is_a_directory (spawn : process)
    (libmain_url split_decompile_folder : string) (w : world) (original : content) :
  file_at w (orig_file split_decompile_folder) = Some original →
  is_Some (dir_at w (new_orig_file split_decompile_folder)) →
  ∃ msg,
    modify_files spawn libmain_url split_decompile_folder w
    = (Raised (IsADirectoryError msg), say "🛠️ Modifying files..." w)
    ∧ spawned (modify_files spawn libmain_url split_decompile_folder) w = [].
Proof.
  intros Horig [es Hes].
  unfold file_at in Horig. unfold dir_at in Hes.
  destruct (resolve (fs w) (cwd w) (orig_file split_decompile_folder)) as [ks|] eqn:Hks;
    [|done].
  simpl in Horig. destruct (lookup_at ks (fs w)) as [[c|?]|] eqn:Hl; simplify_eq.
  destruct (libmain_paths _ _ _ _ Hks) as (P & HP & -> & Hnew).
  rewrite Hnew in Hes. simpl in Hes.
  destruct (lookup_at (P ++ ["libmain_orig.so"]) (fs w)) as [[?|es']|] eqn:Hbak;
    simplify_eq.
  set (w0 := say "🛠️ Modifying files..." w).
  assert (exists_at w0 (orig_file split_decompile_folder) = true) as Hex.
  { unfold exists_at. change (fs w0) with (fs w). change (cwd w0) with (cwd w).
    rewrite Hks, Hl. by apply bool_decide_eq_true_2. }
  assert (∃ msg, modify_files spawn libmain_url split_decompile_folder w
                 = (Raised (IsADirectoryError msg), w0)) as [msg Hrun].
  { rewrite modify_files_run. cbv zeta. fold w0. rewrite Hex.
    rewrite (os_rename_file w0 _ _ (P ++ ["libmain.so"]) (P ++ ["libmain_orig.so"])
               original); [|done..|by apply (sibling_not_prefix P _ _ [])].
    unfold is_dir_at. change (fs w0) with (fs w). rewrite Hbak. by eexists. }
  exists msg. split; [done|].
  unfold spawned. rewrite Hrun. cbn [snd]. change (history w0) with (history w).
  by rewrite drop_all.
Qed.

Lemma modify_files_backup_is_a_directory_witness :
  let w := workdir {[ "split" := Dir {[ "lib" := Dir {[ "arm64-v8a" :=
             Dir {[ "libmain.so" := File (Bytes "original library");
                    "libmain_orig.so" := Dir ∅ ]} ]} ]} ]} in
  ∃ msg,
    modify_files ideal "https://dl.example/libmain.so" "split" w
    = (Raised (IsADirectoryError msg), say "🛠️ Modifying files..." w)
    ∧ spawned (modify_files ideal "https://dl.example/libmain.so" "split") w = [].
Proof.
  intros w.
  apply (modify_files_backup_is_a_directory ideal "https://dl.example/libmain.so" "split" w
           (Bytes "original library")); first [by vm_compute | by eexists].
Defined.

(** ** The keystore *)

(** A sequence that returns: both parts returned. *)
Lemma bind_returned {A B} (m : py A) (f : A → py B) (w w' : world) (b : B) :
  (m ≫= f) w = (Returned b, w') →
  ∃ a w1, m w = (Returned a, w1) ∧ f a w1 = (Returned b, w').
Proof.
  rewrite bind_run. destruct (m w) as [[a|e] w1]; [|done]. intros H. by exists a, w1.
Qed.

(** X13: when [setup_environment] returns, its last download has exited
    with status zero; if [wget] does what that status promises, the path
    [setup_environment] returns names a regular file that holds the document
    served at the keystore URL. *)
Theorem setup_environment_fetches_keystore (spawn : process)
    (remote : string → option content) (keystore_url : string) (w w' : world)
    (keystore_filename : string) :
  downloads spawn remote →
  setup_environment spawn keystore_url w = (Returned keystore_filename, w') →
  ∃ keystore, remote keystore_url = Some keystore
              ∧ file_at w' keystore_filename = Some keystore.
Proof.
  intros Htool Hrun. unfold setup_environment in Hrun.
  repeat match type of Hrun with
         | (run_command _ ["wget"; "-q"; keystore_url; "-O"; _] _ ≫= _) _ = _ => fail 1
         | (_ ≫= _) _ = _ =>
             let Hm := fresh "Hm" in
             apply bind_returned in Hrun as (? & ? & Hm & Hrun); clear Hm
         end.
  apply bind_returned in Hrun as ([] & w7 & Hwget & Hrun).
  apply run_command_returned in Hwget as (r & Hr & Hrc & ->).
  cbv [mbind py_bind print mret py_ret] in Hrun. injection Hrun as <- <-.
  destruct (Htool _ _ _ _ Hr Hrc) as (k & keystore & Hrem & Hk & Hkd & Hdisk).
  exists keystore. split; [done|].
  match type of Hr with
  | spawn ?c (announced ?c ?w6) = _ =>
      rewrite (file_at_same_disk _ (set_fs w6 (write_at k (File keystore) (fs w6))))
        by (by cbn [fs cwd say set_fs after_success exited ran announced]; rewrite ?Hdisk);
      rewrite (file_at_write w6 "debug.keystore") by done;
      change (resolve (fs w6) (cwd w6) "debug.keystore")
        with (resolve (fs (announced c w6)) (cwd (announced c w6)) "debug.keystore")
  end.
  rewrite Hk. by rewrite bool_decide_eq_true_2.
Qed.

Lemma setup_environment_fetches_keystore_witness :
  let w' := (setup_environment ideal "https://dl.example/debug.keystore" fresh).2 in
  file_at w' "debug.keystore" = Some (Bytes "keystore").
Proof.
  intros w'.
  destruct (setup_environment_fetches_keystore ideal internet
              "https://dl.example/debug.keystore" fresh w' "debug.keystore")
    as (keystore & Hrem & Hfile); [apply ideal_downloads|by vm_compute|].
  vm_compute in Hrem. injection Hrem as <-. exact Hfile.
Defined.

(** ** The names the stages agree on *)

(** X14: whatever the directory, the name [finalize_apks] looks for is, in
    the same directory, the name [recompile_and_sign] gave the rebuilt
    package with [-aligned-signed] put before its extension: a common prefix
    is followed by [base_recompiled.apk] in the one and by
    [base_recompiled-aligned-signed.apk] in the other, and likewise for the
    split package. *)
Theorem signed_names_follow_rebuilt_names (directory : string) :
  ∃ pre,
    base_out_path directory = pre +:+ "base_recompiled" +:+ ".apk"
    ∧ signed_base directory = pre +:+ "base_recompiled" +:+ "-aligned-signed.apk"
    ∧ split_out_path directory = pre +:+ "split_recompiled" +:+ ".apk"
    ∧ signed_split directory = pre +:+ "split_recompiled" +:+ "-aligned-signed.apk"
    ∧ final_dir directory = pre +:+ "final"
    ∧ (pre = "" ∨ ends_with_slash pre = true).
Proof.
  unfold base_out_path, signed_base, split_out_path, signed_split, final_dir, os_path_join.
  simpl starts_with_slash. cbv iota.
  destruct (decide (directory = "")) as [->|Hne].
  { exists "". split_and!; try done. by left. }
  rewrite bool_decide_eq_false_2 by done. simpl orb.
  destruct (ends_with_slash directory) eqn:E.
  - exists directory. split_and!; try done. by right.
  - exists (directory +:+ "/"). rewrite !str_app_assoc. split_and!; try done.
    right. clear Hne E. induction directory as [|c d IH]; [done|].
    rewrite str_app_cons. simpl. rewrite IH. by destruct (d +:+ "/").
Qed.

(** ** What finalizing leaves alone *)

(** X15: a successful [finalize_apks] changes nothing but the two signed
    packages and the final directory: the working directory is the same,
    and every path that resolved before, to a place other than the two
    signed packages and the two names in the final directory, resolves to
    the same place and names the regular file it named before. *)
Theorem finalize_apks_keeps_other_files (directory : string) (w : world) (b s : content) :
  is_Some (dir_at w directory) →
  file_at w (signed_base directory) = Some b →
  file_at w (signed_split directory) = Some s →
  file_at w (final_dir directory) = None →
  dir_at w (os_path_join (final_dir directory) "base.apk") = None →
  dir_at w (os_path_join (final_dir directory) "config.arm64_v8a.apk") = None →
  ∃ w', finalize_apks directory w = (Returned tt, w')
        ∧ cwd w' = cwd w
        ∧ ∀ p k, resolve (fs w) (cwd w) p = Some k →
                 Some k ≠ resolve (fs w) (cwd w) (signed_base directory) →
                 Some k ≠ resolve (fs w) (cwd w) (signed_split directory) →
                 Some k ≠ resolve (fs w) (cwd w)
                            (os_path_join (final_dir directory) "base.apk") →
                 Some k ≠ resolve (fs w) (cwd w)
                            (os_path_join (final_dir directory) "config.arm64_v8a.apk") →
                 resolve (fs w') (cwd w') p = Some k ∧ file_at w' p = file_at w p.
Proof.
  intros Hdir Hb Hs Hfinal Hfb Hfc.
  destruct (finalize_ready directory w b s) as (D & Hd & HD & Hlb & Hls & HF & Hdb & Hdc);
    [done..|].
  destruct (finalize_apks_moved directory D b s w)
    as (w' & Hrun & Hcwd & Hmono & HF' & Hb' & Hs' & Hgb & Hgs & Hrest); [done..|].
  exists w'. split_and!; [done..|].
  intros p k Hp Hk1 Hk2 Hk3 Hk4.
  assert (resolve (fs w') (cwd w') p = Some k) as Hp'
    by (rewrite Hcwd; by eapply resolve_mono).
  split; [done|]. unfold file_at. rewrite Hp', Hp. simpl.
  destruct (is_dir_at (fs w) k) eqn:Hkd.
  { pose proof (Hmono k Hkd) as Hkd'.
    apply is_dir_at_lookup in Hkd as [? ->]. by apply is_dir_at_lookup in Hkd' as [? ->]. }
  destruct (decide (k = D ++ ["final"])) as [->|Hk5].
  { apply is_dir_at_lookup in HF' as [? ->].
    destruct (lookup_at (D ++ ["final"]) (fs w)) as [[c|?]|] eqn:E; [|done..].
    by destruct (HF c). }
  assert (∀ name, valid_name name →
            Some k ≠ resolve (fs w) (cwd w) (os_path_join (final_dir directory) name) →
            k ≠ (D ++ ["final"]) ++ [name]) as Hin.
  { intros name Hv Hne ->. apply resolve_parent_dir in Hp.
    specialize (Hp _ _ eq_refl). apply Hne. symmetry.
    apply resolve_join_dir; [done| |done].
    apply resolve_join_dir; [apply valid_name_final|done..]. }
  rewrite Hrest; [done|..|done|by apply Hin, Hk3; apply valid_name_base_apk
                  |by apply Hin, Hk4; apply valid_name_config_apk|done].
  - intros ->. apply Hk1. symmetry. unfold signed_base.
    apply resolve_join_dir; [apply valid_name_signed_base|done..].
  - intros ->. apply Hk2. symmetry. unfold signed_split.
    apply resolve_join_dir; [apply valid_name_signed_split|done..].
Qed.

Lemma finalize_apks_keeps_other_files_witness :
  let w := workdir {[ "base_recompiled-aligned-signed.apk" := File (Bytes "signed base");
                      "split_recompiled-aligned-signed.apk" := File (Bytes "signed split");
                      "debug.keystore" := File (Bytes "keystore") ]} in
  ∃ w', finalize_apks "." w = (Returned tt, w')
        ∧ file_at w' "debug.keystore" = Some (Bytes "keystore").
Proof.
  intros w.
  destruct (finalize_apks_keeps_other_files "." w (Bytes "signed base")
              (Bytes "signed split")) as (w' & Hrun & _ & Hkeep);
    try first [by vm_compute | by eexists].
  exists w'. split; [exact Hrun|].
  destruct (Hkeep "debug.keystore" ["work"; "debug.keystore"]) as [_ ->];
    by vm_compute.
Defined.
